(** * Synthetic physiological data generator for therapeutic hypothermia

    A shallow embedding of [utils/data_generator.py],
    [utils/feature_engineering.py] and the scoring part of
    [server/mock_live_feed.py].

    Conventions of the embedding.
    - Python and NumPy floating point values are exact rationals ([Q]),
      except for the minute arithmetic of [generate_eeg_data], which is
      kept in IEEE binary64 ([PrimFloat]) because rounding decides how long
      a seizure window lasts.  Where the range of binary64 decides whether
      a call returns, in [simulate_rectal_temperature], the quotient that
      rounds to zero and the one that is infinite are told by their
      magnitude.
    - The NumPy global generator is explicit state, threaded through every
      draw in the order the source makes them; the generator itself is an
      interface ([RandomSource]) with one executable instance ([Oracle]).
    - Python exceptions are the [Raise] results of a small state-and-error
      monad.
    - A pandas DataFrame is an ordered association list from column names
      to columns of cells; NaN is the cell [CNaN]. *)

From Stdlib Require Import ZArith QArith Qround Qminmax Qabs Qpower Lqa.
From Stdlib Require Import List String Ascii Bool Arith Lia DecimalString.
From Stdlib Require Import Floats Uint63.
Import ListNotations.

Local Open Scope Q_scope.

(* ------------------------------------------------------------------ *)
(** ** Outcomes, the random source and the generator monad *)

Inductive exn : Type :=
| ZeroDivisionError
| ValueError (msg : string)
| KeyError (key : string)
| OverflowError (msg : string).

Inductive result (A : Type) : Type :=
| Ok (a : A)
| Raise (e : exn).
Arguments Ok {A} a.
Arguments Raise {A} e.

(** [np.random]: the legacy global generator.  A draw takes the state and
    returns the outcome with the next state.  [choice_index n] is the
    position [np.random.choice] picks in a sequence of [n] items. *)
Class RandomSource : Type := {
  rng : Type;
  seed_state : Z -> rng;
  random_sample : rng -> Q * rng;
  uniform : Q -> Q -> rng -> Q * rng;
  normal : Q -> Q -> rng -> Q * rng;
  randint : Z -> Z -> rng -> Z * rng;
  choice_index : nat -> rng -> nat * rng;
  uniform_range : forall lo hi s, lo <= hi ->
      lo <= fst (uniform lo hi s) /\ fst (uniform lo hi s) <= hi;
  choice_index_lt : forall n s, (0 < n)%nat -> (fst (choice_index n s) < n)%nat
}.

(** [np.sin] and [np.pi] on rationals are parameters of the model. *)
Class Numerics : Type := {
  np_sin : Q -> Q;
  np_pi : Q
}.

(** The process state a call can read or change: the global generator and
    the wall clock read by [datetime.now()] (successive readings). *)
Record world {R : RandomSource} : Type := mkWorld {
  np_random : rng;
  clock_reads : nat;
  wall_clock : nat -> Z
}.
Arguments mkWorld {R} np_random clock_reads wall_clock.

Definition M {R : RandomSource} (A : Type) : Type := world -> result (A * world).

Definition ret {R : RandomSource} {A} (a : A) : M A := fun w => Ok (a, w).

Definition bind {R : RandomSource} {A B} (c : M A) (k : A -> M B) : M B :=
  fun w => match c w with
           | Ok (a, w') => k a w'
           | Raise e => Raise e
           end.

Definition raise {R : RandomSource} {A} (e : exn) : M A := fun _ => Raise e.

Definition lift_result {R : RandomSource} {A} (r : result A) : M A :=
  fun w => match r with Ok a => Ok (a, w) | Raise e => Raise e end.

(** One draw from the global generator. *)
Definition draw {R : RandomSource} {A} (d : rng -> A * rng) : M A :=
  fun w => let (a, s) := d (np_random w) in
           Ok (a, mkWorld s (clock_reads w) (wall_clock w)).

Definition datetime_now {R : RandomSource} : M Z :=
  fun w => Ok (wall_clock w (clock_reads w),
               mkWorld (np_random w) (S (clock_reads w)) (wall_clock w)).

(** [np.random.seed(seed)] *)
Definition np_random_seed {R : RandomSource} (seed : Z) : M unit :=
  fun w => Ok (tt, mkWorld (seed_state seed) (clock_reads w) (wall_clock w)).

(** What a run returned, without the world it left. *)
Definition value_of {R : RandomSource} {A} (r : result (A * world)) : option A :=
  match r with
  | Ok (a, _) => Some a
  | Raise _ => None
  end.

Declare Scope gen_scope.
Delimit Scope gen_scope with gen.
Notation "x <- c ;; k" := (bind c (fun x => k))
  (at level 61, c at next level, right associativity) : gen_scope.
Notation "c ;;; k" := (bind c (fun _ => k))
  (at level 61, right associativity) : gen_scope.
Local Open Scope gen_scope.

(** [for x in l: body(x)], collecting what each iteration produces. *)
Fixpoint for_each {R : RandomSource} {A B} (body : A -> M B) (l : list A) : M (list B) :=
  match l with
  | [] => ret []
  | x :: rest =>
      b <- body x ;;
      bs <- for_each body rest ;;
      ret (b :: bs)
  end.

(** [np.random.choice(l)] *)
Definition np_random_choice {R : RandomSource} {A} (l : list A) : M A :=
  match l with
  | [] => raise (ValueError "a must be non-empty")
  | d :: _ => i <- draw (choice_index (List.length l)) ;; ret (nth i l d)
  end.

(* ------------------------------------------------------------------ *)
(** ** NumPy and Python arithmetic helpers *)

(** [np.arange(0, stop, step)] on integers, [step <> 0]:
    [ceil(stop / step)] points when that is positive. *)
Definition arange_len (stop step : Z) : nat :=
  Z.to_nat (- ((- stop) / step))%Z.

Definition np_arange (stop step : Z) : list Z :=
  map (fun k => (Z.of_nat k * step)%Z) (seq 0 (arange_len stop step)).

(** [np.clip(x, lo, hi)] is [minimum(maximum(x, lo), hi)]. *)
Definition np_clip (x lo hi : Q) : Q := Qmin (Qmax x lo) hi.

(** The range of binary64.  A quotient is rounded to the nearest
    float, ties to even: it is [0.0] when its magnitude is at most
    [2 ^ -1075], half the smallest subnormal, and infinite from
    [2 ^ 1024 - 2 ^ 970] on, half a unit in the last place above the
    largest float. *)
Definition binary64_half_min : Q := 1 # 2 ^ 1075.

Definition binary64_inf_bound : Q := inject_Z (2 ^ 1024 - 2 ^ 970).

Definition float_rounds_to_zero (x : Q) : bool :=
  Qle_bool (Qabs x) binary64_half_min.

Definition float_rounds_to_inf (x : Q) : bool :=
  Qle_bool binary64_inf_bound (Qabs x).

(** [int(x)] on a float truncates toward zero. *)
Definition py_int (x : Q) : Z := Z.quot (Qnum x) (Zpos (Qden x)).

(** [x % y] on floats, [y <> 0]: the result takes the sign of [y]. *)
Definition py_fmod (x y : Q) : Q := x - inject_Z (Qfloor (x / y)) * y.

(** [range(len(l))] zipped with [l], as the loops index their arrays. *)
Definition enumerate {A} (l : list A) : list (nat * A) :=
  combine (seq 0 (List.length l)) l.

Definition Qnat (n : nat) : Q := inject_Z (Z.of_nat n).

(* ------------------------------------------------------------------ *)
(** ** Signal synthesizers ([InfantPhysiologicalDataGenerator]) *)

Section Synthesizers.
Context {R : RandomSource} {N : Numerics}.

(** [simulate_rectal_temperature].  [num_points = duration_minutes //
    time_step] raises on a zero step; the cooling-phase length divides by
    [cooling_rate / 60], which is [0.0] for a rate that is zero or so
    small that the quotient rounds to zero; and [int] raises on a phase
    length that is infinite. *)
Definition simulate_rectal_temperature
    (baseline_temp target_temp cooling_rate rewarming_rate : Q)
    (duration_minutes time_step : Z) : M (list Z * list Q) :=
  if (time_step =? 0)%Z then raise ZeroDivisionError else
  let time_points := np_arange duration_minutes time_step in
  if float_rounds_to_zero (cooling_rate / 60) then raise ZeroDivisionError else
  let cooling_phase_minutes :=
    Qabs (baseline_temp - target_temp) / (cooling_rate / 60) in
  if float_rounds_to_inf cooling_phase_minutes
  then raise (OverflowError "cannot convert float infinity to integer") else
  let cooling_phase_steps :=
    py_int (cooling_phase_minutes / inject_Z time_step) in
  temperatures <-
    for_each (fun it : nat * Z =>
      let (i, tp) := it in
      current_temp <-
        (if (Z.of_nat i <? cooling_phase_steps)%Z then
           noise <- draw (normal 0 0.05) ;;
           ret (baseline_temp - (cooling_rate / 60 * inject_Z tp) + noise)
         else
           noise <- draw (normal 0 0.15) ;;
           ret (target_temp + noise)) ;;
      ret (np_clip current_temp (target_temp - 0.5) (baseline_temp + 0.5)))
    (enumerate time_points) ;;
  ret (time_points, temperatures).

(** [generate_heart_rate_data] *)
Definition generate_heart_rate_data
    (baseline_hr : Q) (duration_minutes time_step : Z) (stress_level : Q)
    : M (list Z * list Q) :=
  if (time_step =? 0)%Z then raise ZeroDivisionError else
  let time_points := np_arange duration_minutes time_step in
  hypothermia_effect <- draw (uniform 0.85 0.95) ;;
  heart_rates <-
    for_each (fun it : nat * Z =>
      let (i, _) := it in
      let base_hr := baseline_hr * hypothermia_effect in
      noise <- draw (normal 0 5) ;;
      let stress_component :=
        stress_level *
        np_sin (2 * np_pi * Qnat i / (60 * 60 / inject_Z time_step)) in
      let hr := base_hr + noise + stress_component in
      ret (np_clip hr 80 180))
    (enumerate time_points) ;;
  ret (time_points, heart_rates).

(** [generate_blood_pressure_data] *)
Definition generate_blood_pressure_data
    (baseline_systolic baseline_diastolic : Q) (duration_minutes time_step : Z)
    : M (list Z * list Q * list Q) :=
  if (time_step =? 0)%Z then raise ZeroDivisionError else
  let time_points := np_arange duration_minutes time_step in
  bp <-
    for_each (fun it : nat * Z =>
      let (i, _) := it in
      let trend :=
        0.95 + 0.1 *
        np_sin (2 * np_pi * Qnat i / (120 * 60 / inject_Z time_step)) in
      n_sys <- draw (normal 0 3) ;;
      let sys_bp := baseline_systolic * trend + n_sys in
      n_dia <- draw (normal 0 2) ;;
      let dia_bp := baseline_diastolic * trend + n_dia in
      ret (np_clip sys_bp 40 80, np_clip dia_bp 20 50))
    (enumerate time_points) ;;
  ret (time_points, map fst bp, map snd bp).

(** The test of the dip branch: [i % (20 * 60 / time_step) < 10 * 60 /
    time_step]. *)
Definition spo2_dip_sample (time_step : Z) (i : nat) : bool :=
  if Qlt_le_dec (py_fmod (Qnat i) (20 * 60 / inject_Z time_step))
                (10 * 60 / inject_Z time_step)
  then true else false.

(** One iteration of the loop of [generate_oxygen_saturation_data]: the
    dip drawn at this sample, if any, and the clipped sample. *)
Definition spo2_sample (baseline_spo2 : Q) (time_step : Z)
    (respiratory_distress : bool) (i : nat) : M (option Q * Q) :=
  dip <- (if respiratory_distress then
            if spo2_dip_sample time_step i
            then d <- draw (uniform 2 5) ;; ret (Some d)
            else ret None
          else ret None) ;;
  let base_spo2 :=
    match dip with
    | Some d => baseline_spo2 - d
    | None => baseline_spo2
    end in
  noise <- draw (normal 0 0.5) ;;
  let spo2 := base_spo2 + noise in
  ret (dip, np_clip spo2 92 100).

(** [generate_oxygen_saturation_data] *)
Definition generate_oxygen_saturation_data
    (baseline_spo2 : Q) (duration_minutes time_step : Z)
    (respiratory_distress : bool) : M (list Z * list Q) :=
  if (time_step =? 0)%Z then raise ZeroDivisionError else
  let time_points := np_arange duration_minutes time_step in
  samples <-
    for_each (fun it : nat * Z =>
      spo2_sample baseline_spo2 time_step respiratory_distress (fst it))
    (enumerate time_points) ;;
  ret (time_points, map snd samples).


(** The baseline table of [generate_blood_gas_data]:
    [(pH, pCO2, pO2, lactate)] per severity. *)
Definition abg_baselines : list (string * (Q * Q * Q * Q)) :=
  [ ("mild"%string, (7.35, 45, 85, 2));
    ("moderate"%string, (7.30, 48, 75, 4));
    ("severe"%string, (7.25, 50, 65, 8)) ].

(** A dict lookup by string key: [d[key]]. *)
Fixpoint dict_get {A} (d : list (string * A)) (key : string) : result A :=
  match d with
  | [] => Raise (KeyError key)
  | (k, v) :: rest => if String.eqb k key then Ok v else dict_get rest key
  end.

Record abg_sample : Type := mkAbg {
  abg_pH : Q;
  abg_pCO2 : Q;
  abg_pO2 : Q;
  abg_lactate : Q
}.

(** [generate_blood_gas_data]: the time points come from [np.arange], the
    value arrays have [num_points = duration_hours // time_step_hours]
    entries ([np.zeros] refuses a negative count). *)
Definition generate_blood_gas_data
    (duration_hours time_step_hours : Z) (hie_severity : string)
    : M (list Z * list abg_sample) :=
  if (time_step_hours =? 0)%Z then raise ZeroDivisionError else
  let num_points := (duration_hours / time_step_hours)%Z in
  let time_points := np_arange duration_hours time_step_hours in
  if (num_points <? 0)%Z
  then raise (ValueError "negative dimensions are not allowed") else
  baseline <- lift_result (dict_get abg_baselines hie_severity) ;;
  let '(b_pH, b_pCO2, b_pO2, b_lactate) := baseline in
  values <-
    for_each (fun i : nat =>
      let improvement_factor := 1 - (0.01 * Qnat i) in
      u1 <- draw (uniform (-0.05) 0.1) ;;
      u2 <- draw (uniform (-5) 3) ;;
      u3 <- draw (uniform (-10) 15) ;;
      u4 <- draw (uniform (-0.5) 0.5) ;;
      ret (mkAbg (b_pH + u1 * improvement_factor)
                 (b_pCO2 + u2 * improvement_factor)
                 (b_pO2 + u3 * improvement_factor)
                 (b_lactate * (0.9 ^ Z.of_nat i) + u4)))
    (seq 0 (Z.to_nat num_points)) ;;
  ret (time_points, values).


(** A loop that carries local variables from one iteration to the next. *)
Fixpoint for_state {A B S} (body : A -> S -> M (B * S)) (l : list A) (st : S)
    : M (list B * S) :=
  match l with
  | [] => ret ([], st)
  | x :: rest =>
      r <- body x st ;;
      rs <- for_state body rest (snd r) ;;
      ret (fst r :: fst rs, snd rs)
  end.

(** [float(z)] for a NumPy [int64]. *)
Definition float_of_Z (z : Z) : float :=
  match z with
  | Z0 => 0%float
  | Zpos _ => PrimFloat.of_uint63 (Uint63.of_Z z)
  | Zneg p => PrimFloat.opp (PrimFloat.of_uint63 (Uint63.of_Z (Zpos p)))
  end.

(** The loop variables of [generate_eeg_data]. *)
Record eeg_state : Type := mkEeg {
  seizure_start_minute : option float;
  seizure_active : bool
}.

(** What one iteration of [generate_eeg_data] did: whether the onset test
    fired, the loop variables it left, and the three band powers. *)
Record eeg_row : Type := mkEegRow {
  onset_triggered : bool;
  eeg_after : eeg_state;
  delta_power : Q;
  theta_power : Q;
  alpha_power : Q
}.

Definition seizure_duration : float := 2%float.

(** [current_minute = time_points[i] / 60] *)
Definition current_minute_of (tp : Z) : float :=
  (float_of_Z tp / 60)%float.

(** The window test [current_minute < seizure_start_minute +
    seizure_duration], in binary64. *)
Definition in_seizure_window (current_minute start : float) : bool :=
  PrimFloat.ltb current_minute (start + seizure_duration)%float.

Definition eeg_iteration (duration_minutes : Z) (seizure_probability : Q)
    (tp : Z) (st : eeg_state) : M (eeg_row * eeg_state) :=
  let current_minute := current_minute_of tp in
  onset <-
    match seizure_start_minute st with
    | None =>
        u <- draw random_sample ;;
        ret (if Qlt_le_dec u
                  (seizure_probability / inject_Z (duration_minutes * 60))
             then true else false)
    | Some _ => ret false
    end ;;
  let start := if onset then Some current_minute
               else seizure_start_minute st in
  let st' :=
    match start with
    | Some m =>
        if in_seizure_window current_minute m
        then mkEeg (Some m) true
        else mkEeg None false
    | None => mkEeg None (seizure_active st)
    end in
  bands <-
    (if seizure_active st' then
       d <- draw (uniform 50 150) ;;
       t <- draw (uniform 100 250) ;;
       a <- draw (uniform 200 400) ;;
       ret (d, t, a)
     else
       d <- draw (uniform 10 40) ;;
       t <- draw (uniform 5 20) ;;
       a <- draw (uniform 2 10) ;;
       ret (d, t, a)) ;;
  let '(d, t, a) := bands in
  ret (mkEegRow onset st' d t a, st').

(** The loop of [generate_eeg_data], one [eeg_row] per time point. *)
Definition eeg_trace (duration_minutes time_step : Z) (seizure_probability : Q)
    (seizure_start : option float) : M (list Z * list eeg_row) :=
  if (time_step =? 0)%Z then raise ZeroDivisionError else
  let time_points := np_arange (duration_minutes * 60) time_step in
  rows <- for_state (eeg_iteration duration_minutes seizure_probability)
            time_points (mkEeg seizure_start false) ;;
  ret (time_points, fst rows).

(** [generate_eeg_data]: [(time_points, delta_power, theta_power,
    alpha_power)]. *)
Definition generate_eeg_data (duration_minutes time_step : Z)
    (seizure_probability : Q) (seizure_start : option float)
    : M (list Z * list Q * list Q * list Q) :=
  tr <- eeg_trace duration_minutes time_step seizure_probability seizure_start ;;
  let (time_points, rows) := tr in
  ret (time_points, map delta_power rows, map theta_power rows,
       map alpha_power rows).

End Synthesizers.

(* ------------------------------------------------------------------ *)
(** ** The pandas operations the pipeline uses *)

Inductive cell : Type :=
| CStr (s : string)
| CInt (z : Z)
| CNum (q : Q)
| CNaN.

Definition column : Type := list cell.

(** Columns in order, each with its values. *)
Definition DataFrame : Type := list (string * column).

(** A value of the dict given to [pd.DataFrame], or assigned to a column:
    a scalar is broadcast, an array is taken as it is. *)
Inductive entry : Type :=
| Scalar (c : cell)
| Values (l : column).

Definition columns (df : DataFrame) : list string := map fst df.

Definition nrows (df : DataFrame) : nat :=
  match df with
  | [] => 0%nat
  | (_, c) :: _ => List.length c
  end.

Definition has_column (df : DataFrame) (name : string) : bool :=
  existsb (String.eqb name) (columns df).

(** [df[name]] *)
Definition get_column (df : DataFrame) (name : string) : result column :=
  dict_get df name.

(** [df[name].iloc[r]], NaN where there is no such cell. *)
Definition cell_at (df : DataFrame) (name : string) (r : nat) : cell :=
  match get_column df name with
  | Ok c => nth r c CNaN
  | Raise _ => CNaN
  end.

Fixpoint array_lengths (data : list (string * entry)) : list nat :=
  match data with
  | [] => []
  | (_, Scalar _) :: rest => array_lengths rest
  | (_, Values l) :: rest => List.length l :: array_lengths rest
  end.

Definition broadcast (n : nat) (e : entry) : column :=
  match e with
  | Scalar c => repeat c n
  | Values l => l
  end.

(** [pd.DataFrame(data)] for a dict of scalars and arrays. *)
Definition pd_DataFrame (data : list (string * entry)) : result DataFrame :=
  match data, array_lengths data with
  | [], _ => Ok []
  | _, [] =>
      Raise (ValueError "If using all scalar values, you must pass an index")
  | _, n :: rest =>
      if forallb (Nat.eqb n) rest
      then Ok (map (fun kv => (fst kv, broadcast n (snd kv))) data)
      else Raise (ValueError "All arrays must be of the same length")
  end.

Fixpoint replace_column (df : DataFrame) (name : string) (c : column) : DataFrame :=
  match df with
  | [] => []
  | (k, v) :: rest =>
      if String.eqb k name then (k, c) :: rest
      else (k, v) :: replace_column rest name c
  end.

(** [df[name] = e] *)
Definition set_column (df : DataFrame) (name : string) (e : entry) : result DataFrame :=
  let n := nrows df in
  match e with
  | Values l =>
      if negb (Nat.eqb (List.length l) n)
      then Raise (ValueError "Length of values does not match length of index")
      else Ok (if has_column df name then replace_column df name l
               else df ++ [(name, l)])
  | Scalar c =>
      Ok (if has_column df name then replace_column df name (repeat c n)
          else df ++ [(name, repeat c n)])
  end.

(** Equality of join keys: numbers compare by value, whatever their dtype. *)
Definition cell_eqb (a b : cell) : bool :=
  match a, b with
  | CStr x, CStr y => String.eqb x y
  | CInt x, CInt y => Z.eqb x y
  | CInt x, CNum y => Qeq_bool (inject_Z x) y
  | CNum x, CInt y => Qeq_bool x (inject_Z y)
  | CNum x, CNum y => Qeq_bool x y
  | CNaN, CNaN => true
  | _, _ => false
  end.

(** The rows of the right frame whose key equals [k]. *)
Definition key_matches (k : cell) (right_keys : column) : list nat :=
  filter (fun j => cell_eqb k (nth j right_keys CNaN))
         (seq 0 (List.length right_keys)).

(** The indexers of a left join: each left row, in order, with each of its
    matches on the right, or with none. *)
Definition left_join_indexer (left_keys right_keys : column)
    : list (nat * option nat) :=
  flat_map (fun ik : nat * cell =>
              match key_matches (snd ik) right_keys with
              | [] => [(fst ik, None)]
              | js => map (fun j => (fst ik, Some j)) js
              end)
           (enumerate left_keys).

Definition take (c : column) (idx : list nat) : column :=
  map (fun i => nth i c CNaN) idx.

Definition take_opt (c : column) (idx : list (option nat)) : column :=
  map (fun o => match o with
                | Some j => nth j c CNaN
                | None => CNaN
                end) idx.

Definition remove_column (df : DataFrame) (name : string) : DataFrame :=
  filter (fun kv => negb (String.eqb (fst kv) name)) df.

Definition mem_string (x : string) (l : list string) : bool :=
  existsb (String.eqb x) l.

(** [left.merge(right, left_on=..., right_on=..., how='left')] with the
    default suffixes: a right key of the same name as the left key is
    dropped; every other column name present on both sides gets [_x] on
    the left and [_y] on the right. *)
Definition merge_left (left right : DataFrame) (left_on right_on : string)
    : result DataFrame :=
  match get_column left left_on, get_column right right_on with
  | Raise e, _ => Raise e
  | _, Raise e => Raise e
  | Ok lk, Ok rk =>
      let right' := if String.eqb left_on right_on
                    then remove_column right right_on else right in
      let idx := left_join_indexer lk rk in
      let lnames := columns left in
      let rnames := columns right' in
      Ok (map (fun kv =>
                 (if mem_string (fst kv) rnames
                  then (fst kv ++ "_x")%string else fst kv,
                  take (snd kv) (map fst idx))) left
          ++
          map (fun kv =>
                 (if mem_string (fst kv) lnames
                  then (fst kv ++ "_y")%string else fst kv,
                  take_opt (snd kv) (map snd idx))) right')
  end.

(** Forward fill of one column: a NaN takes the last value seen before
    it; leading NaNs stay. *)
Fixpoint ffill_from (last : cell) (c : column) : column :=
  match c with
  | [] => []
  | CNaN :: rest => last :: ffill_from last rest
  | x :: rest => x :: ffill_from x rest
  end.

Definition ffill (c : column) : column := ffill_from CNaN c.

Fixpoint first_missing (df : DataFrame) (names : list string) : option string :=
  match names with
  | [] => None
  | n :: rest => if has_column df n then first_missing df rest else Some n
  end.

(** [df[names] = df[names].fillna(method='ffill')] *)
Definition ffill_columns (df : DataFrame) (names : list string) : result DataFrame :=
  match first_missing df names with
  | Some n => Raise (KeyError n)
  | None =>
      Ok (map (fun kv => if mem_string (fst kv) names
                         then (fst kv, ffill (snd kv)) else kv) df)
  end.

(** [df.drop(name, axis=1)] *)
Definition drop_column (df : DataFrame) (name : string) : result DataFrame :=
  if has_column df name then Ok (remove_column df name)
  else Raise (KeyError name).

(** The column names of several frames, in order of first appearance. *)
Fixpoint union_names (seen : list string) (names : list string) : list string :=
  match names with
  | [] => seen
  | n :: rest =>
      if mem_string n seen then union_names seen rest
      else union_names (seen ++ [n]) rest
  end.

(** [pd.concat(dfs, ignore_index=True)] *)
Definition pd_concat (dfs : list DataFrame) : result DataFrame :=
  match dfs with
  | [] => Raise (ValueError "No objects to concatenate")
  | _ =>
      let names := union_names [] (flat_map columns dfs) in
      Ok (map (fun n =>
                 (n, flat_map (fun df =>
                                 match get_column df n with
                                 | Ok c => c
                                 | Raise _ => repeat CNaN (nrows df)
                                 end) dfs)) names)
  end.

(** Sequencing of results outside the generator monad. *)
Definition rbind {A B} (r : result A) (k : A -> result B) : result B :=
  match r with
  | Ok a => k a
  | Raise e => Raise e
  end.

(* ------------------------------------------------------------------ *)
(** ** Baseline, protocol and the per-patient pipeline *)

(** The dict built by [generate_baseline_parameters], field by field. *)
Record PatientBaseline : Type := mkBaseline {
  patient_id : string;
  birth_weight_kg : Q;
  gestational_age_weeks : Q;
  birth_hour : Z;
  hie_severity : string;
  baseline_heart_rate : Q;
  baseline_resp_rate : Q;
  baseline_systolic_bp : Q;
  baseline_diastolic_bp : Q;
  baseline_oxygen_sat : Q;
  baseline_rectal_temp : Q;
  baseline_core_temp : Q;
  seizure_risk_factor : Q
}.

(** [baseline.items()], in insertion order. *)
Definition baseline_items (b : PatientBaseline) : list (string * cell) :=
  [ ("patient_id", CStr (patient_id b));
    ("birth_weight_kg", CNum (birth_weight_kg b));
    ("gestational_age_weeks", CNum (gestational_age_weeks b));
    ("birth_hour", CInt (birth_hour b));
    ("hie_severity", CStr (hie_severity b));
    ("baseline_heart_rate", CNum (baseline_heart_rate b));
    ("baseline_resp_rate", CNum (baseline_resp_rate b));
    ("baseline_systolic_bp", CNum (baseline_systolic_bp b));
    ("baseline_diastolic_bp", CNum (baseline_diastolic_bp b));
    ("baseline_oxygen_sat", CNum (baseline_oxygen_sat b));
    ("baseline_rectal_temp", CNum (baseline_rectal_temp b));
    ("baseline_core_temp", CNum (baseline_core_temp b));
    ("seizure_risk_factor", CNum (seizure_risk_factor b)) ]%string.

Record CoolingProtocol : Type := mkProtocol {
  target_temp : Q;
  duration_hours : Z;
  cooling_rate : Q;
  rewarming_rate : Q;
  protocol_baseline_temp : Q;
  start_time : Z
}.

Definition severities : list string := ["mild"; "moderate"; "severe"]%string.

Definition seizure_risk_table : list (string * Q) :=
  [ ("mild"%string, 0.1); ("moderate"%string, 0.4); ("severe"%string, 0.7) ].

Section Pipeline.
Context {R : RandomSource} {N : Numerics}.

(** [generate_baseline_parameters]: the draws in the order of the dict
    literal; the key of the risk table is a fresh [np.random.choice]. *)
Definition generate_baseline_parameters (pid : string) : M PatientBaseline :=
  weight <- draw (uniform 2.5 4.5) ;;
  gest <- draw (uniform 35 42) ;;
  hour <- draw (randint 0 24) ;;
  severity <- np_random_choice severities ;;
  hr <- draw (uniform 120 160) ;;
  resp <- draw (uniform 40 60) ;;
  sys <- draw (uniform 50 70) ;;
  dia <- draw (uniform 30 45) ;;
  sat <- draw (uniform 95 100) ;;
  rectal <- draw (uniform 36.8 37.4) ;;
  core <- draw (uniform 36.5 37.3) ;;
  risk_key <- np_random_choice severities ;;
  risk <- lift_result (dict_get seizure_risk_table risk_key) ;;
  ret (mkBaseline pid weight gest hour severity hr resp sys dia sat
                  rectal core risk).

(** [generate_cooling_protocol]: the dict literal draws the parameters of
    all three protocols before one is selected. *)
Definition generate_cooling_protocol (severity : string) (baseline_temp : Q)
    : M CoolingProtocol :=
  mild_target <- draw (uniform 32.5 33.5) ;;
  mild_cooling <- draw (uniform 0.1 0.2) ;;
  mild_rewarming <- draw (uniform 0.05 0.1) ;;
  moderate_target <- draw (uniform 33.0 33.5) ;;
  moderate_cooling <- draw (uniform 0.15 0.25) ;;
  moderate_rewarming <- draw (uniform 0.05 0.1) ;;
  severe_target <- draw (uniform 32.0 33.5) ;;
  severe_cooling <- draw (uniform 0.2 0.3) ;;
  severe_rewarming <- draw (uniform 0.05 0.08) ;;
  let protocols :=
    [ ("mild"%string, (mild_target, 48%Z, mild_cooling, mild_rewarming));
      ("moderate"%string,
       (moderate_target, 72%Z, moderate_cooling, moderate_rewarming));
      ("severe"%string,
       (severe_target, 72%Z, severe_cooling, severe_rewarming)) ] in
  protocol <- lift_result (dict_get protocols severity) ;;
  let '(target, hours, cooling, rewarming) := protocol in
  now <- datetime_now ;;
  ret (mkProtocol target hours cooling rewarming baseline_temp now).

Definition abg_columns : list string :=
  ["pH"; "pCO2_mmhg"; "pO2_mmhg"; "lactate_mmol"]%string.

(** The merge of the blood-gas frame into the vitals frame: copy of the
    key, left join, forward fill of the four blood-gas columns, drop of
    the copied key. *)
Definition align_blood_gas (df abg_df : DataFrame) : result DataFrame :=
  rbind (get_column df "time_hours") (fun key =>
  rbind (set_column df "time_hours_abg" (Values key)) (fun df1 =>
  rbind (merge_left df1 abg_df "time_hours_abg" "time_hours") (fun df2 =>
  rbind (ffill_columns df2 abg_columns) (fun df3 =>
  drop_column df3 "time_hours_abg")))).

(** [for key, value in baseline_params.items(): if key != 'patient_id':
    df[f'baseline_{key}'] = value] *)
Fixpoint add_baseline_columns (items : list (string * cell)) (df : DataFrame)
    : result DataFrame :=
  match items with
  | [] => Ok df
  | (key, value) :: rest =>
      if String.eqb key "patient_id" then add_baseline_columns rest df
      else rbind (set_column df ("baseline_" ++ key) (Scalar value))
                 (add_baseline_columns rest)
  end.

(** The vitals frame of [generate_complete_patient_dataset]. *)
Definition vitals_frame (pid : string) (time_points_vitals : list Z)
    (rectal_temps heart_rates systolic_bp diastolic_bp spo2 : list Q)
    (severity : string) (target : Q) : result DataFrame :=
  pd_DataFrame
    [ ("patient_id", Scalar (CStr pid));
      ("time_minutes", Values (map CInt time_points_vitals));
      ("time_hours",
       Values (map (fun tp => CNum (inject_Z tp / 60)) time_points_vitals));
      ("rectal_temperature_c", Values (map CNum rectal_temps));
      ("heart_rate_bpm", Values (map CNum heart_rates));
      ("systolic_bp_mmhg", Values (map CNum systolic_bp));
      ("diastolic_bp_mmhg", Values (map CNum diastolic_bp));
      ("oxygen_saturation_percent", Values (map CNum spo2));
      ("hie_severity", Scalar (CStr severity));
      ("target_temp_c", Scalar (CNum target)) ]%string.

(** The blood-gas frame of [generate_complete_patient_dataset]. *)
Definition abg_frame (time_points_abg : list Z) (abg : list abg_sample)
    : result DataFrame :=
  pd_DataFrame
    [ ("time_hours", Values (map CInt time_points_abg));
      ("pH", Values (map (fun a => CNum (abg_pH a)) abg));
      ("pCO2_mmhg", Values (map (fun a => CNum (abg_pCO2 a)) abg));
      ("pO2_mmhg", Values (map (fun a => CNum (abg_pO2 a)) abg));
      ("lactate_mmol", Values (map (fun a => CNum (abg_lactate a)) abg)) ]%string.

(** [generate_complete_patient_dataset] *)
Definition generate_complete_patient_dataset
    (pid : string) (hours time_step_minutes : Z) : M DataFrame :=
  baseline_params <- generate_baseline_parameters pid ;;
  protocol <- generate_cooling_protocol (hie_severity baseline_params)
                (baseline_rectal_temp baseline_params) ;;
  let duration_minutes := (hours * 60)%Z in
  temp <- simulate_rectal_temperature
            (protocol_baseline_temp protocol)
            (target_temp protocol)
            (cooling_rate protocol / 60)
            (rewarming_rate protocol / 60)
            duration_minutes time_step_minutes ;;
  let (time_points_vitals, rectal_temps) := temp in
  hr <- generate_heart_rate_data (baseline_heart_rate baseline_params)
          duration_minutes time_step_minutes 0.5 ;;
  bp <- generate_blood_pressure_data
          (baseline_systolic_bp baseline_params)
          (baseline_diastolic_bp baseline_params)
          duration_minutes time_step_minutes ;;
  sat <- generate_oxygen_saturation_data
           (baseline_oxygen_sat baseline_params)
           duration_minutes time_step_minutes
           (String.eqb (hie_severity baseline_params) "severe") ;;
  df <- lift_result
          (vitals_frame pid time_points_vitals rectal_temps (snd hr)
             (snd (fst bp)) (snd bp) (snd sat)
             (hie_severity baseline_params) (target_temp protocol)) ;;
  abg <- generate_blood_gas_data hours 4 (hie_severity baseline_params) ;;
  abg_df <- lift_result (abg_frame (fst abg) (snd abg)) ;;
  lift_result
    (rbind (align_blood_gas df abg_df)
           (add_baseline_columns (baseline_items baseline_params))).

(** [f'{n:04d}'] for a natural number. *)
Definition format_04d (n : nat) : string :=
  let digits := DecimalString.NilZero.string_of_uint (Nat.to_uint n) in
  (String.concat "" (repeat "0" (4 - String.length digits)) ++ digits)%string.

Definition batch_patient_id (i : nat) : string :=
  ("PATIENT_" ++ format_04d (i + 1))%string.

(** [generate_batch_dataset] *)
Definition generate_batch_dataset (num_patients hours : Z) : M DataFrame :=
  datasets <-
    for_each (fun i => generate_complete_patient_dataset
                         (batch_patient_id i) hours 5)
             (seq 0 (Z.to_nat num_patients)) ;;
  lift_result (pd_concat datasets).

(** [InfantPhysiologicalDataGenerator(seed)] followed by
    [generate_batch_dataset]. *)
Definition seeded_batch_run (seed num_patients hours : Z) : M DataFrame :=
  np_random_seed seed ;;;
  generate_batch_dataset num_patients hours.

End Pipeline.

(* ------------------------------------------------------------------ *)
(** ** The risk-engine boundary: feature matrix and scorecards *)

(** The message of the [KeyError] raised by [build_feature_matrix]. *)
Definition missing_feature_message (col : string) : string :=
  ("Required feature '" ++ col ++ "' not found in DataFrame")%string.

Fixpoint result_map {A B} (f : A -> result B) (l : list A) : result (list B) :=
  match l with
  | [] => Ok []
  | x :: rest =>
      rbind (f x) (fun y => rbind (result_map f rest) (fun ys => Ok (y :: ys)))
  end.

Section FeatureMatrix.

(** Python's parser of a float from a string, for cells of dtype object. *)
Variable float_of_string : string -> option Q.

(** One cell converted by [to_numpy(dtype=float)]; [None] is NaN. *)
Definition cell_to_float (c : cell) : result (option Q) :=
  match c with
  | CNum q => Ok (Some q)
  | CInt z => Ok (Some (inject_Z z))
  | CNaN => Ok None
  | CStr s =>
      match float_of_string s with
      | Some q => Ok (Some q)
      | None => Raise (ValueError "could not convert string to float")
      end
  end.

(** [build_feature_matrix]: the loop raises at the first feature column
    that the frame lacks; otherwise the selected columns become the rows
    of a float matrix. *)
Definition build_feature_matrix (df : DataFrame) (feature_cols : list string)
    : result (list (list (option Q))) :=
  match first_missing df feature_cols with
  | Some col => Raise (KeyError (missing_feature_message col))
  | None =>
      result_map (fun r =>
                    result_map (fun col => cell_to_float (cell_at df col r))
                               feature_cols)
                 (seq 0 (nrows df))
  end.

End FeatureMatrix.

(** A row of a frame ([pd.Series]): labels with their values. *)
Definition Series : Type := list (string * cell).

(** [row[cols]]: a [KeyError] when a label is missing. *)
Definition series_select (row : Series) (cols : list string) : result (list cell) :=
  result_map (fun col => dict_get row col) cols.

(** A loaded model applied to one row of features: the value
    [predict(...)[0]] or [predict_proba(...)[0, 1]], or what it raises. *)
Definition predictor : Type := list cell -> result Q.

Definition RISK_HIGH : string := "HIGH".
Definition RISK_MED : string := "MED".
Definition RISK_LOW : string := "LOW".

(** [categorize] *)
Definition categorize (prob high medium : Q) : string :=
  if Qle_bool high prob then RISK_HIGH
  else if Qle_bool medium prob then RISK_MED
  else RISK_LOW.

(** [p or 0.0] *)
Definition or_zero (p : option Q) : Q :=
  match p with
  | Some q => if Qeq_bool q 0 then 0 else q
  | None => 0
  end.

(** [round(x, 2)], half to even. *)
Definition py_round2 (x : Q) : Q :=
  let y := x * 100 in
  let fl := Qfloor y in
  let frac := y - inject_Z fl in
  let up := if Qlt_le_dec frac (1 # 2) then false
            else if Qlt_le_dec (1 # 2) frac then true
            else Z.odd fl in
  inject_Z (if up then fl + 1 else fl) / 100.

Record Scorecard : Type := mkScorecard {
  sc_patient_id : string;
  sc_timestamp : string;
  prob_seizure : option Q;
  prob_sepsis : option Q;
  prob_cardiac : option Q;
  prob_renal : option Q;
  prob_prognosis_poor_outcome : option Q;
  risk_seizure : string;
  risk_sepsis : string;
  risk_cardiac : string;
  risk_renal : string;
  risk_prognosis : string;
  temperature_adjustment_degC : Q;
  recommendations : list string
}.

Section Scorecards.

(** The module-level state of [mock_live_feed.py]: the loaded models (an
    optional one is [None] when no pickle could be read), the feature
    lists, and the clock. *)
Variables (temp_model : predictor) (temp_features : list string).
Variables (seizure_model sepsis_model cardiac_model renal_model : option predictor).
Variables (prognosis_model : predictor) (prognosis_features : list string).
Variable utcnow_isoformat : string.

(** [compute_temp_adjustment] *)
Definition compute_temp_adjustment (row : Series) : Q :=
  let delta :=
    match rbind (series_select row temp_features) temp_model with
    | Ok d => d
    | Raise _ => 0
    end in
  Qmax 0 delta.

(** [compute_event_probability]: any exception becomes [None]. *)
Definition compute_event_probability (model : option predictor) (row : Series)
    (cols : list string) : option Q :=
  match model with
  | None => None
  | Some m =>
      match rbind (series_select row cols) m with
      | Ok prob => Some prob
      | Raise _ => None
      end
  end.

Definition advice (risk : string) (high medium : string) : list string :=
  if String.eqb risk "HIGH" then [high]
  else if String.eqb risk "MED" then [medium]
  else [].

(** [build_scorecard] *)
Definition build_scorecard (pid : string) (row : Series) : Scorecard :=
  let temp_delta := compute_temp_adjustment row in
  let seizure_prob := compute_event_probability seizure_model row prognosis_features in
  let sepsis_prob := compute_event_probability sepsis_model row prognosis_features in
  let cardiac_prob := compute_event_probability cardiac_model row prognosis_features in
  let renal_prob := compute_event_probability renal_model row prognosis_features in
  let prognosis_prob :=
    compute_event_probability (Some prognosis_model) row prognosis_features in
  let r_seizure := categorize (or_zero seizure_prob) 0.70 0.40 in
  let r_sepsis := categorize (or_zero sepsis_prob) 0.65 0.35 in
  let r_cardiac := categorize (or_zero cardiac_prob) 0.60 0.30 in
  let r_renal := categorize (or_zero renal_prob) 0.60 0.30 in
  let r_prognosis := categorize (or_zero prognosis_prob) 0.65 0.40 in
  let recs :=
    advice r_seizure
      "Initiate continuous EEG; review antiseizure therapy."
      "Increase neuro checks frequency; consider EEG if symptomatic."
    ++ advice r_sepsis
      "Sepsis bundle: cultures, antibiotics, fluids per protocol."
      "Trend lactate; monitor vitals and labs closely."
    ++ advice r_cardiac
      "Cardiac consult; optimize MAP and rhythm management."
      "Increase telemetry vigilance; review medications impacting QT/MAP."
    ++ advice r_renal
      "Renal consult; adjust nephrotoxic meds; optimize fluids."
      "Monitor urine output and creatinine; adjust dosing."
    ++ advice r_prognosis
      "Discuss goals of care; consider advanced monitoring/support."
      "Ensure multidisciplinary review; reassess trajectory in 12h."
    ++ [ if Qle_bool 1.0 temp_delta
         then "Strongly consider temperature reduction by ~1.0°C."
         else if Qle_bool 0.5 temp_delta
         then "Consider temperature reduction by ~0.5°C."
         else "Maintain current temperature; continue monitoring." ]%string in
  mkScorecard pid (utcnow_isoformat ++ "Z")
    seizure_prob sepsis_prob cardiac_prob renal_prob prognosis_prob
    r_seizure r_sepsis r_cardiac r_renal r_prognosis
    (py_round2 temp_delta) recs.

End Scorecards.

(* ------------------------------------------------------------------ *)
(** ** An executable random source: an oracle tape

    The state is the sequence of raw outcomes still to come.  A raw
    outcome [r] is read as a standard normal deviate by [normal], and
    through its fractional part, a number of [[0, 1)], by the others. *)

Module Oracle.

Record tape : Type := mkTape {
  cursor : nat;
  outcomes : nat -> Q
}.

Definition next (s : tape) : Q * tape :=
  (outcomes s (cursor s), mkTape (S (cursor s)) (outcomes s)).

Definition unit_part (r : Q) : Q := r - inject_Z (Qfloor r).

Definition random_sample (s : tape) : Q * tape :=
  (unit_part (fst (next s)), snd (next s)).

Definition uniform (lo hi : Q) (s : tape) : Q * tape :=
  (lo + (hi - lo) * unit_part (fst (next s)), snd (next s)).

Definition normal (mu sigma : Q) (s : tape) : Q * tape :=
  (mu + sigma * fst (next s), snd (next s)).

Definition randint (lo hi : Z) (s : tape) : Z * tape :=
  ((lo + Qfloor (unit_part (fst (next s)) * inject_Z (hi - lo)))%Z,
   snd (next s)).

Definition choice_index (n : nat) (s : tape) : nat * tape :=
  (Z.to_nat (Qfloor (unit_part (fst (next s)) * Qnat n)), snd (next s)).

(** A tape that replays [l] and then repeats [d]. *)
Definition of_list (l : list Q) (d : Q) : tape :=
  mkTape 0 (fun k => nth k l d).

Definition seed_state (seed : Z) : tape :=
  mkTape 0 (fun k => Qmake (((seed + 1 + Z.of_nat k) * 7919) mod 10007) 10007).

Lemma unit_part_range (r : Q) : 0 <= unit_part r /\ unit_part r < 1.
Proof.
  unfold unit_part.
  pose proof (Qfloor_le r) as Hlo.
  pose proof (Qlt_floor r) as Hhi.
  rewrite inject_Z_plus in Hhi.
  change (inject_Z 1) with 1 in Hhi.
  split; lra.
Qed.

Lemma uniform_range (lo hi : Q) (s : tape) :
  lo <= hi ->
  lo <= fst (uniform lo hi s) /\ fst (uniform lo hi s) <= hi.
Proof.
  intros Hle. unfold uniform. cbn [fst].
  destruct (unit_part_range (fst (next s))) as [H0 H1].
  split; nra.
Qed.

Lemma choice_index_lt (n : nat) (s : tape) :
  (0 < n)%nat -> (fst (choice_index n s) < n)%nat.
Proof.
  intros Hn. unfold choice_index. cbn [fst].
  destruct (unit_part_range (fst (next s))) as [H0 H1].
  set (u := unit_part (fst (next s))) in *.
  assert (Hq : 0 < Qnat n).
  { unfold Qnat. change 0 with (inject_Z 0). rewrite <- Zlt_Qlt. lia. }
  assert (Hlt : u * Qnat n < Qnat n) by nra.
  assert (Hge : 0 <= u * Qnat n) by nra.
  pose proof (Qfloor_le (u * Qnat n)) as Hfl.
  assert (Hz : (Qfloor (u * Qnat n) < Z.of_nat n)%Z).
  { rewrite Zlt_Qlt. unfold Qnat in *. lra. }
  assert (Hz0 : (0 <= Qfloor (u * Qnat n))%Z).
  { change 0%Z with (Qfloor 0). apply Qfloor_resp_le. exact Hge. }
  lia.
Qed.

#[export] Instance source : RandomSource := {
  rng := tape;
  seed_state := seed_state;
  random_sample := random_sample;
  uniform := uniform;
  normal := normal;
  randint := randint;
  choice_index := choice_index;
  uniform_range := uniform_range;
  choice_index_lt := choice_index_lt
}.

(** Rational stand-ins for [np.pi] and [np.sin] (its cubic Taylor
    polynomial), to run the model. *)
#[export] Instance numerics : Numerics := {
  np_sin := fun x => x - x * x * x / 6;
  np_pi := 355 # 113
}.

(** A world that starts at tape [s] with every clock reading [now]. *)
Definition world_of (s : tape) (now : Z) : world :=
  mkWorld (R := source) s 0 (fun _ => now).

End Oracle.

(* ------------------------------------------------------------------ *)
(** ** Reasoning about runs *)

Section Runs.
Context {R : RandomSource}.

Lemma bind_ok {A B} (c : M A) (k : A -> M B) w b w' :
  bind c k w = Ok (b, w') ->
  exists a w1, c w = Ok (a, w1) /\ k a w1 = Ok (b, w').
Proof.
  unfold bind. destruct (c w) as [[a w1] | e]; intros H; [| discriminate].
  exists a, w1. split; [reflexivity | exact H].
Qed.

Lemma bind_returns {A B} (c : M A) (k : A -> M B) w a w1 :
  c w = Ok (a, w1) -> bind c k w = k a w1.
Proof. intros H. unfold bind. rewrite H. reflexivity. Qed.

Lemma value_of_ok {A} (r : result (A * world)) (a : A) :
  value_of r = Some a -> exists w', r = Ok (a, w').
Proof.
  destruct r as [[b w'] | e]; cbn; intros H; [| discriminate].
  injection H as ->. exists w'. reflexivity.
Qed.

Lemma ret_ok {A} (a b : A) w w' : ret a w = Ok (b, w') -> b = a /\ w' = w.
Proof. unfold ret. intros H. injection H as <- <-. split; reflexivity. Qed.

Lemma draw_ok {A} (d : rng -> A * rng) w a w' :
  draw d w = Ok (a, w') -> a = fst (d (np_random w)).
Proof.
  unfold draw. destruct (d (np_random w)) as [x s]. intros H.
  injection H as <- _. reflexivity.
Qed.

Lemma draw_returns {A} (d : rng -> A * rng) w :
  draw d w = Ok (fst (d (np_random w)),
                 mkWorld (snd (d (np_random w))) (clock_reads w) (wall_clock w)).
Proof. unfold draw. destruct (d (np_random w)); reflexivity. Qed.

Lemma raise_ok {A} e w (a : A) w' : raise e w = Ok (a, w') -> False.
Proof. discriminate. Qed.

Lemma for_each_ok {A B} (body : A -> M B) (P : A -> B -> Prop) :
  (forall x w b w', body x w = Ok (b, w') -> P x b) ->
  forall l w bs w', for_each body l w = Ok (bs, w') -> Forall2 P l bs.
Proof.
  intros Hbody. induction l as [| x l IH]; intros w bs w' H.
  - apply ret_ok in H as [-> _]. constructor.
  - cbn [for_each] in H.
    apply bind_ok in H as (b & w1 & Hb & H).
    apply bind_ok in H as (bs' & w2 & Hbs & H).
    apply ret_ok in H as [-> _].
    constructor; [eapply Hbody; eassumption | eapply IH; eassumption].
Qed.

Lemma for_each_returns {A B} (body : A -> M B) :
  (forall x w, exists b w', body x w = Ok (b, w')) ->
  forall l w, exists bs w', for_each body l w = Ok (bs, w').
Proof.
  intros Hbody. induction l as [| x l IH]; intros w.
  - exists [], w. reflexivity.
  - destruct (Hbody x w) as (b & w1 & Hb).
    destruct (IH w1) as (bs & w2 & Hbs).
    exists (b :: bs), w2. cbn [for_each]. unfold bind at 1. rewrite Hb.
    unfold bind at 1. rewrite Hbs. reflexivity.
Qed.

End Runs.

(** Takes a successful run of a sequence of steps apart. *)
Ltac pair_inv :=
  repeat match goal with
         | E : (_, _) = (_, _) |- _ => injection E as ? ?
         end;
  subst.

Ltac run_inv H :=
  repeat first
    [ let a := fresh "v" in let w := fresh "w" in
      let Ha := fresh "Hstep" in
      apply bind_ok in H as (a & w & Ha & H)
    | apply ret_ok in H as [? ?]
    | apply raise_ok in H; contradiction ];
  pair_inv.

Definition within (lo hi : Q) (v : Q) : Prop := lo <= v /\ v <= hi.

Lemma np_clip_within (x lo hi : Q) : lo <= hi -> within lo hi (np_clip x lo hi).
Proof.
  intros Hle. unfold within, np_clip. split.
  - apply Q.min_glb; [apply Q.le_max_r | exact Hle].
  - apply Q.le_min_r.
Qed.

Lemma Forall2_right {A B} (P : B -> Prop) (l : list A) (bs : list B) :
  Forall2 (fun _ b => P b) l bs -> Forall P bs.
Proof. induction 1; constructor; assumption. Qed.

Section Bounds.
Context {R : RandomSource} {N : Numerics}.

Lemma temperature_within baseline target rate rewarm dur step w tps temps w' :
  target - 0.5 <= baseline + 0.5 ->
  simulate_rectal_temperature baseline target rate rewarm dur step w
    = Ok ((tps, temps), w') ->
  Forall (within (target - 0.5) (baseline + 0.5)) temps.
Proof.
  intros Hle H. unfold simulate_rectal_temperature in H.
  destruct (step =? 0)%Z; [run_inv H |].
  destruct (float_rounds_to_zero (rate / 60)); [run_inv H |].
  destruct (float_rounds_to_inf _); [run_inv H |].
  run_inv H.
  eapply Forall2_right, for_each_ok; [| exact Hstep].
  intros [i tp] wa b wb Hb. cbn beta iota in Hb.
  run_inv Hb. apply np_clip_within, Hle.
Qed.

Lemma heart_rate_within baseline_hr dur step stress w tps hrs w' :
  generate_heart_rate_data baseline_hr dur step stress w = Ok ((tps, hrs), w') ->
  Forall (within 80 180) hrs.
Proof.
  intros H. unfold generate_heart_rate_data in H.
  destruct (step =? 0)%Z; [run_inv H |].
  run_inv H.
  eapply Forall2_right, for_each_ok; [| exact Hstep0].
  intros [i tp] wa b wb Hb. cbn beta iota in Hb.
  run_inv Hb. apply np_clip_within. lra.
Qed.

Lemma blood_pressure_within b_sys b_dia dur step w tps sys dia w' :
  generate_blood_pressure_data b_sys b_dia dur step w
    = Ok ((tps, sys, dia), w') ->
  Forall (within 40 80) sys /\ Forall (within 20 50) dia.
Proof.
  intros H. unfold generate_blood_pressure_data in H.
  destruct (step =? 0)%Z; [run_inv H |].
  run_inv H.
  assert (Hall : Forall (fun p => within 40 80 (fst p) /\ within 20 50 (snd p)) v).
  { eapply Forall2_right, for_each_ok; [| exact Hstep].
    intros [i tp] wa b wb Hb. cbn beta iota in Hb.
    run_inv Hb. cbn [fst snd]. split; apply np_clip_within; lra. }
  split; apply Forall_map; eapply Forall_impl; [| exact Hall | | exact Hall];
    intros p [Hs Hd]; assumption.
Qed.

Lemma spo2_within baseline_spo2 dur step distress w tps sats w' :
  generate_oxygen_saturation_data baseline_spo2 dur step distress w
    = Ok ((tps, sats), w') ->
  Forall (within 92 100) sats.
Proof.
  intros H. unfold generate_oxygen_saturation_data in H.
  destruct (step =? 0)%Z; [run_inv H |].
  run_inv H.
  apply Forall_map.
  eapply Forall2_right, for_each_ok; [| exact Hstep].
  intros [i tp] wa b wb Hb. unfold spo2_sample in Hb.
  run_inv Hb. cbn [snd]. apply np_clip_within. lra.
Qed.

End Bounds.

(** A computation that never raises. *)
Definition total {R : RandomSource} {A} (c : M A) : Prop :=
  forall w, exists a w', c w = Ok (a, w').

Section Totality.
Context {R : RandomSource}.

Lemma total_ret {A} (a : A) : total (ret a).
Proof. intros w. exists a, w. reflexivity. Qed.

Lemma total_draw {A} (d : rng -> A * rng) : total (draw d).
Proof. intros w. eexists _, _. apply draw_returns. Qed.

Lemma total_bind {A B} (c : M A) (k : A -> M B) :
  total c -> (forall a, total (k a)) -> total (bind c k).
Proof.
  intros Hc Hk w. destruct (Hc w) as (a & w1 & Ha).
  destruct (Hk a w1) as (b & w2 & Hb).
  exists b, w2. unfold bind. rewrite Ha. exact Hb.
Qed.

Lemma total_for_each {A B} (body : A -> M B) (l : list A) :
  (forall x, total (body x)) -> total (for_each body l).
Proof.
  intros Hbody w. apply for_each_returns. intros x w1. apply Hbody.
Qed.

Lemma for_each_length {A B} (body : A -> M B) l w bs w' :
  for_each body l w = Ok (bs, w') -> List.length bs = List.length l.
Proof.
  intros H. symmetry. eapply Forall2_length.
  eapply (for_each_ok body (fun _ _ => True)); [trivial | exact H].
Qed.

End Totality.

Ltac total_steps :=
  repeat first
    [ apply total_ret
    | apply total_draw
    | apply total_for_each; intros ?
    | apply total_bind; [| intros ?]
    | match goal with
      | |- total (if ?b then _ else _) => destruct b
      | |- total (let (_, _) := ?p in _) => destruct p
      | |- total (match ?o with Some _ => _ | None => _ end) => destruct o
      end ].

Lemma enumerate_length {A} (l : list A) :
  List.length (enumerate l) = List.length l.
Proof.
  unfold enumerate. rewrite length_combine, length_seq. apply Nat.min_id.
Qed.

Lemma np_arange_length (stop step : Z) :
  List.length (np_arange stop step) = arange_len stop step.
Proof. unfold np_arange. rewrite length_map, length_seq. reflexivity. Qed.


(* ------------------------------------------------------------------ *)
(** ** Clinical bounds of the generated series *)

(** C1, as amended: whenever [target_temp - 0.5 <= baseline_temp + 0.5],
    every temperature sample produced by [simulate_rectal_temperature]
    lies in [[target_temp - 0.5, baseline_temp + 0.5]], for every cooling
    rate, duration and time step; every heart-rate sample lies in
    [[80, 180]], every systolic and diastolic sample in [[40, 80]] and
    [[20, 50]], and every SpO2 sample in [[92, 100]]. *)
Theorem samples_within_clinical_bounds
    (R : RandomSource) (N : Numerics) (w : world)
    (baseline target rate rewarm baseline_hr stress b_sys b_dia b_spo2 : Q)
    (dur step : Z) (distress : bool) :
  target - 0.5 <= baseline + 0.5 ->
  (forall tps temps w',
      simulate_rectal_temperature baseline target rate rewarm dur step w
        = Ok ((tps, temps), w') ->
      Forall (within (target - 0.5) (baseline + 0.5)) temps) /\
  (forall tps hrs w',
      generate_heart_rate_data baseline_hr dur step stress w
        = Ok ((tps, hrs), w') ->
      Forall (within 80 180) hrs) /\
  (forall tps sys dia w',
      generate_blood_pressure_data b_sys b_dia dur step w
        = Ok ((tps, sys, dia), w') ->
      Forall (within 40 80) sys /\ Forall (within 20 50) dia) /\
  (forall tps sats w',
      generate_oxygen_saturation_data b_spo2 dur step distress w
        = Ok ((tps, sats), w') ->
      Forall (within 92 100) sats).
Proof.
  intros Hle. repeat split.
  - intros tps temps w' H. eapply temperature_within; eassumption.
  - intros tps hrs w' H. eapply heart_rate_within; eassumption.
  - eapply blood_pressure_within; eassumption.
  - eapply blood_pressure_within; eassumption.
  - intros tps sats w' H. eapply spo2_within; eassumption.
Qed.

(** A run of twenty minutes from baseline 37 to target 33: four samples,
    all within [[32.5, 37.5]]. *)
Lemma samples_within_clinical_bounds_witness :
  exists temps,
    value_of (simulate_rectal_temperature (R := Oracle.source) 37 33 (1 # 5)
                0 20 5 (Oracle.world_of (Oracle.of_list [] 0) 0))
      = Some ([0; 5; 10; 15]%Z, temps)
    /\ List.length temps = 4%nat
    /\ Forall (within (33 - 0.5) (37 + 0.5)) temps.
Proof.
  eexists. split; [vm_compute; reflexivity |].
  split; [reflexivity |].
  destruct (value_of_ok
              (simulate_rectal_temperature (R := Oracle.source) 37 33 (1 # 5)
                 0 20 5 (Oracle.world_of (Oracle.of_list [] 0) 0))
              _ ltac:(vm_compute; reflexivity)) as (w' & Hrun).
  refine (proj1 (samples_within_clinical_bounds Oracle.source Oracle.numerics
                   (Oracle.world_of (Oracle.of_list [] 0) 0)
                   37 33 (1 # 5) 0 140 (1 # 2) 60 40 97 20 5 false _)
                _ _ w' Hrun).
  vm_compute. discriminate.
Defined.

(** C1 as stated fails: with a target more than one degree above the
    baseline the clipping interval is empty, and [np.clip] returns its
    upper end, [baseline + 0.5], which is below [target - 0.5]. *)
Lemma temperature_bound_fails_above_baseline :
  ~ (forall (R : RandomSource) (N : Numerics) (w : world)
            (baseline target rate rewarm : Q) (dur step : Z) tps temps w',
        simulate_rectal_temperature baseline target rate rewarm dur step w
          = Ok ((tps, temps), w') ->
        Forall (within (target - 0.5) (baseline + 0.5)) temps).
Proof.
  intros H.
  destruct (value_of_ok
              (simulate_rectal_temperature (R := Oracle.source) 30 37 (1 # 5)
                 0 5 5 (Oracle.world_of (Oracle.of_list [] 0) 0))
              ([0%Z], [30.5]) ltac:(vm_compute; reflexivity)) as (w' & Hrun).
  specialize (H Oracle.source Oracle.numerics _ _ _ _ _ _ _ _ _ _ Hrun).
  inversion H as [| v l [Hlo _] _]. apply Hlo. reflexivity.
Qed.

(* ------------------------------------------------------------------ *)
(** ** Runs that return, with a postcondition on the value *)

Definition returns {R : RandomSource} {A} (c : M A) (P : A -> Prop) : Prop :=
  forall w, exists a w', c w = Ok (a, w') /\ P a.

Section Returns.
Context {R : RandomSource}.

Lemma returns_ret {A} (a : A) (P : A -> Prop) : P a -> returns (ret a) P.
Proof. intros Ha w. exists a, w. split; [reflexivity | exact Ha]. Qed.

Lemma returns_draw {A} (d : rng -> A * rng) (P : A -> Prop) :
  (forall s, P (fst (d s))) -> returns (draw d) P.
Proof.
  intros Hd w. eexists _, _. split; [apply draw_returns | apply Hd].
Qed.

Lemma returns_bind {A B} (c : M A) (k : A -> M B) (P : A -> Prop) (Q : B -> Prop) :
  returns c P -> (forall a, P a -> returns (k a) Q) -> returns (bind c k) Q.
Proof.
  intros Hc Hk w. destruct (Hc w) as (a & w1 & Ha & HP).
  destruct (Hk a HP w1) as (b & w2 & Hb & HQ).
  exists b, w2. rewrite (bind_returns _ _ _ _ _ Ha). split; assumption.
Qed.

Lemma returns_lift {A} (r : result A) (a : A) (P : A -> Prop) :
  r = Ok a -> P a -> returns (lift_result r) P.
Proof.
  intros -> Ha w. exists a, w. split; [reflexivity | exact Ha].
Qed.

Lemma returns_weaken {A} (c : M A) (P Q : A -> Prop) :
  returns c P -> (forall a, P a -> Q a) -> returns c Q.
Proof.
  intros Hc HPQ w. destruct (Hc w) as (a & w' & Ha & HP).
  exists a, w'. split; [exact Ha | apply HPQ, HP].
Qed.

Lemma returns_total {A} (c : M A) : total c -> returns c (fun _ => True).
Proof.
  intros Hc w. destruct (Hc w) as (a & w' & Ha). exists a, w'. split; trivial.
Qed.

Lemma returns_choice {A} (l : list A) :
  l <> [] -> returns (np_random_choice l) (fun a => In a l).
Proof.
  intros Hl. destruct l as [| d l]; [contradiction |].
  unfold np_random_choice.
  eapply returns_bind.
  - apply (returns_draw _ (fun i => (i < List.length (d :: l))%nat)).
    intros s. apply choice_index_lt. cbn. lia.
  - intros i Hi. apply returns_ret. apply nth_In. exact Hi.
Qed.

End Returns.

Lemma in_severities (s : string) :
  In s severities -> s = "mild"%string \/ s = "moderate"%string \/ s = "severe"%string.
Proof.
  unfold severities. cbn. intros [H | [H | [H | []]]]; subst; auto.
Qed.

Section Produces.
Context {R : RandomSource} {N : Numerics}.

(** A series generator returned the grid [tps] with one value per point. *)
Definition on_grid {A} (tps : list Z) (r : list Z * list A) : Prop :=
  fst r = tps /\ List.length (snd r) = List.length tps.

Lemma returns_for_each {A B} (body : A -> M B) (l : list A) :
  (forall x, total (body x)) ->
  returns (for_each body l) (fun bs => List.length bs = List.length l).
Proof.
  intros Hbody w. destruct (total_for_each body l Hbody w) as (bs & w' & Hrun).
  exists bs, w'. split; [exact Hrun |]. eapply for_each_length, Hrun.
Qed.

Lemma float_rounds_to_zero_iff (x : Q) :
  float_rounds_to_zero x = true <-> Qabs x <= binary64_half_min.
Proof. apply Qle_bool_iff. Qed.

Lemma float_rounds_to_inf_iff (x : Q) :
  float_rounds_to_inf x = true <-> binary64_inf_bound <= Qabs x.
Proof. apply Qle_bool_iff. Qed.

Lemma float_nonzero_above (x : Q) :
  binary64_half_min < Qabs x -> float_rounds_to_zero x = false.
Proof.
  intros H. destruct (float_rounds_to_zero x) eqn:E; [| reflexivity].
  apply float_rounds_to_zero_iff in E.
  exfalso. exact (Qlt_not_le _ _ H E).
Qed.

Lemma float_finite_below (x : Q) :
  Qabs x < binary64_inf_bound -> float_rounds_to_inf x = false.
Proof.
  intros H. destruct (float_rounds_to_inf x) eqn:E; [| reflexivity].
  apply float_rounds_to_inf_iff in E.
  exfalso. exact (Qlt_not_le _ _ H E).
Qed.

Lemma binary64_half_min_small : binary64_half_min < 1 # 36000.
Proof. vm_compute. reflexivity. Qed.

Lemma binary64_inf_bound_large : 194400 < binary64_inf_bound.
Proof. vm_compute. reflexivity. Qed.

(** The rates and temperatures of the pipeline are far inside the range:
    the rate is the protocol's, at least 0.1, divided by 60 twice, and the
    temperatures are at most 5.4 degrees apart. *)
Lemma pipeline_rate_in_range (baseline target rate : Q) :
  36.8 <= baseline <= 37.4 -> 32 <= target <= 33.5 -> 0.1 <= rate ->
  float_rounds_to_zero (rate / 60 / 60) = false /\
  float_rounds_to_inf (Qabs (baseline - target) / (rate / 60 / 60)) = false.
Proof.
  intros Hb Ht Hr.
  assert (H60 : rate / 60 / 60 == rate * (1 # 3600)) by field.
  assert (Hpos : (1 # 36000) <= rate / 60 / 60) by (rewrite H60; lra).
  pose proof binary64_half_min_small as Hsmall.
  pose proof binary64_inf_bound_large as Hlarge.
  split.
  - apply float_nonzero_above. rewrite Qabs_pos by lra.
    eapply Qlt_le_trans; [exact Hsmall | exact Hpos].
  - apply float_finite_below.
    rewrite (Qabs_pos (baseline - target)) by lra.
    assert (Hq : 0 <= (baseline - target) / (rate / 60 / 60)
                 /\ (baseline - target) / (rate / 60 / 60) <= 194400).
    { split.
      - apply Qle_shift_div_l; [lra |]. lra.
      - apply Qle_shift_div_r; [lra |]. rewrite H60. lra. }
    rewrite Qabs_pos by apply Hq.
    eapply Qle_lt_trans; [apply Hq | exact Hlarge].
Qed.

Lemma Qabs_div_60 (x : Q) : Qabs (x / 60) == Qabs x / 60.
Proof. unfold Qdiv. rewrite Qabs_Qmult. reflexivity. Qed.

Lemma Qabs_phase (d r : Q) : Qabs (Qabs d / r) == Qabs d / Qabs r.
Proof.
  unfold Qdiv. rewrite Qabs_Qmult, Qabs_Qinv.
  rewrite (Qabs_pos (Qabs d)) by apply Qabs_nonneg. reflexivity.
Qed.

(** So are a rate of magnitude at least [1e-100] and temperatures at most
    [1e100] apart. *)
Lemma ordinary_rate_in_range (baseline target rate : Q) :
  (1 # 10 ^ 100) <= Qabs rate ->
  Qabs (baseline - target) <= inject_Z (10 ^ 100) ->
  float_rounds_to_zero (rate / 60) = false /\
  float_rounds_to_inf (Qabs (baseline - target) / (rate / 60)) = false.
Proof.
  intros Hr Hd.
  assert (Hlo : binary64_half_min * 60 < 1 # 10 ^ 100) by (vm_compute; reflexivity).
  assert (Hhi : inject_Z (10 ^ 100) * 60 < binary64_inf_bound * (1 # 10 ^ 100))
    by (vm_compute; reflexivity).
  assert (Hpos : 0 < 1 # 10 ^ 100) by reflexivity.
  assert (Hbound : 0 < binary64_inf_bound) by reflexivity.
  set (lo := 1 # 10 ^ 100) in *. set (hi := inject_Z (10 ^ 100)) in *.
  set (h := binary64_half_min) in *. set (m := binary64_inf_bound) in *.
  split.
  - apply float_nonzero_above. fold h. rewrite Qabs_div_60.
    apply Qlt_shift_div_l; [reflexivity |]. lra.
  - apply float_finite_below. fold m. rewrite Qabs_phase, Qabs_div_60.
    apply Qlt_shift_div_r.
    + apply Qlt_shift_div_l; [reflexivity |]. lra.
    + assert (E : m * (Qabs rate / 60) == m * Qabs rate * (1 # 60)) by field.
      rewrite E.
      assert (m * lo <= m * Qabs rate)
        by (apply Qmult_le_l; [exact Hbound | exact Hr]).
      lra.
Qed.

(** A phase length of four times the bound or more is infinite however
    the operands were rounded. *)
Lemma long_phase_is_infinite (baseline target rate : Q) :
  4 * binary64_inf_bound <= Qabs (baseline - target) / Qabs (rate / 60) ->
  float_rounds_to_inf (Qabs (baseline - target) / (rate / 60)) = true.
Proof.
  intros H. apply float_rounds_to_inf_iff. rewrite Qabs_phase.
  assert (Hbound : 0 < binary64_inf_bound) by reflexivity.
  set (m := binary64_inf_bound) in *. lra.
Qed.

Lemma temperature_returns baseline target rate rewarm dur step :
  step <> 0%Z -> float_rounds_to_zero (rate / 60) = false ->
  float_rounds_to_inf (Qabs (baseline - target) / (rate / 60)) = false ->
  returns (simulate_rectal_temperature baseline target rate rewarm dur step)
          (on_grid (np_arange dur step)).
Proof.
  intros Hstep Hrate Hphase. unfold simulate_rectal_temperature.
  destruct (Z.eqb_spec step 0) as [E | _]; [contradiction |].
  rewrite Hrate. cbv zeta. rewrite Hphase.
  eapply returns_bind.
  - apply returns_for_each. intros [i tp]. total_steps.
  - intros temps Hlen. apply returns_ret. split; [reflexivity |].
    cbn [snd]. rewrite Hlen. apply enumerate_length.
Qed.

Lemma heart_rate_returns baseline_hr dur step stress :
  step <> 0%Z ->
  returns (generate_heart_rate_data baseline_hr dur step stress)
          (on_grid (np_arange dur step)).
Proof.
  intros Hstep. unfold generate_heart_rate_data.
  destruct (Z.eqb_spec step 0) as [E | _]; [contradiction |].
  eapply returns_bind; [apply returns_total, total_draw | intros effect _].
  eapply returns_bind.
  - apply returns_for_each. intros [i tp]. total_steps.
  - intros hrs Hlen. apply returns_ret. split; [reflexivity |].
    cbn [snd]. rewrite Hlen. apply enumerate_length.
Qed.

Lemma blood_pressure_returns b_sys b_dia dur step :
  step <> 0%Z ->
  returns (generate_blood_pressure_data b_sys b_dia dur step)
    (fun r => fst (fst r) = np_arange dur step /\
              List.length (snd (fst r)) = List.length (np_arange dur step) /\
              List.length (snd r) = List.length (np_arange dur step)).
Proof.
  intros Hstep. unfold generate_blood_pressure_data.
  destruct (Z.eqb_spec step 0) as [E | _]; [contradiction |].
  eapply returns_bind.
  - apply returns_for_each. intros [i tp]. total_steps.
  - intros bp Hlen. apply returns_ret. cbn [fst snd].
    rewrite !length_map, Hlen, enumerate_length. repeat split.
Qed.

Lemma spo2_returns baseline_spo2 dur step distress :
  step <> 0%Z ->
  returns (generate_oxygen_saturation_data baseline_spo2 dur step distress)
          (on_grid (np_arange dur step)).
Proof.
  intros Hstep. unfold generate_oxygen_saturation_data.
  destruct (Z.eqb_spec step 0) as [E | _]; [contradiction |].
  eapply returns_bind.
  - apply returns_for_each. intros [i tp]. unfold spo2_sample. total_steps.
  - intros samples Hlen. apply returns_ret. split; [reflexivity |].
    cbn [snd]. rewrite length_map, Hlen. apply enumerate_length.
Qed.

Lemma blood_gas_returns hours ts sev :
  ts <> 0%Z -> (0 <= hours / ts)%Z -> In sev severities ->
  returns (generate_blood_gas_data hours ts sev)
    (fun r => fst r = np_arange hours ts /\
              List.length (snd r) = Z.to_nat (hours / ts)).
Proof.
  intros Hts Hn Hsev. unfold generate_blood_gas_data.
  destruct (Z.eqb_spec ts 0) as [E | _]; [contradiction |].
  destruct (Z.ltb_spec (hours / ts) 0) as [E | _]; [lia |].
  assert (Hb : exists b, dict_get abg_baselines sev = Ok b).
  { apply in_severities in Hsev. destruct Hsev as [-> | [-> | ->]];
      eexists; reflexivity. }
  destruct Hb as ([[[b1 b2] b3] b4] & Hb).
  eapply returns_bind;
    [eapply returns_lift with (P := fun _ => True); [exact Hb | exact I] |].
  intros [[[c1 c2] c3] c4] _.
  eapply returns_bind.
  - apply returns_for_each. intros i. cbv zeta. total_steps.
  - intros vals Hlen. apply returns_ret. split; [reflexivity |].
    cbn [snd]. rewrite Hlen. apply length_seq.
Qed.

End Produces.

(** The values of the seizure-risk table, [{0.1, 0.4, 0.7}]. *)
Definition seizure_risk_values : list Q := map snd seizure_risk_table.

Section Baseline.
Context {R : RandomSource}.

Lemma generate_baseline_parameters_returns (pid : string) :
  returns (generate_baseline_parameters pid)
    (fun b => patient_id b = pid /\ In (hie_severity b) severities /\
              In (seizure_risk_factor b) seizure_risk_values /\
              36.8 <= baseline_rectal_temp b <= 37.4).
Proof.
  unfold generate_baseline_parameters.
  do 3 (eapply returns_bind; [apply returns_total, total_draw | intros ? _]).
  eapply returns_bind; [apply returns_choice; discriminate | intros sev Hsev].
  do 5 (eapply returns_bind; [apply returns_total, total_draw | intros ? _]).
  eapply returns_bind.
  { apply (returns_draw _ (fun v => 36.8 <= v <= 37.4)).
    intros s. apply uniform_range. lra. }
  intros rectal Hrectal.
  eapply returns_bind; [apply returns_total, total_draw | intros ? _].
  eapply returns_bind; [apply returns_choice; discriminate | intros key Hkey].
  apply in_severities in Hkey.
  destruct Hkey as [-> | [-> | ->]];
    (eapply returns_bind;
     [ eapply returns_lift with (P := fun v => In v seizure_risk_values);
       [ reflexivity | cbn; auto ]
     | intros risk Hrisk; apply returns_ret; cbn; auto ]).
Qed.

End Baseline.

(** The states of the generator at which a baseline draws its
    [hie_severity] and the key of the risk table: the first after the
    draws of the weight, the gestational age and the birth hour, the
    second after the first choice and the seven draws of the vitals and
    the temperatures. *)
Definition severity_draw_state {R : RandomSource} (s : rng) : rng :=
  snd (randint 0 24 (snd (uniform 35 42 (snd (uniform 2.5 4.5 s))))).

Definition risk_key_draw_state {R : RandomSource} (s : rng) : rng :=
  let s4 := snd (choice_index 3 (severity_draw_state s)) in
  let s5 := snd (uniform 120 160 s4) in
  let s6 := snd (uniform 40 60 s5) in
  let s7 := snd (uniform 50 70 s6) in
  let s8 := snd (uniform 30 45 s7) in
  let s9 := snd (uniform 95 100 s8) in
  let s10 := snd (uniform 36.8 37.4 s9) in
  snd (uniform 36.5 37.3 s10).

(** The severity that [np.random.choice] picks at state [s]. *)
Definition severity_drawn {R : RandomSource} (s : rng) : string :=
  nth (fst (choice_index 3 s)) severities "mild"%string.

(** A tape on which the first choice takes position [i] and the second
    position [j] of the three severities. *)
Definition choices_tape (i j : nat) : Oracle.tape :=
  Oracle.of_list [0; 0; 0; Qnat i / 3; 0; 0; 0; 0; 0; 0; 0; Qnat j / 3] 0.

Section BaselineDraws.
Context {R : RandomSource}.

Lemma bind_draw {A B} (d : rng -> A * rng) (k : A -> M B) (w : world) :
  bind (draw d) k w
  = k (fst (d (np_random w)))
      (mkWorld (snd (d (np_random w))) (clock_reads w) (wall_clock w)).
Proof. apply bind_returns, draw_returns. Qed.

Lemma bind_severity_choice {B} (k : string -> M B) (w : world) :
  bind (np_random_choice severities) k w
  = k (severity_drawn (np_random w))
      (mkWorld (snd (choice_index 3 (np_random w))) (clock_reads w)
               (wall_clock w)).
Proof.
  unfold np_random_choice, severities. cbn [List.length].
  apply bind_returns. rewrite bind_draw. reflexivity.
Qed.

Lemma severity_drawn_in (s : rng) :
  severity_drawn s = "mild"%string \/ severity_drawn s = "moderate"%string \/
  severity_drawn s = "severe"%string.
Proof.
  unfold severity_drawn.
  pose proof (choice_index_lt 3 s ltac:(lia)) as Hlt.
  destruct (fst (choice_index 3 s)) as [| [| [| i]]]; cbn; auto. lia.
Qed.

(** The run of [generate_baseline_parameters], draw by draw. *)
Lemma baseline_draws (pid : string) (w : world) :
  exists b,
    generate_baseline_parameters pid w
    = Ok (b, mkWorld (snd (choice_index 3 (risk_key_draw_state (np_random w))))
                     (clock_reads w) (wall_clock w)) /\
    hie_severity b = severity_drawn (severity_draw_state (np_random w)) /\
    dict_get seizure_risk_table
      (severity_drawn (risk_key_draw_state (np_random w)))
    = Ok (seizure_risk_factor b).
Proof.
  unfold generate_baseline_parameters.
  do 3 (rewrite bind_draw; cbv beta; cbn [np_random clock_reads wall_clock]).
  rewrite bind_severity_choice. cbv beta. cbn [np_random clock_reads wall_clock].
  do 7 (rewrite bind_draw; cbv beta; cbn [np_random clock_reads wall_clock]).
  rewrite bind_severity_choice. cbv beta. cbn [np_random clock_reads wall_clock].
  fold (severity_draw_state (np_random w)).
  fold (risk_key_draw_state (np_random w)).
  destruct (severity_drawn_in (risk_key_draw_state (np_random w)))
    as [E | [E | E]]; rewrite E;
    (eexists; split; [reflexivity | split; reflexivity]).
Qed.

End BaselineDraws.

(** C10: every baseline produced by [generate_baseline_parameters] has its
    [seizure_risk_factor] in [{0.1, 0.4, 0.7}], and the factor is
    determined by a second draw of a severity: [hie_severity] is the
    severity that [np.random.choice] picks at the fourth draw of the run,
    and the factor is the entry of the risk table under the severity it
    picks at the twelfth, the last draw of the run, whatever
    [hie_severity] is.  Every one of the nine pairs of a severity and a
    key of the risk table is produced by some state of the random source;
    one of them gives [hie_severity = 'mild'] together with the factor 0.7
    of the severe entry. *)
Theorem seizure_risk_factor_from_second_draw :
  (forall (R : RandomSource) (pid : string) (w : world),
      exists b w',
        generate_baseline_parameters pid w = Ok (b, w') /\
        (seizure_risk_factor b = 0.1 \/ seizure_risk_factor b = 0.4 \/
         seizure_risk_factor b = 0.7) /\
        hie_severity b = severity_drawn (severity_draw_state (np_random w)) /\
        dict_get seizure_risk_table
          (severity_drawn (risk_key_draw_state (np_random w)))
        = Ok (seizure_risk_factor b) /\
        np_random w'
        = snd (choice_index 3 (risk_key_draw_state (np_random w)))) /\
  (forall sev key : string,
      In sev severities -> In key severities ->
      exists (w : world (R := Oracle.source)) b,
        value_of (generate_baseline_parameters "PATIENT_0001" w) = Some b /\
        hie_severity b = sev /\
        dict_get seizure_risk_table key = Ok (seizure_risk_factor b)) /\
  (exists (w : world (R := Oracle.source)) b,
      value_of (generate_baseline_parameters "PATIENT_0001" w) = Some b /\
      hie_severity b = "mild"%string /\
      seizure_risk_factor b = 0.7 /\
      dict_get seizure_risk_table (hie_severity b) = Ok 0.1).
Proof.
  split; [| split].
  - intros R pid w.
    destruct (baseline_draws pid w) as (b & Hrun & Hsev & Hrisk).
    exists b. eexists. split; [exact Hrun |].
    split.
    { destruct (severity_drawn_in (risk_key_draw_state (np_random w)))
        as [E | [E | E]]; rewrite E in Hrisk; injection Hrisk as <-; auto. }
    split; [exact Hsev |]. split; [exact Hrisk | reflexivity].
  - intros sev key Hsev Hkey.
    assert (Hpos : forall s, In s severities ->
              exists i, (i < 3)%nat /\ nth i severities "mild"%string = s).
    { intros s Hs. apply in_severities in Hs.
      destruct Hs as [-> | [-> | ->]];
        [exists 0%nat | exists 1%nat | exists 2%nat]; split; (lia || reflexivity). }
    destruct (Hpos sev Hsev) as (i & Hi & <-).
    destruct (Hpos key Hkey) as (j & Hj & <-).
    exists (Oracle.world_of (choices_tape i j) 0).
    destruct i as [| [| [| i]]]; [| | | lia];
      (destruct j as [| [| [| j]]]; [| | | lia]);
      (eexists; split; [vm_compute; reflexivity | split; reflexivity]).
  - exists (Oracle.world_of (choices_tape 0 2) 0).
    eexists.
    split; [vm_compute; reflexivity |].
    repeat split.
Qed.

(* ------------------------------------------------------------------ *)
(** ** The assembled per-patient table, column by column *)

(** The join keys of the vitals frame, [time_points_vitals / 60]. *)
Definition vitals_keys (tps : list Z) : column := map (fun tp => CNum (inject_Z tp / 60)) tps.

Lemma vitals_frame_ok pid tps temps hrs sys dia sats sev target :
  List.length temps = List.length tps ->
  List.length hrs = List.length tps ->
  List.length sys = List.length tps ->
  List.length dia = List.length tps ->
  List.length sats = List.length tps ->
  vitals_frame pid tps temps hrs sys dia sats sev target = Ok
    [ ("patient_id", repeat (CStr pid) (List.length tps));
      ("time_minutes", map CInt tps);
      ("time_hours", vitals_keys tps);
      ("rectal_temperature_c", map CNum temps);
      ("heart_rate_bpm", map CNum hrs);
      ("systolic_bp_mmhg", map CNum sys);
      ("diastolic_bp_mmhg", map CNum dia);
      ("oxygen_saturation_percent", map CNum sats);
      ("hie_severity", repeat (CStr sev) (List.length tps));
      ("target_temp_c", repeat (CNum target) (List.length tps)) ]%string.
Proof.
  intros H1 H2 H3 H4 H5. unfold vitals_frame, pd_DataFrame.
  cbn [array_lengths]. rewrite !length_map, H1, H2, H3, H4, H5.
  cbn [forallb]. rewrite Nat.eqb_refl. cbn. reflexivity.
Qed.

(** The join keys of the blood-gas frame. *)
Definition abg_keys (tps_abg : list Z) : column := map CInt tps_abg.

(** The indexers of the left join of the two frames. *)
Definition join_idx (tps tps_abg : list Z) : list (nat * option nat) :=
  left_join_indexer (vitals_keys tps) (abg_keys tps_abg).

Lemma abg_frame_ok tps_abg abg :
  List.length abg = List.length tps_abg ->
  abg_frame tps_abg abg = Ok
    [ ("time_hours", abg_keys tps_abg);
      ("pH", map (fun a => CNum (abg_pH a)) abg);
      ("pCO2_mmhg", map (fun a => CNum (abg_pCO2 a)) abg);
      ("pO2_mmhg", map (fun a => CNum (abg_pO2 a)) abg);
      ("lactate_mmol", map (fun a => CNum (abg_lactate a)) abg) ]%string.
Proof.
  intros H. unfold abg_frame, pd_DataFrame.
  cbn [array_lengths]. rewrite !length_map, H.
  cbn [forallb]. rewrite Nat.eqb_refl. reflexivity.
Qed.

(** What [generate_complete_patient_dataset] returns, written out: the
    vitals columns taken at the left indexer, the blood-gas columns taken
    at the right indexer and forward filled, and the broadcast baseline
    columns of [n] rows. *)
Definition patient_table_n (n : nat) (b : PatientBaseline) (target : Q) (tps : list Z)
    (temps hrs sys dia sats : list Q) (tps_abg : list Z) (abg : list abg_sample)
    : DataFrame :=
  let li := map fst (join_idx tps tps_abg) in
  let ri := map snd (join_idx tps tps_abg) in
  let m := List.length tps in
  [ ("patient_id", take (repeat (CStr (patient_id b)) m) li);
    ("time_minutes", take (map CInt tps) li);
    ("time_hours_x", take (vitals_keys tps) li);
    ("rectal_temperature_c", take (map CNum temps) li);
    ("heart_rate_bpm", take (map CNum hrs) li);
    ("systolic_bp_mmhg", take (map CNum sys) li);
    ("diastolic_bp_mmhg", take (map CNum dia) li);
    ("oxygen_saturation_percent", take (map CNum sats) li);
    ("hie_severity", take (repeat (CStr (hie_severity b)) m) li);
    ("target_temp_c", take (repeat (CNum target) m) li);
    ("time_hours_y", take_opt (abg_keys tps_abg) ri);
    ("pH", ffill (take_opt (map (fun a => CNum (abg_pH a)) abg) ri));
    ("pCO2_mmhg", ffill (take_opt (map (fun a => CNum (abg_pCO2 a)) abg) ri));
    ("pO2_mmhg", ffill (take_opt (map (fun a => CNum (abg_pO2 a)) abg) ri));
    ("lactate_mmol", ffill (take_opt (map (fun a => CNum (abg_lactate a)) abg) ri));
    ("baseline_birth_weight_kg", repeat (CNum (birth_weight_kg b)) n);
    ("baseline_gestational_age_weeks", repeat (CNum (gestational_age_weeks b)) n);
    ("baseline_birth_hour", repeat (CInt (birth_hour b)) n);
    ("baseline_hie_severity", repeat (CStr (hie_severity b)) n);
    ("baseline_baseline_heart_rate", repeat (CNum (baseline_heart_rate b)) n);
    ("baseline_baseline_resp_rate", repeat (CNum (baseline_resp_rate b)) n);
    ("baseline_baseline_systolic_bp", repeat (CNum (baseline_systolic_bp b)) n);
    ("baseline_baseline_diastolic_bp", repeat (CNum (baseline_diastolic_bp b)) n);
    ("baseline_baseline_oxygen_sat", repeat (CNum (baseline_oxygen_sat b)) n);
    ("baseline_baseline_rectal_temp", repeat (CNum (baseline_rectal_temp b)) n);
    ("baseline_baseline_core_temp", repeat (CNum (baseline_core_temp b)) n);
    ("baseline_seizure_risk_factor", repeat (CNum (seizure_risk_factor b)) n) ]%string.


Definition patient_table b target tps temps hrs sys dia sats tps_abg abg : DataFrame :=
  patient_table_n (List.length (join_idx tps tps_abg)) b target tps temps hrs sys dia sats tps_abg abg.

Lemma take_length c idx : List.length (take c idx) = List.length idx.
Proof. apply length_map. Qed.

Lemma assemble_ok b target tps temps hrs sys dia sats tps_abg abg df abg_df :
  vitals_frame (patient_id b) tps temps hrs sys dia sats (hie_severity b) target = Ok df ->
  abg_frame tps_abg abg = Ok abg_df ->
  List.length temps = List.length tps ->
  List.length hrs = List.length tps ->
  List.length sys = List.length tps ->
  List.length dia = List.length tps ->
  List.length sats = List.length tps ->
  List.length abg = List.length tps_abg ->
  rbind (align_blood_gas df abg_df) (add_baseline_columns (baseline_items b))
  = Ok (patient_table b target tps temps hrs sys dia sats tps_abg abg).
Proof.
  intros Hdf Habg H1 H2 H3 H4 H5 H6.
  rewrite vitals_frame_ok in Hdf by assumption.
  rewrite abg_frame_ok in Habg by assumption.
  injection Hdf as <-. injection Habg as <-.
  unfold align_blood_gas.
  cbn [get_column dict_get String.eqb Ascii.eqb Bool.eqb rbind].
  unfold set_column at 1. cbn [nrows]. unfold vitals_keys at 1.
  rewrite length_map, repeat_length, Nat.eqb_refl.
  transitivity
    (Ok (patient_table_n
           (List.length (take (repeat (CStr (patient_id b)) (List.length tps))
                              (map fst (join_idx tps tps_abg))))
           b target tps temps hrs sys dia sats tps_abg abg)).
  - reflexivity.
  - rewrite take_length, length_map. reflexivity.
Qed.

(* ------------------------------------------------------------------ *)
(** ** Shape of the pipeline's intermediate results *)

Section PipelineShape.
Context {R : RandomSource} {N : Numerics}.

Lemma lift_result_ok {A} (r : result A) w a w' :
  lift_result r w = Ok (a, w') -> r = Ok a /\ w' = w.
Proof.
  unfold lift_result. destruct r; intros H; [| discriminate].
  injection H as <- <-. split; reflexivity.
Qed.

Lemma temperature_shape baseline target rate rewarm dur step w tps temps w' :
  simulate_rectal_temperature baseline target rate rewarm dur step w
    = Ok ((tps, temps), w') ->
  tps = np_arange dur step /\ List.length temps = List.length tps.
Proof.
  intros H. unfold simulate_rectal_temperature in H.
  destruct (step =? 0)%Z; [run_inv H |].
  destruct (float_rounds_to_zero (rate / 60)); [run_inv H |].
  destruct (float_rounds_to_inf _); [run_inv H |].
  run_inv H. split; [reflexivity |].
  apply for_each_length in Hstep. rewrite Hstep. apply enumerate_length.
Qed.

Lemma heart_rate_shape baseline_hr dur step stress w tps hrs w' :
  generate_heart_rate_data baseline_hr dur step stress w = Ok ((tps, hrs), w') ->
  tps = np_arange dur step /\ List.length hrs = List.length tps.
Proof.
  intros H. unfold generate_heart_rate_data in H.
  destruct (step =? 0)%Z; [run_inv H |].
  run_inv H. split; [reflexivity |].
  apply for_each_length in Hstep0. rewrite Hstep0. apply enumerate_length.
Qed.

Lemma blood_pressure_shape b_sys b_dia dur step w tps sys dia w' :
  generate_blood_pressure_data b_sys b_dia dur step w
    = Ok ((tps, sys, dia), w') ->
  tps = np_arange dur step /\
  List.length sys = List.length tps /\ List.length dia = List.length tps.
Proof.
  intros H. unfold generate_blood_pressure_data in H.
  destruct (step =? 0)%Z; [run_inv H |].
  run_inv H. split; [reflexivity |].
  apply for_each_length in Hstep.
  rewrite !length_map, Hstep, enumerate_length. split; reflexivity.
Qed.

Lemma spo2_shape baseline_spo2 dur step distress w tps sats w' :
  generate_oxygen_saturation_data baseline_spo2 dur step distress w
    = Ok ((tps, sats), w') ->
  tps = np_arange dur step /\ List.length sats = List.length tps.
Proof.
  intros H. unfold generate_oxygen_saturation_data in H.
  destruct (step =? 0)%Z; [run_inv H |].
  run_inv H. split; [reflexivity |].
  apply for_each_length in Hstep.
  rewrite length_map, Hstep. apply enumerate_length.
Qed.

Lemma blood_gas_shape hours ts sev w tps abg w' :
  generate_blood_gas_data hours ts sev w = Ok ((tps, abg), w') ->
  tps = np_arange hours ts /\ List.length abg = Z.to_nat (hours / ts).
Proof.
  intros H. unfold generate_blood_gas_data in H.
  destruct (ts =? 0)%Z; [run_inv H |].
  destruct (hours / ts <? 0)%Z; [run_inv H |].
  apply bind_ok in H as ([[[b1 b2] b3] b4] & w1 & _ & H).
  run_inv H. split; [reflexivity |].
  apply for_each_length in Hstep. rewrite Hstep. apply length_seq.
Qed.

Lemma abg_frame_lengths tps_abg abg df :
  abg_frame tps_abg abg = Ok df -> List.length abg = List.length tps_abg.
Proof.
  unfold abg_frame, pd_DataFrame. cbn [array_lengths forallb].
  rewrite !length_map.
  destruct (Nat.eqb_spec (List.length tps_abg) (List.length abg)) as [E | _];
    [intros _; symmetry; exact E | cbn; discriminate].
Qed.

Lemma returns_now : returns datetime_now (fun _ => True).
Proof. intros w. eexists _, _. split; [reflexivity | trivial]. Qed.

Lemma generate_cooling_protocol_returns (sev : string) (baseline_temp : Q) :
  In sev severities ->
  returns (generate_cooling_protocol sev baseline_temp)
    (fun p => 0.1 <= cooling_rate p /\ 32 <= target_temp p <= 33.5 /\
              protocol_baseline_temp p = baseline_temp).
Proof.
  intros Hsev. unfold generate_cooling_protocol.
  eapply returns_bind;
    [apply (returns_draw _ (fun v => 32 <= v <= 33.5)); intros s;
     match goal with
     | |- _ <= fst (uniform ?lo ?hi _) <= _ =>
         destruct (uniform_range lo hi s ltac:(lra)); split; lra
     end | intros t1 Ht1].
  eapply returns_bind;
    [apply (returns_draw _ (fun v => 0.1 <= v)); intros s;
     apply uniform_range; lra | intros c1 Hc1].
  eapply returns_bind; [apply returns_total, total_draw | intros ? _].
  eapply returns_bind;
    [apply (returns_draw _ (fun v => 32 <= v <= 33.5)); intros s;
     match goal with
     | |- _ <= fst (uniform ?lo ?hi _) <= _ =>
         destruct (uniform_range lo hi s ltac:(lra)); split; lra
     end | intros t2 Ht2].
  eapply returns_bind;
    [apply (returns_draw _ (fun v => 0.15 <= v)); intros s;
     apply uniform_range; lra | intros c2 Hc2].
  eapply returns_bind; [apply returns_total, total_draw | intros ? _].
  eapply returns_bind;
    [apply (returns_draw _ (fun v => 32 <= v <= 33.5)); intros s;
     match goal with
     | |- _ <= fst (uniform ?lo ?hi _) <= _ =>
         destruct (uniform_range lo hi s ltac:(lra)); split; lra
     end | intros t3 Ht3].
  eapply returns_bind;
    [apply (returns_draw _ (fun v => 0.2 <= v)); intros s;
     apply uniform_range; lra | intros c3 Hc3].
  eapply returns_bind; [apply returns_total, total_draw | intros ? _].
  apply in_severities in Hsev.
  destruct Hsev as [-> | [-> | ->]];
    (eapply returns_bind;
     [ eapply returns_lift with (P := fun v => 0.1 <= snd (fst v) /\
                                              32 <= fst (fst (fst v)) <= 33.5);
       [ reflexivity | cbn [fst snd] in *; repeat split; lra ]
     | intros [[[tg hs] cl] rw] [Hcl Htg]; cbn [fst snd] in Hcl, Htg;
       eapply returns_bind; [apply returns_now | intros now _];
       apply returns_ret; cbn; auto ]).
Qed.

End PipelineShape.

Section PatientDataset.
Context {R : RandomSource} {N : Numerics}.

Lemma baseline_patient_id pid w b w' :
  generate_baseline_parameters pid w = Ok (b, w') -> patient_id b = pid.
Proof.
  intros H. unfold generate_baseline_parameters in H. run_inv H. reflexivity.
Qed.

(** Every dataset the pipeline returns is a [patient_table]. *)
Lemma patient_dataset_shape pid hours step w df w' :
  generate_complete_patient_dataset pid hours step w = Ok (df, w') ->
  exists b target temps hrs sys dia sats abg,
    patient_id b = pid /\
    List.length temps = arange_len (hours * 60) step /\
    List.length hrs = arange_len (hours * 60) step /\
    List.length sys = arange_len (hours * 60) step /\
    List.length dia = arange_len (hours * 60) step /\
    List.length sats = arange_len (hours * 60) step /\
    List.length abg = arange_len hours 4 /\
    (exists wa wb, generate_blood_gas_data hours 4 (hie_severity b) wa
                   = Ok ((np_arange hours 4, abg), wb)) /\
    df = patient_table b target (np_arange (hours * 60) step)
           temps hrs sys dia sats (np_arange hours 4) abg.
Proof.
  intros H. unfold generate_complete_patient_dataset in H.
  apply bind_ok in H as (b & w1 & Hb & H).
  apply bind_ok in H as (p & w2 & Hp & H).
  apply bind_ok in H as ([tps temps] & w3 & Ht & H).
  apply bind_ok in H as ([tps1 hrs] & w4 & Hh & H).
  apply bind_ok in H as ([[tps2 sys] dia] & w5 & Hbp & H).
  apply bind_ok in H as ([tps3 sats] & w6 & Hs & H).
  apply bind_ok in H as (df0 & w7 & Hdf0 & H).
  apply bind_ok in H as ([tps_abg abg] & w8 & Habg & H).
  apply bind_ok in H as (abg_df & w9 & Hadf & H).
  apply lift_result_ok in H as [H _].
  apply lift_result_ok in Hdf0 as [Hdf0 _].
  apply lift_result_ok in Hadf as [Hadf _].
  cbn [fst snd] in *.
  apply temperature_shape in Ht as [-> Ht].
  apply heart_rate_shape in Hh as [-> Hh].
  apply blood_pressure_shape in Hbp as (-> & Hsys & Hdia).
  apply spo2_shape in Hs as [-> Hs].
  pose proof Habg as Hgas.
  apply blood_gas_shape in Habg as [-> Habg].
  pose proof (abg_frame_lengths _ _ _ Hadf) as Hlen.
  pose proof (baseline_patient_id _ _ _ _ Hb) as Hpid.
  rewrite <- Hpid in Hdf0.
  rewrite (assemble_ok b (target_temp p) (np_arange (hours * 60) step)
             temps hrs sys dia sats (np_arange hours 4) abg df0 abg_df)
    in H by assumption.
  exists b, (target_temp p), temps, hrs, sys, dia, sats, abg.
  rewrite !np_arange_length in *.
  injection H as <-.
  repeat split; try congruence.
  exists w7, w8. exact Hgas.
Qed.

Lemma arange_len_exact (hours : Z) :
  (hours mod 4 = 0)%Z -> arange_len hours 4 = Z.to_nat (hours / 4).
Proof.
  intros Hm. unfold arange_len.
  rewrite Z_div_zero_opp_full by exact Hm. rewrite Z.opp_involutive.
  reflexivity.
Qed.

(** The pipeline returns for every non-zero time step and every duration
    that is a non-negative multiple of four hours. *)
Lemma patient_dataset_returns pid hours step :
  step <> 0%Z -> (0 <= hours)%Z -> (hours mod 4 = 0)%Z ->
  total (generate_complete_patient_dataset pid hours step).
Proof.
  intros Hstep Hh Hm w.
  assert (Hr : returns (generate_complete_patient_dataset pid hours step)
                 (fun _ => True)); [| destruct (Hr w) as (a & w' & Ha & _);
                                     exists a, w'; exact Ha].
  unfold generate_complete_patient_dataset.
  eapply returns_bind; [apply generate_baseline_parameters_returns |].
  intros b (Hpid & Hsev & _ & Hb).
  eapply returns_bind; [apply generate_cooling_protocol_returns, Hsev |].
  intros p (Hrate & Ht & Hbase).
  eapply returns_bind.
  { rewrite Hbase.
    destruct (pipeline_rate_in_range _ _ _ Hb Ht Hrate) as [Hzero Hinf].
    apply temperature_returns; assumption. }
  intros [tps temps] [Htps Htemps]. cbn [fst snd] in Htps, Htemps. subst tps.
  eapply returns_bind; [apply heart_rate_returns, Hstep |].
  intros [tps1 hrs] [_ Hhrs]. cbn [snd] in Hhrs.
  eapply returns_bind; [apply blood_pressure_returns, Hstep |].
  intros [[tps2 sys] dia] (_ & Hsys & Hdia). cbn [fst snd] in Hsys, Hdia.
  eapply returns_bind; [apply spo2_returns, Hstep |].
  intros [tps3 sats] [_ Hsats]. cbn [fst snd] in *.
  eapply returns_bind.
  { eapply returns_lift with (P := fun df => vitals_frame pid
         (np_arange (hours * 60) step) temps hrs sys dia sats
         (hie_severity b) (target_temp p) = Ok df);
      apply vitals_frame_ok; assumption. }
  intros df0 Hdf0.
  eapply returns_bind.
  { apply blood_gas_returns with (ts := 4%Z);
      [discriminate | apply Z.div_pos; lia | exact Hsev]. }
  intros [tps_abg abg] [Htabg Habg]. cbn [fst snd] in *. subst tps_abg.
  assert (Hlabg : List.length abg = List.length (np_arange hours 4)).
  { rewrite np_arange_length, arange_len_exact by assumption. exact Habg. }
  eapply returns_bind.
  { eapply returns_lift with (P := fun adf =>
         abg_frame (np_arange hours 4) abg = Ok adf);
      apply abg_frame_ok, Hlabg. }
  intros abg_df Hadf.
  eapply returns_lift; [| exact I].
  rewrite <- Hpid in Hdf0.
  apply (assemble_ok b (target_temp p) (np_arange (hours * 60) step)
           temps hrs sys dia sats (np_arange hours 4) abg df0 abg_df);
    assumption.
Qed.

End PatientDataset.

(* ------------------------------------------------------------------ *)
(** ** Columns and rows of the assembled table *)

(** The column names of a returned dataset, in order. *)
Definition dataset_columns : list string :=
  [ "patient_id"; "time_minutes"; "time_hours_x"; "rectal_temperature_c";
    "heart_rate_bpm"; "systolic_bp_mmhg"; "diastolic_bp_mmhg";
    "oxygen_saturation_percent"; "hie_severity"; "target_temp_c";
    "time_hours_y"; "pH"; "pCO2_mmhg"; "pO2_mmhg"; "lactate_mmol";
    "baseline_birth_weight_kg"; "baseline_gestational_age_weeks";
    "baseline_birth_hour"; "baseline_hie_severity";
    "baseline_baseline_heart_rate"; "baseline_baseline_resp_rate";
    "baseline_baseline_systolic_bp"; "baseline_baseline_diastolic_bp";
    "baseline_baseline_oxygen_sat"; "baseline_baseline_rectal_temp";
    "baseline_baseline_core_temp"; "baseline_seizure_risk_factor" ]%string.

Lemma patient_table_columns b target tps temps hrs sys dia sats tps_abg abg :
  columns (patient_table b target tps temps hrs sys dia sats tps_abg abg)
  = dataset_columns.
Proof. reflexivity. Qed.

Lemma take_opt_length c idx : List.length (take_opt c idx) = List.length idx.
Proof. apply length_map. Qed.

Lemma ffill_from_length last c : List.length (ffill_from last c) = List.length c.
Proof.
  revert last. induction c as [| x c IH]; intros last; [reflexivity |].
  destruct x; cbn; rewrite IH; reflexivity.
Qed.

Lemma ffill_length c : List.length (ffill c) = List.length c.
Proof. apply ffill_from_length. Qed.

(** Every column of a [patient_table] has one entry per row of the join. *)
Definition rows_of (n : nat) (df : DataFrame) : Prop :=
  Forall (fun kv => List.length (snd kv) = n) df.

Lemma patient_table_rows b target tps temps hrs sys dia sats tps_abg abg :
  rows_of (List.length (join_idx tps tps_abg))
    (patient_table b target tps temps hrs sys dia sats tps_abg abg).
Proof.
  unfold rows_of, patient_table, patient_table_n.
  repeat constructor; cbn [snd];
    rewrite ?ffill_length, ?take_length, ?take_opt_length, ?repeat_length,
            ?length_map; reflexivity.
Qed.


(* ------------------------------------------------------------------ *)
(** ** The left join when every key has at most one match *)

Lemma filter_seq_unique (f : nat -> bool) (a m : nat) :
  (forall j j', (a <= j < a + m)%nat -> (a <= j' < a + m)%nat ->
                f j = true -> f j' = true -> j = j') ->
  filter f (seq a m) = [] \/
  exists j0, (a <= j0 < a + m)%nat /\ f j0 = true /\ filter f (seq a m) = [j0].
Proof.
  revert a. induction m as [| m IH]; intros a Huniq; [left; reflexivity |].
  cbn [seq filter]. destruct (f a) eqn:Ea.
  - right. exists a. split; [lia |]. split; [exact Ea |].
    f_equal. 
    assert (Hnone : forall j, In j (seq (S a) m) -> f j = false).
    { intros j Hj. apply in_seq in Hj. destruct (f j) eqn:Ej; [| reflexivity].
      assert (j = a) by (apply Huniq; try assumption; lia). lia. }
    clear -Hnone. induction (seq (S a) m) as [| x l IHl]; [reflexivity |].
    cbn. rewrite (Hnone x (or_introl eq_refl)). apply IHl.
    intros j Hj. apply Hnone. right. exact Hj.
  - destruct (IH (S a)) as [H | (j0 & Hj0 & Hf & H)].
    + intros j j' Hj Hj'. apply Huniq; lia.
    + left. exact H.
    + right. exists j0. split; [lia |]. split; assumption.
Qed.

Lemma left_join_indexer_unique (lk rk : column) :
  (forall k, In k lk -> (List.length (key_matches k rk) <= 1)%nat) ->
  left_join_indexer lk rk
  = map (fun ik => (fst ik, hd_error (key_matches (snd ik) rk))) (enumerate lk).
Proof.
  intros Huniq. unfold left_join_indexer, enumerate.
  generalize 0%nat as a. induction lk as [| k lk IH]; intros a; [reflexivity |].
  cbn [List.length seq combine flat_map map fst snd].
  rewrite IH by (intros k' Hk'; apply Huniq; right; exact Hk').
  specialize (Huniq k (or_introl eq_refl)).
  destruct (key_matches k rk) as [| j [| j' l]]; cbn in Huniq |- *;
    [reflexivity | reflexivity | lia].
Qed.

Lemma enumerate_fst {A} (l : list A) :
  map fst (enumerate l) = seq 0 (List.length l).
Proof.
  unfold enumerate. generalize 0%nat as a.
  induction l as [| x l IH]; intros a; [reflexivity |].
  cbn. rewrite IH. reflexivity.
Qed.

Lemma enumerate_snd {A} (l : list A) : map snd (enumerate l) = l.
Proof.
  unfold enumerate. generalize 0%nat as a.
  induction l as [| x l IH]; intros a; [reflexivity |].
  cbn. rewrite IH. reflexivity.
Qed.

Lemma take_seq (c : column) : take c (seq 0 (List.length c)) = c.
Proof.
  unfold take. apply nth_ext with (d := CNaN) (d' := CNaN).
  - rewrite length_map, length_seq. reflexivity.
  - intros i Hi. rewrite length_map, length_seq in Hi.
    rewrite (nth_indep _ CNaN (nth 0 c CNaN)) by (rewrite length_map, length_seq; exact Hi).
    rewrite (map_nth (fun i => nth i c CNaN)), seq_nth by exact Hi. reflexivity.
Qed.

Lemma nth_map_seq {A} (h : nat -> A) (m j : nat) (d : A) :
  (j < m)%nat -> nth j (map h (seq 0 m)) d = h j.
Proof.
  intros Hj. rewrite (nth_indep _ d (h 0%nat)) by (rewrite length_map, length_seq; exact Hj).
  rewrite map_nth, seq_nth by exact Hj. reflexivity.
Qed.

Lemma abg_keys_length (hours : Z) :
  List.length (abg_keys (np_arange hours 4)) = arange_len hours 4.
Proof. unfold abg_keys. rewrite length_map. apply np_arange_length. Qed.

Lemma abg_keys_nth (hours : Z) (j : nat) :
  (j < arange_len hours 4)%nat ->
  nth j (abg_keys (np_arange hours 4)) CNaN = CInt (Z.of_nat j * 4).
Proof.
  intros Hj. unfold abg_keys, np_arange. rewrite map_map.
  apply (nth_map_seq (fun x => CInt (Z.of_nat x * 4))). exact Hj.
Qed.

Lemma hours_key_eq (tp z : Z) :
  Qeq_bool (inject_Z tp / 60) (inject_Z z) = true <-> tp = (60 * z)%Z.
Proof.
  rewrite Qeq_bool_iff. split.
  - intros H.
    assert (H' : inject_Z tp == inject_Z (60 * z)).
    { rewrite inject_Z_mult. change (inject_Z 60) with 60.
      rewrite <- H. field. }
    exact (proj1 (inject_Z_injective _ _) H').
  - intros ->. rewrite inject_Z_mult. change (inject_Z 60) with 60. field.
Qed.

(** The blood-gas rows that a vitals row at minute [tp] joins: the grid
    point at that very minute, if there is one. *)
Lemma abg_key_matches (hours tp : Z) :
  (key_matches (CNum (inject_Z tp / 60)) (abg_keys (np_arange hours 4)) = [] /\
   forall j, (j < arange_len hours 4)%nat -> tp <> (240 * Z.of_nat j)%Z) \/
  (exists j, (j < arange_len hours 4)%nat /\ tp = (240 * Z.of_nat j)%Z /\
             key_matches (CNum (inject_Z tp / 60)) (abg_keys (np_arange hours 4)) = [j]).
Proof.
  unfold key_matches. rewrite abg_keys_length.
  set (f := fun j => cell_eqb (CNum (inject_Z tp / 60))
                       (nth j (abg_keys (np_arange hours 4)) CNaN)).
  assert (Hf : forall j, (j < arange_len hours 4)%nat ->
                         (f j = true <-> tp = (240 * Z.of_nat j)%Z)).
  { intros j Hj. unfold f. rewrite abg_keys_nth by exact Hj.
    cbn [cell_eqb]. rewrite hours_key_eq. lia. }
  destruct (filter_seq_unique f 0 (arange_len hours 4)) as [H | (j0 & Hj0 & Hfj & H)].
  - intros j j' Hj Hj' Ej Ej'. apply Hf in Ej; [| lia]. apply Hf in Ej'; [| lia]. lia.
  - left. split; [exact H |]. intros j Hj E. apply Hf in E; [| exact Hj].
    assert (Hin : In j (filter f (seq 0 (arange_len hours 4)))).
    { apply filter_In. split; [apply in_seq; lia | exact E]. }
    rewrite H in Hin. exact Hin.
  - right. exists j0. split; [lia |]. split; [apply Hf; [lia | exact Hfj] | exact H].
Qed.

Lemma join_idx_unique (tps : list Z) (hours : Z) :
  join_idx tps (np_arange hours 4)
  = map (fun ik => (fst ik, hd_error (key_matches (snd ik)
                                        (abg_keys (np_arange hours 4)))))
        (enumerate (vitals_keys tps)).
Proof.
  unfold join_idx. apply left_join_indexer_unique.
  intros k Hk. unfold vitals_keys in Hk. apply in_map_iff in Hk as (tp & <- & _).
  destruct (abg_key_matches hours tp) as [[-> _] | (j & _ & _ & ->)]; cbn; lia.
Qed.

Lemma join_idx_left (tps : list Z) (hours : Z) :
  map fst (join_idx tps (np_arange hours 4)) = seq 0 (List.length tps).
Proof.
  rewrite join_idx_unique, map_map. cbn [fst].
  change (fun x : nat * cell => fst x) with (@fst nat cell).
  rewrite enumerate_fst. unfold vitals_keys. rewrite length_map. reflexivity.
Qed.

Lemma join_idx_length (tps : list Z) (hours : Z) :
  List.length (join_idx tps (np_arange hours 4)) = List.length tps.
Proof.
  rewrite <- (length_map fst), join_idx_left. apply length_seq.
Qed.

Lemma join_idx_right (tps : list Z) (hours : Z) :
  map snd (join_idx tps (np_arange hours 4))
  = map (fun tp => hd_error (key_matches (CNum (inject_Z tp / 60))
                               (abg_keys (np_arange hours 4)))) tps.
Proof.
  rewrite join_idx_unique, map_map. cbn [snd].
  rewrite <- (map_map snd (fun k => hd_error (key_matches k _))).
  rewrite enumerate_snd. unfold vitals_keys. rewrite map_map. reflexivity.
Qed.

(* ------------------------------------------------------------------ *)
(** ** Forward fill along the vitals grid *)

Lemma ffill_from_all_nan (last : cell) (c : column) (r : nat) :
  (r < List.length c)%nat ->
  (forall i, (i <= r)%nat -> nth i c CNaN = CNaN) ->
  nth r (ffill_from last c) CNaN = last.
Proof.
  revert r. induction c as [| x c IH]; intros r Hr Hnan; [cbn in Hr; lia |].
  pose proof (Hnan 0%nat (Nat.le_0_l r)) as Hx. cbn in Hx. subst x.
  cbn [ffill_from]. destruct r as [| r]; [reflexivity |].
  cbn [nth]. apply IH; [cbn in Hr; lia |].
  intros i Hi. apply (Hnan (S i)). lia.
Qed.

Lemma ffill_from_carries (last : cell) (c : column) (r k : nat) :
  (k <= r < List.length c)%nat ->
  nth k c CNaN <> CNaN ->
  (forall i, (k < i <= r)%nat -> nth i c CNaN = CNaN) ->
  nth r (ffill_from last c) CNaN = nth k c CNaN.
Proof.
  revert last r k. induction c as [| x c IH]; intros last r k Hr Hk Hnan;
    [cbn in Hr; lia |].
  destruct k as [| k].
  - cbn [nth] in Hk |- *.
    assert (Hx : ffill_from last (x :: c) = x :: ffill_from x c).
    { destruct x; try reflexivity. contradiction. }
    rewrite Hx. destruct r as [| r]; [reflexivity |].
    cbn [nth]. apply ffill_from_all_nan; [cbn in Hr; lia |].
    intros i Hi. apply (Hnan (S i)). lia.
  - destruct r as [| r]; [lia |].
    assert (Hx : exists last', ffill_from last (x :: c) = last' :: ffill_from last' c).
    { destruct x; eexists; reflexivity. }
    destruct Hx as (last' & ->). cbn [nth] in Hk |- *.
    apply IH; [cbn in Hr; lia | exact Hk |].
    intros i Hi. apply (Hnan (S i)). lia.
Qed.

(** A row index lies on the grid of [np.arange(0, stop, step)] exactly
    when its time is before [stop]. *)
Lemma arange_len_lt (stop step : Z) (r : nat) :
  (0 < step)%Z ->
  ((r < arange_len stop step)%nat <-> (Z.of_nat r * step < stop)%Z).
Proof.
  intros Hs. unfold arange_len.
  pose proof (Z.div_mod (- stop) step ltac:(lia)) as Hdm.
  pose proof (Z.mod_pos_bound (- stop) step Hs) as Hmod.
  set (d := (- stop / step)%Z) in *. set (m := ((- stop) mod step)%Z) in *.
  split; intros H.
  - assert (Hr : (Z.of_nat r < - d)%Z) by lia. nia.
  - assert (Hr : (Z.of_nat r < - d)%Z) by nia. lia.
Qed.

Lemma np_arange_nth (stop step : Z) (r : nat) :
  (r < arange_len stop step)%nat ->
  nth r (np_arange stop step) 0%Z = (Z.of_nat r * step)%Z.
Proof.
  intros Hr. unfold np_arange.
  apply (nth_map_seq (fun k => (Z.of_nat k * step)%Z)). exact Hr.
Qed.

Lemma nth_map_arange {A} (g : Z -> A) (stop step : Z) (i : nat) (d : A) :
  (i < arange_len stop step)%nat ->
  nth i (map g (np_arange stop step)) d = g (Z.of_nat i * step)%Z.
Proof.
  intros Hi. unfold np_arange. rewrite map_map.
  apply (nth_map_seq (fun k => g (Z.of_nat k * step)%Z)). exact Hi.
Qed.

Section Alignment.
Variables (hours step : Z) (abg : list abg_sample) (f : abg_sample -> Q).
Hypothesis Hstep : (0 < step)%Z.
Hypothesis Hdiv : (240 mod step = 0)%Z.
Hypothesis Habg : List.length abg = arange_len hours 4.

Let tps := np_arange (hours * 60) step.
Let merged : column :=
  take_opt (map (fun a => CNum (f a)) abg)
           (map snd (join_idx tps (np_arange hours 4))).

Lemma merged_nth (i : nat) :
  (i < arange_len (hours * 60) step)%nat ->
  (nth i merged CNaN = CNaN /\
   forall j, (j < arange_len hours 4)%nat ->
             (Z.of_nat i * step)%Z <> (240 * Z.of_nat j)%Z) \/
  (exists j, (j < arange_len hours 4)%nat /\
             (Z.of_nat i * step)%Z = (240 * Z.of_nat j)%Z /\
             forall d, nth i merged CNaN = CNum (f (nth j abg d))).
Proof.
  intros Hi. unfold merged, take_opt. rewrite join_idx_right, map_map.
  unfold tps. rewrite (nth_map_arange _ _ _ i CNaN Hi).
  destruct (abg_key_matches hours (Z.of_nat i * step)) as [[-> Hno] | (j & Hj & Ej & ->)].
  - left. split; [reflexivity | exact Hno].
  - right. exists j. split; [exact Hj |]. split; [exact Ej |]. intros d.
    cbn [hd_error].
    rewrite (nth_indep _ CNaN (CNum (f d))) by (rewrite length_map, Habg; exact Hj).
    rewrite (map_nth (fun a => CNum (f a))). reflexivity.
Qed.

Lemma merged_length : List.length merged = arange_len (hours * 60) step.
Proof.
  unfold merged. rewrite take_opt_length, length_map, join_idx_length.
  apply np_arange_length.
Qed.

(** Row [r] of a forward-filled blood-gas column holds the sample of the
    last 4-hour grid point at or before the row's minute. *)
Lemma aligned_nth (r : nat) (d : abg_sample) :
  (r < arange_len (hours * 60) step)%nat ->
  let j := Z.to_nat (Z.of_nat r * step / 240) in
  (j < List.length abg)%nat /\
  nth r (ffill merged) CNaN = CNum (f (nth j abg d)).
Proof.
  intros Hr j.
  pose proof (proj1 (arange_len_lt _ _ _ Hstep) Hr) as Ht.
  set (t := (Z.of_nat r * step)%Z) in *.
  assert (Ht0 : (0 <= t)%Z) by (unfold t; nia).
  pose proof (Z.div_mod t 240 ltac:(lia)) as Hdm.
  pose proof (Z.mod_pos_bound t 240 ltac:(lia)) as Hmod.
  assert (Hj0 : (0 <= t / 240)%Z) by (apply Z.div_pos; lia).
  assert (Hjz : Z.of_nat j = (t / 240)%Z) by (unfold j; lia).
  assert (Hjm : (j < arange_len hours 4)%nat).
  { apply (arange_len_lt hours 4 j); lia. }
  split; [rewrite Habg; exact Hjm |].
  pose proof (Z.div_mod 240 step ltac:(lia)) as Hq. rewrite Hdiv in Hq.
  set (q := (240 / step)%Z) in *.
  assert (Hq0 : (0 < q)%Z) by nia.
  set (k := Z.to_nat (t / 240 * q)).
  assert (Hkz : Z.of_nat k = (t / 240 * q)%Z) by (unfold k; nia).
  assert (Hks : (Z.of_nat k * step = 240 * Z.of_nat j)%Z) by nia.
  assert (Hkr : (k <= r)%nat) by (unfold t in *; nia).
  assert (Hkn : (k < arange_len (hours * 60) step)%nat) by lia.
  destruct (merged_nth k Hkn) as [[_ Hno] | (j' & Hj' & Ej' & Hval)].
  { exfalso. exact (Hno j Hjm Hks). }
  assert (j' = j) by lia. subst j'.
  unfold ffill. rewrite (ffill_from_carries CNaN merged r k).
  - apply Hval.
  - rewrite merged_length. lia.
  - rewrite (Hval d). discriminate.
  - intros i Hi.
    assert (Hin : (i < arange_len (hours * 60) step)%nat) by lia.
    destruct (merged_nth i Hin) as [[Hnan _] | (j2 & _ & Ej2 & _)];
      [exact Hnan | exfalso].
    unfold t in *. nia.
Qed.

End Alignment.

(* ------------------------------------------------------------------ *)
(** ** Alignment of the blood-gas columns *)

Lemma patient_table_time_minutes b target tps temps hrs sys dia sats hours abg :
  get_column (patient_table b target tps temps hrs sys dia sats
                (np_arange hours 4) abg) "time_minutes"
  = Ok (map CInt tps).
Proof.
  unfold patient_table, patient_table_n, get_column.
  cbn [dict_get String.eqb Ascii.eqb Bool.eqb].
  rewrite join_idx_left, <- (length_map CInt tps), take_seq. reflexivity.
Qed.

Lemma patient_table_nrows b target tps temps hrs sys dia sats hours abg :
  nrows (patient_table b target tps temps hrs sys dia sats
           (np_arange hours 4) abg) = List.length tps.
Proof.
  unfold patient_table, patient_table_n, nrows.
  rewrite take_length, length_map. apply join_idx_length.
Qed.

(** The blood-gas sample that row [r] of a table on a [step]-minute grid
    carries: the one of the 4-hour grid point [240 * j <= r * step]. *)
Definition carried_sample (step : Z) (r : nat) : nat :=
  Z.to_nat (Z.of_nat r * step / 240).

(** C3, as amended: when [time_step_minutes] is a positive divisor of 240
    (the default 5 is), every row of the dataset returned by
    [generate_complete_patient_dataset] holds, in [pH], [pCO2_mmhg],
    [pO2_mmhg] and [lactate_mmol], the blood-gas sample of the most recent
    4-hour grid point at or before the row's time (never a later one); and
    forward fill leaves a row that has only missing values up to it
    missing. *)
Theorem blood_gas_forward_filled
    (R : RandomSource) (N : Numerics) (pid : string) (hours step : Z)
    (w : world) (df : DataFrame) (w' : world) :
  (0 < step)%Z -> (240 mod step = 0)%Z ->
  generate_complete_patient_dataset pid hours step w = Ok (df, w') ->
  exists sev abg wa wb,
    generate_blood_gas_data hours 4 sev wa = Ok ((np_arange hours 4, abg), wb) /\
    (forall r d, (r < nrows df)%nat ->
       let t := (Z.of_nat r * step)%Z in
       let j := carried_sample step r in
       cell_at df "time_minutes" r = CInt t /\
       (j < List.length abg)%nat /\
       (nth j (np_arange hours 4) 0 * 60 <= t < nth j (np_arange hours 4) 0 * 60 + 240)%Z /\
       cell_at df "pH" r = CNum (abg_pH (nth j abg d)) /\
       cell_at df "pCO2_mmhg" r = CNum (abg_pCO2 (nth j abg d)) /\
       cell_at df "pO2_mmhg" r = CNum (abg_pO2 (nth j abg d)) /\
       cell_at df "lactate_mmol" r = CNum (abg_lactate (nth j abg d))) /\
    (forall (c : column) r,
       (r < List.length c)%nat ->
       (forall i, (i <= r)%nat -> nth i c CNaN = CNaN) ->
       nth r (ffill c) CNaN = CNaN).
Proof.
  intros Hstep Hdiv Hrun.
  destruct (patient_dataset_shape pid hours step w df w' Hrun)
    as (b & target & temps & hrs & sys & dia & sats & abg & _ & _ & _ & _ & _
        & _ & Habg & (wa & wb & Hgas) & ->).
  exists (hie_severity b), abg, wa, wb. split; [exact Hgas |]. split.
  - intros r d Hr t j.
    rewrite patient_table_nrows, np_arange_length in Hr.
    destruct (aligned_nth hours step abg abg_pH Hstep Hdiv Habg r d Hr) as [Hj HpH].
    destruct (aligned_nth hours step abg abg_pCO2 Hstep Hdiv Habg r d Hr) as [_ Hco].
    destruct (aligned_nth hours step abg abg_pO2 Hstep Hdiv Habg r d Hr) as [_ Ho].
    destruct (aligned_nth hours step abg abg_lactate Hstep Hdiv Habg r d Hr) as [_ Hl].
    split.
    { unfold cell_at. rewrite patient_table_time_minutes.
      apply (nth_map_arange CInt). exact Hr. }
    split; [exact Hj |].
    split.
    { rewrite np_arange_nth by (rewrite <- Habg; exact Hj).
      pose proof (proj1 (arange_len_lt _ _ _ Hstep) Hr) as Ht.
      fold t in Ht.
      assert (Ht0 : (0 <= t)%Z) by (unfold t; nia).
      pose proof (Z.div_mod t 240 ltac:(lia)) as Hdm.
      pose proof (Z.mod_pos_bound t 240 ltac:(lia)) as Hmod.
      assert (Hj0 : (0 <= t / 240)%Z) by (apply Z.div_pos; lia).
      unfold j, carried_sample. fold t. rewrite Z2Nat.id by exact Hj0. lia. }
    repeat split; assumption.
  - intros c r Hr Hnan. apply ffill_from_all_nan; assumption.
Qed.

(** The oracle world whose every outcome is 0 and whose clock reads 0. *)
Definition quiet_world : world (R := Oracle.source) :=
  Oracle.world_of (Oracle.of_list [] 0) 0.

(** An eight-hour table on a two-hour grid. *)
Lemma blood_gas_forward_filled_witness :
  exists df abg,
    List.length abg = 2%nat /\
    forall r d, (r < nrows df)%nat ->
      cell_at df "pH" r = CNum (abg_pH (nth (carried_sample 120 r) abg d)).
Proof.
  destruct (patient_dataset_returns (R := Oracle.source) (N := Oracle.numerics)
              "PATIENT_0001" 8 120 ltac:(discriminate) ltac:(lia) eq_refl
              quiet_world) as (df & w' & Hrun).
  destruct (blood_gas_forward_filled Oracle.source Oracle.numerics
              "PATIENT_0001" 8 120 quiet_world df w'
              eq_refl eq_refl Hrun)
    as (sev & abg & wa & wb & Hgas & Hrows & _).
  exists df, abg. split.
  - apply blood_gas_shape in Hgas as [_ Hlen]. exact Hlen.
  - intros r d Hr. apply (Hrows r d Hr).
Defined.


(** The state of the generator and of the clock after the 367 draws and
    the one clock reading that precede the blood-gas call of the run
    below. *)
Definition off_grid_gas_world : world (R := Oracle.source) :=
  mkWorld (R := Oracle.source)
    (Oracle.mkTape 367 (Oracle.outcomes (Oracle.of_list [] 0))) 1 (fun _ => 0%Z).

(** What the run on a 7-minute grid shows, as one boolean. *)
Definition off_grid_check
    (out : result (DataFrame * world (R := Oracle.source)))
    (gas : result (list Z * list abg_sample * world (R := Oracle.source)))
    : bool :=
  match out, gas with
  | Ok (df, w'), Ok ((tps, abg), wb) =>
      let d := mkAbg 0 0 0 0 in
      (Oracle.cursor (np_random w') =? 375)%nat &&
      (Oracle.cursor (np_random wb) =? 375)%nat &&
      (List.length abg =? 2)%nat &&
      cell_eqb (cell_at df "time_minutes" 35) (CInt 245) &&
      cell_eqb (cell_at df "pH" 35) (CNum (abg_pH (nth 0 abg d))) &&
      negb (Qeq_bool (abg_pH (nth 1 abg d)) (abg_pH (nth 0 abg d)))
  | _, _ => false
  end.

Lemma off_grid_check_holds :
  off_grid_check
    (generate_complete_patient_dataset (R := Oracle.source)
       (N := Oracle.numerics) "PATIENT_0001" 8 7 quiet_world)
    (generate_blood_gas_data (R := Oracle.source) 8 4 "mild"
       off_grid_gas_world)
  = true.
Proof. vm_compute. reflexivity. Qed.

(** C3 as stated fails off the 4-hour grid: with [time_step_minutes = 7]
    the row at minute 245 carries the sample of hour 0, although the
    sample of hour 4 (minute 240) is the most recent one, and the two
    differ.  The join matches on equal times only, and no multiple of 7
    minutes below 28 hours is a multiple of 4 hours. *)
Lemma blood_gas_sample_lost_off_grid :
  exists df w' abg wb,
    generate_complete_patient_dataset (R := Oracle.source)
      (N := Oracle.numerics) "PATIENT_0001" 8 7 quiet_world = Ok (df, w') /\
    generate_blood_gas_data (R := Oracle.source) 8 4 "mild"
      off_grid_gas_world = Ok ((np_arange 8 4, abg), wb) /\
    Oracle.cursor (np_random w') = Oracle.cursor (np_random wb) /\
    List.length abg = 2%nat /\
    cell_eqb (cell_at df "time_minutes" 35) (CInt 245) = true /\
    cell_eqb (cell_at df "pH" 35)
             (CNum (abg_pH (nth 0 abg (mkAbg 0 0 0 0)))) = true /\
    ~ abg_pH (nth 1 abg (mkAbg 0 0 0 0)) == abg_pH (nth 0 abg (mkAbg 0 0 0 0)).
Proof.
  pose proof off_grid_check_holds as H. unfold off_grid_check in H.
  destruct (generate_complete_patient_dataset "PATIENT_0001" 8 7 quiet_world)
    as [[df w'] | e]; [| discriminate].
  destruct (generate_blood_gas_data 8 4 "mild" off_grid_gas_world)
    as [[[tps abg] wb] | e] eqn:Egas; [| discriminate].
  apply blood_gas_shape in Egas as [-> _].
  apply andb_prop in H as [H Hneq].
  apply andb_prop in H as [H HpH].
  apply andb_prop in H as [H Hmin].
  apply andb_prop in H as [H Hlen].
  apply andb_prop in H as [Hcur Hcurb].
  apply Nat.eqb_eq in Hcur, Hcurb, Hlen.
  exists df, w', abg, wb.
  split; [reflexivity |]. split; [reflexivity |].
  split; [congruence |].
  split; [exact Hlen |].
  split; [exact Hmin |]. split; [exact HpH |].
  intros E. apply Qeq_bool_iff in E. rewrite E in Hneq. discriminate.
Qed.

(* ------------------------------------------------------------------ *)
(** ** Row counts and column names of the returned tables *)

(** The strings of a column, and its distinct strings in order of first
    appearance ([Series.unique()]). *)
Definition column_strings (c : column) : list string :=
  flat_map (fun x => match x with CStr s => [s] | _ => [] end) c.

Definition distinct_strings (c : column) : list string :=
  union_names [] (column_strings c).

Lemma value_of_returns {R : RandomSource} {A} (c : M A) w a w' :
  c w = Ok (a, w') -> value_of (c w) = Some a.
Proof. intros ->. reflexivity. Qed.

Lemma patient_table_patient_id b target tps temps hrs sys dia sats hours abg :
  get_column (patient_table b target tps temps hrs sys dia sats
                (np_arange hours 4) abg) "patient_id"
  = Ok (repeat (CStr (patient_id b)) (List.length tps)).
Proof.
  unfold patient_table, patient_table_n, get_column.
  cbn [dict_get String.eqb Ascii.eqb Bool.eqb].
  rewrite join_idx_left.
  rewrite <- (repeat_length (CStr (patient_id b)) (List.length tps)) at 2.
  rewrite take_seq. reflexivity.
Qed.

Lemma for_each_cons_returns {R : RandomSource} {A B} (body : A -> M B)
    x rest w b w1 bs w2 :
  body x w = Ok (b, w1) -> for_each body rest w1 = Ok (bs, w2) ->
  for_each body (x :: rest) w = Ok (b :: bs, w2).
Proof.
  intros Hb Hbs. cbn [for_each].
  rewrite (bind_returns _ _ _ _ _ Hb), (bind_returns _ _ _ _ _ Hbs).
  reflexivity.
Qed.

Lemma rows_of_concat3 n (A B C : column) :
  List.length A = n -> List.length B = n -> List.length C = n ->
  List.length (A ++ B ++ C ++ []) = (3 * n)%nat.
Proof. intros. rewrite !length_app. cbn. lia. Qed.

Lemma rows_of_get (n : nat) (df : DataFrame) name c :
  rows_of n df -> get_column df name = Ok c -> List.length c = n.
Proof.
  unfold rows_of, get_column. induction df as [| [k v] df IH]; intros Hr Hg;
    [discriminate |].
  cbn [dict_get] in Hg.
  pose proof (Forall_inv Hr) as Hv. pose proof (Forall_inv_tail Hr) as Hrest.
  cbn [snd] in Hv.
  destruct (String.eqb k name); [injection Hg as <-; exact Hv | auto].
Qed.

Lemma get_column_in (df : DataFrame) (name : string) :
  In name (columns df) -> exists c, get_column df name = Ok c.
Proof.
  unfold get_column, columns. induction df as [| [k v] df IH]; cbn [map dict_get fst];
    intros Hin; [contradiction |].
  destruct (String.eqb_spec k name) as [E | E]; [eexists; reflexivity |].
  destruct Hin as [Hk | Hin]; [contradiction | exact (IH Hin)].
Qed.

(** The column [name] of [pd.concat([df1, df2, df3])]. *)
Definition stacked (dfs : list DataFrame) (name : string) : column :=
  flat_map (fun df => match get_column df name with
                      | Ok c => c
                      | Raise _ => repeat CNaN (nrows df)
                      end) dfs.

Lemma stacked_length n df1 df2 df3 name :
  rows_of n df1 -> rows_of n df2 -> rows_of n df3 ->
  In name (columns df1) -> In name (columns df2) -> In name (columns df3) ->
  List.length (stacked [df1; df2; df3] name) = (3 * n)%nat.
Proof.
  intros R1 R2 R3 I1 I2 I3. unfold stacked. cbn [flat_map].
  destruct (get_column_in _ _ I1) as (c1 & E1).
  destruct (get_column_in _ _ I2) as (c2 & E2).
  destruct (get_column_in _ _ I3) as (c3 & E3).
  rewrite E1, E2, E3.
  apply rows_of_concat3;
    [exact (rows_of_get _ _ _ _ R1 E1) | exact (rows_of_get _ _ _ _ R2 E2)
     | exact (rows_of_get _ _ _ _ R3 E3)].
Qed.

Lemma union_names_three :
  union_names [] (dataset_columns ++ dataset_columns ++ dataset_columns ++ [])
  = dataset_columns.
Proof. vm_compute. reflexivity. Qed.

Lemma pd_concat_three df1 df2 df3 :
  columns df1 = dataset_columns -> columns df2 = dataset_columns ->
  columns df3 = dataset_columns ->
  pd_concat [df1; df2; df3]
  = Ok (map (fun n => (n, stacked [df1; df2; df3] n)) dataset_columns).
Proof.
  intros C1 C2 C3. unfold pd_concat. cbn [flat_map].
  rewrite C1, C2, C3, union_names_three. reflexivity.
Qed.

Section EndToEnd.
Context {R : RandomSource} {N : Numerics}.

Lemma patient_dataset_72h pid w :
  exists df w' b target temps hrs sys dia sats abg,
    generate_complete_patient_dataset pid 72 5 w = Ok (df, w') /\
    patient_id b = pid /\
    List.length abg = 18%nat /\
    df = patient_table b target (np_arange (72 * 60) 5) temps hrs sys dia sats
           (np_arange 72 4) abg /\
    nrows df = 864%nat /\ rows_of 864 df.
Proof.
  destruct (patient_dataset_returns pid 72 5 ltac:(discriminate) ltac:(lia)
              eq_refl w) as (df & w' & Hrun).
  destruct (patient_dataset_shape pid 72 5 w df w' Hrun)
    as (b & target & temps & hrs & sys & dia & sats & abg & Hpid & _ & _ & _
        & _ & _ & Habg & _ & ->).
  eexists. exists w', b, target, temps, hrs, sys, dia, sats, abg.
  split; [exact Hrun |]. split; [exact Hpid |]. split; [exact Habg |].
  split; [reflexivity |]. split.
  - rewrite patient_table_nrows. reflexivity.
  - pose proof (patient_table_rows b target (np_arange (72 * 60) 5) temps hrs
                  sys dia sats (np_arange 72 4) abg) as Hrows.
    rewrite join_idx_length in Hrows. exact Hrows.
Qed.

Lemma batch_of_three w :
  exists df w' c,
    generate_batch_dataset 3 72 w = Ok (df, w') /\
    nrows df = 2592%nat /\ rows_of 2592 df /\
    columns df = dataset_columns /\
    get_column df "patient_id" = Ok c /\
    distinct_strings c = ["PATIENT_0001"; "PATIENT_0002"; "PATIENT_0003"]%string.
Proof.
  destruct (patient_dataset_72h (batch_patient_id 0) w)
    as (df1 & w1 & b1 & g1 & t1 & h1 & s1 & d1 & o1 & a1
        & Hrun1 & Hp1 & _ & E1 & _ & Hr1).
  destruct (patient_dataset_72h (batch_patient_id 1) w1)
    as (df2 & w2 & b2 & g2 & t2 & h2 & s2 & d2 & o2 & a2
        & Hrun2 & Hp2 & _ & E2 & _ & Hr2).
  destruct (patient_dataset_72h (batch_patient_id 2) w2)
    as (df3 & w3 & b3 & g3 & t3 & h3 & s3 & d3 & o3 & a3
        & Hrun3 & Hp3 & _ & E3 & _ & Hr3).
  assert (C1 : columns df1 = dataset_columns) by (rewrite E1; reflexivity).
  assert (C2 : columns df2 = dataset_columns) by (rewrite E2; reflexivity).
  assert (C3 : columns df3 = dataset_columns) by (rewrite E3; reflexivity).
  assert (Hall : for_each (fun i => generate_complete_patient_dataset
                                      (batch_patient_id i) 72 5)
                   [0; 1; 2]%nat w
                 = Ok ([df1; df2; df3], w3)).
  { eapply for_each_cons_returns; [exact Hrun1 |].
    eapply for_each_cons_returns; [exact Hrun2 |].
    eapply for_each_cons_returns; [exact Hrun3 | reflexivity]. }
  exists (map (fun n => (n, stacked [df1; df2; df3] n)) dataset_columns), w3,
         (stacked [df1; df2; df3] "patient_id").
  split.
  { unfold generate_batch_dataset.
    change (seq 0 (Z.to_nat 3)) with [0; 1; 2]%nat.
    rewrite (bind_returns _ _ _ _ _ Hall).
    rewrite (pd_concat_three df1 df2 df3 C1 C2 C3). reflexivity. }
  assert (Hlen : forall n, In n dataset_columns ->
                           List.length (stacked [df1; df2; df3] n) = 2592%nat).
  { intros n Hn. apply (stacked_length 864); try assumption; congruence. }
  split; [apply Hlen; left; reflexivity |].
  split.
  { unfold rows_of. apply Forall_map, Forall_forall. intros n Hn. apply Hlen, Hn. }
  split.
  { unfold columns. rewrite map_map. apply map_id. }
  split; [reflexivity |].
  unfold stacked. cbn [flat_map]. rewrite E1, E2, E3.
  rewrite !patient_table_patient_id, Hp1, Hp2, Hp3.
  vm_compute. reflexivity.
Qed.
End EndToEnd.

(** C7: with [duration_hours = 72] and the 5-minute cadence,
    [generate_complete_patient_dataset] returns, for every patient id and
    every state of the random source (hence every severity), a table of
    exactly 864 rows built from exactly 18 blood-gas samples; and
    [generate_batch_dataset] with [num_patients = 3] returns a table of
    exactly 3 * 864 rows whose [patient_id] column holds exactly 3
    distinct identifiers. *)
Theorem end_to_end_row_counts (R : RandomSource) (N : Numerics) (w : world) :
  (forall pid,
      exists df w' b target temps hrs sys dia sats abg,
        generate_complete_patient_dataset pid 72 5 w = Ok (df, w') /\
        patient_id b = pid /\
        List.length abg = 18%nat /\
        df = patient_table b target (np_arange (72 * 60) 5) temps hrs sys dia
               sats (np_arange 72 4) abg /\
        nrows df = 864%nat /\ rows_of 864 df) /\
  (exists df w' c,
      generate_batch_dataset 3 72 w = Ok (df, w') /\
      nrows df = (3 * 864)%nat /\ rows_of (3 * 864) df /\
      get_column df "patient_id" = Ok c /\
      List.length (distinct_strings c) = 3%nat).
Proof.
  split.
  - intros pid. apply patient_dataset_72h.
  - destruct (batch_of_three w) as (df & w' & c & Hrun & Hn & Hr & _ & Hc & Hd).
    exists df, w', c. repeat split; try assumption.
    rewrite Hd. reflexivity.
Qed.

(** C8, on the code: every dataset [generate_complete_patient_dataset]
    returns has the 27 columns of [dataset_columns].  The left join on
    [left_on='time_hours_abg', right_on='time_hours'] finds [time_hours] on
    both sides and suffixes it, so the table has [time_hours_x] and
    [time_hours_y] and no column named [time_hours]. *)
Theorem dataset_columns_carry_merge_suffixes
    (R : RandomSource) (N : Numerics) (pid : string) (hours step : Z)
    (w : world) :
  match value_of (generate_complete_patient_dataset pid hours step w) with
  | Some df =>
      columns df = dataset_columns /\
      has_column df "time_hours" = false /\
      has_column df "time_hours_x" = true /\
      has_column df "time_hours_y" = true
  | None => True
  end /\
  exists df,
    value_of (generate_complete_patient_dataset pid 72 5 w) = Some df /\
    has_column df "time_hours" = false.
Proof.
  split.
  - destruct (generate_complete_patient_dataset pid hours step w)
      as [[df w'] | e] eqn:Hrun; [| exact I].
    cbn [value_of].
    destruct (patient_dataset_shape pid hours step w df w' Hrun)
      as (b & target & temps & hrs & sys & dia & sats & abg & _ & _ & _ & _
          & _ & _ & _ & _ & ->).
    repeat split.
  - destruct (patient_dataset_72h pid w)
      as (df & w' & b & g & t & h & s & d & o & a & Hrun & _ & _ & -> & _).
    eexists. split; [rewrite Hrun; reflexivity | reflexivity].
Qed.

(* ------------------------------------------------------------------ *)
(** ** Desaturation dips and the cooling line *)

Lemma spo2_dip_sample_default (i : nat) :
  spo2_dip_sample 5 i = (i mod 240 <? 120)%nat.
Proof.
  unfold spo2_dip_sample, py_fmod.
  assert (Hy : 20 * 60 / inject_Z 5 == 240) by reflexivity.
  assert (Hh : 10 * 60 / inject_Z 5 == 120) by reflexivity.
  assert (Hfl : Qfloor (Qnat i / (20 * 60 / inject_Z 5)) = (Z.of_nat i / 240)%Z).
  { assert (Hq : Qnat i / (20 * 60 / inject_Z 5) == Z.of_nat i # 240).
    { rewrite Hy. unfold Qnat. rewrite (Qmake_Qdiv (Z.of_nat i) 240). reflexivity. }
    rewrite Hq. reflexivity. }
  rewrite Hfl.
  assert (Hm : Qnat i - inject_Z (Z.of_nat i / 240) * (20 * 60 / inject_Z 5)
               == inject_Z (Z.of_nat (i mod 240))).
  { rewrite Hy, Nat2Z.inj_mod. change (Z.of_nat 240) with 240%Z.
    rewrite Z.mod_eq by lia. unfold Qnat.
    unfold Z.sub. rewrite inject_Z_plus, inject_Z_opp, inject_Z_mult.
    change (inject_Z 240) with 240. ring. }
  destruct (Qlt_le_dec _ _) as [Hlt | Hge].
  - rewrite Hm, Hh in Hlt. change 120 with (inject_Z 120) in Hlt.
    rewrite <- Zlt_Qlt in Hlt. symmetry. apply Nat.ltb_lt. lia.
  - rewrite Hm, Hh in Hge. change 120 with (inject_Z 120) in Hge.
    rewrite <- Zle_Qle in Hge. symmetry. apply Nat.ltb_ge. lia.
Qed.

Lemma spo2_sample_dip {R : RandomSource} {N : Numerics}
    (b : Q) (distress : bool) (i : nat) (w : world) :
  exists dip v w',
    spo2_sample b 5 distress i w = Ok ((dip, v), w') /\
    if distress && (i mod 240 <? 120)%nat
    then exists d, dip = Some d /\ 2 <= d /\ d <= 5
    else dip = None.
Proof.
  unfold spo2_sample. rewrite spo2_dip_sample_default.
  destruct distress; cbn [andb]; [destruct (i mod 240 <? 120)%nat |].
  - rewrite (bind_returns _ _ _ _ _
               (bind_returns _ _ _ _ _ (draw_returns _ _))).
    cbn [ret]. rewrite (bind_returns _ _ _ _ _ (draw_returns _ _)).
    eexists _, _, _. split; [reflexivity |].
    eexists. split; [reflexivity |].
    apply uniform_range. lra.
  - rewrite (bind_returns _ _ w _ w eq_refl).
    rewrite (bind_returns _ _ _ _ _ (draw_returns _ _)).
    eexists _, _, _. split; reflexivity.
  - rewrite (bind_returns _ _ w _ w eq_refl).
    rewrite (bind_returns _ _ _ _ _ (draw_returns _ _)).
    eexists _, _, _. split; reflexivity.
Qed.

(** Whether minute [t] lies in the first half of a 20-minute cycle. *)
Definition first_half_of_20_minutes (t : Z) : bool := (t mod 20 <? 10)%Z.

(** C6, on the code: with the 5-minute time step a sample subtracts a dip
    (of 2 to 5 percent) exactly when the distress flag is set and its
    index [i] satisfies [i mod 240 < 120], that is in the first 10 hours
    of each 20-hour cycle; no dip is drawn when the flag is false.  The
    sample at minute 10 (index 2) has a dip although it is in the second
    half of its 20-minute cycle, and the sample at minute 600 (index 120)
    has none although it opens a 20-minute cycle. *)
Theorem spo2_dips_on_a_twenty_hour_cycle :
  (forall (R : RandomSource) (N : Numerics) (b : Q) (distress : bool)
          (i : nat) (w : world),
      exists dip v w',
        spo2_sample b 5 distress i w = Ok ((dip, v), w') /\
        if distress && (i mod 240 <? 120)%nat
        then exists d, dip = Some d /\ 2 <= d /\ d <= 5
        else dip = None) /\
  (spo2_dip_sample 5 2 = true /\ first_half_of_20_minutes (2 * 5) = false /\
   spo2_dip_sample 5 120 = false /\ first_half_of_20_minutes (120 * 5) = true).
Proof.
  split.
  - intros R N b distress i w. apply spo2_sample_dip.
  - rewrite !spo2_dip_sample_default. repeat split.
Qed.

(** The protocol the pipeline derives for a patient. *)
Definition patient_protocol {R : RandomSource} (pid : string) : M CoolingProtocol :=
  bind (generate_baseline_parameters pid)
       (fun b => generate_cooling_protocol (hie_severity b) (baseline_rectal_temp b)).

(** The noise-free cooling line of the claim: the protocol's rate in
    degrees per hour, over 60, times the elapsed minutes. *)
Definition claimed_cooling (p : CoolingProtocol) (m : Z) : Q :=
  protocol_baseline_temp p - cooling_rate p / 60 * inject_Z m.

(** The same line with the rate divided by 60 once more. *)
Definition coded_cooling (p : CoolingProtocol) (m : Z) : Q :=
  protocol_baseline_temp p - cooling_rate p / 60 / 60 * inject_Z m.

(** What the 72-hour run shows about the cooling line, as one boolean. *)
Definition cooling_check
    (prot : option CoolingProtocol) (out : option DataFrame) : bool :=
  match prot, out with
  | Some p, Some df =>
      Qeq_bool (protocol_baseline_temp p) 36.8 &&
      Qeq_bool (target_temp p) 32.5 &&
      Qeq_bool (cooling_rate p) 0.1 &&
      cell_eqb (cell_at df "time_minutes" 12) (CInt 60) &&
      cell_eqb (cell_at df "rectal_temperature_c" 12) (CNum (coded_cooling p 60)) &&
      negb (cell_eqb (cell_at df "rectal_temperature_c" 12)
                     (CNum (claimed_cooling p 60))) &&
      Qeq_bool (claimed_cooling p 2580) (target_temp p) &&
      cell_eqb (cell_at df "time_minutes" 600) (CInt 3000) &&
      cell_eqb (cell_at df "rectal_temperature_c" 600) (CNum (coded_cooling p 3000)) &&
      negb (cell_eqb (cell_at df "rectal_temperature_c" 600)
                     (CNum (target_temp p)))
  | _, _ => false
  end.

(** C5, on the code: for the patient of the quiet oracle world (baseline
    36.8, target 32.5, protocol rate 0.1 degrees per hour, no noise) the
    sample at minute 60 is [baseline - rate / 60 / 60 * 60], not the
    claimed [baseline - rate / 60 * 60]; and at minute 3000, past the
    2580 minutes after which the claimed line reaches the target, the
    sample is still on the line of the code and not at the target. *)
Theorem cooling_rate_converted_twice :
  cooling_check
    (value_of (patient_protocol (R := Oracle.source) "PATIENT_0001" quiet_world))
    (value_of (generate_complete_patient_dataset (R := Oracle.source)
                 (N := Oracle.numerics) "PATIENT_0001" 72 5 quiet_world))
  = true.
Proof. vm_compute. reflexivity. Qed.

(* ------------------------------------------------------------------ *)
(** ** Missing features at the risk-engine boundary *)

Lemma first_missing_split (df : DataFrame) (cols : list string) (c : string) :
  In c cols -> has_column df c = false ->
  exists col before after,
    cols = before ++ col :: after /\
    (forall x, In x before -> has_column df x = true) /\
    has_column df col = false /\
    first_missing df cols = Some col.
Proof.
  induction cols as [| x cols IH]; intros Hin Hc; [contradiction |].
  cbn [first_missing]. destruct (has_column df x) eqn:Hx.
  - destruct Hin as [-> | Hin]; [congruence |].
    destruct (IH Hin Hc) as (col & before & after & -> & Hb & Hcol & Hf).
    exists col, (x :: before), after. repeat split; try assumption.
    intros y [<- | Hy]; [exact Hx | apply Hb, Hy].
  - exists x, [], cols. repeat split; try assumption. intros y [].
Qed.

Lemma series_select_missing (row : Series) (cols : list string) (c : string) :
  In c cols -> (forall v, dict_get row c <> Ok v) ->
  exists e, series_select row cols = Raise e.
Proof.
  unfold series_select.
  induction cols as [| x cols IH]; intros Hin Hc; [contradiction |].
  cbn [result_map]. destruct (dict_get row x) as [v | e] eqn:Hx;
    [| exists e; reflexivity].
  destruct Hin as [-> | Hin]; [exfalso; exact (Hc v Hx) |].
  destruct (IH Hin Hc) as (e & ->). exists e. reflexivity.
Qed.

(** C9, as amended: when a required feature column is absent,
    [build_feature_matrix] raises a [KeyError] that names the first absent
    column in feature order; and when the row lacks a prognosis feature,
    [build_scorecard] raises nothing: every event probability is [None]
    and every risk level is LOW, as for a probability of 0.0. *)
Theorem missing_feature_first_named_then_defaulted
    (float_of_string : string -> option Q)
    (df : DataFrame) (feature_cols : list string) (c : string)
    (temp_model : predictor) (temp_features : list string)
    (seizure_model sepsis_model cardiac_model renal_model : option predictor)
    (prognosis_model : predictor) (prognosis_features : list string)
    (utcnow_isoformat pid : string) (row : Series) (c' : string) :
  In c feature_cols -> has_column df c = false ->
  In c' prognosis_features -> (forall v, dict_get row c' <> Ok v) ->
  (exists col before after,
      feature_cols = before ++ col :: after /\
      (forall x, In x before -> has_column df x = true) /\
      has_column df col = false /\
      build_feature_matrix float_of_string df feature_cols
        = Raise (KeyError (missing_feature_message col))) /\
  (let sc := build_scorecard temp_model temp_features seizure_model
               sepsis_model cardiac_model renal_model prognosis_model
               prognosis_features utcnow_isoformat pid row in
   prob_seizure sc = None /\ prob_sepsis sc = None /\
   prob_cardiac sc = None /\ prob_renal sc = None /\
   prob_prognosis_poor_outcome sc = None /\
   risk_seizure sc = RISK_LOW /\ risk_sepsis sc = RISK_LOW /\
   risk_cardiac sc = RISK_LOW /\ risk_renal sc = RISK_LOW /\
   risk_prognosis sc = RISK_LOW).
Proof.
  intros Hin Hc Hin' Hc'. split.
  - destruct (first_missing_split df feature_cols c Hin Hc)
      as (col & before & after & Hsplit & Hb & Hcol & Hf).
    exists col, before, after. repeat split; try assumption.
    unfold build_feature_matrix. rewrite Hf. reflexivity.
  - destruct (series_select_missing row prognosis_features c' Hin' Hc')
      as (e & Hsel).
    assert (Hnone : forall m, compute_event_probability m row prognosis_features = None).
    { intros [m |]; unfold compute_event_probability; [| reflexivity].
      rewrite Hsel. reflexivity. }
    cbv zeta. unfold build_scorecard. cbn [prob_seizure prob_sepsis prob_cardiac
      prob_renal prob_prognosis_poor_outcome risk_seizure risk_sepsis
      risk_cardiac risk_renal risk_prognosis].
    rewrite !Hnone. repeat split.
Qed.

(** A frame with [lactate] but neither [heart_rate] nor [spo2]. *)
Lemma missing_feature_first_named_then_defaulted_witness :
  exists col,
    has_column
      [("patient_id"%string, [CStr "LIVE-001"]); ("lactate"%string, [CNum 2.5])]
      col = false /\
    build_feature_matrix (fun _ => None)
      [("patient_id"%string, [CStr "LIVE-001"]); ("lactate"%string, [CNum 2.5])]
      ["lactate"; "heart_rate"; "spo2"]%string
    = Raise (KeyError (missing_feature_message col)).
Proof.
  destruct (missing_feature_first_named_then_defaulted
              (fun _ => None)
              [("patient_id"%string, [CStr "LIVE-001"]);
               ("lactate"%string, [CNum 2.5])]
              ["lactate"; "heart_rate"; "spo2"]%string "spo2"%string
              (fun _ => Ok 0.2) ["lactate"]%string
              (Some (fun _ => Ok 0.9)) None None None (fun _ => Ok 0.9)
              ["lactate"; "heart_rate"]%string "2026-01-01T00:00:00"%string
              "LIVE-001"%string
              [("patient_id"%string, CStr "LIVE-001");
               ("lactate"%string, CNum 2.5)]
              "heart_rate"%string
              ltac:(cbn; auto) eq_refl ltac:(cbn; auto)
              ltac:(intros v; discriminate))
    as [(col & before & after & Hsplit & Hb & Hcol & Hraise) _].
  exists col. split; assumption.
Defined.

(** C9 as stated fails twice.  With two columns missing, the error of
    [build_feature_matrix] names the first only; and a row that lacks the
    features is scored all the same: the models that would say 0.9 are
    never asked, the probabilities are [None] and every risk level is
    LOW. *)
Lemma missing_feature_neither_all_named_nor_propagated :
  build_feature_matrix (fun _ => None)
    [("patient_id"%string, [CStr "LIVE-001"])] ["heart_rate"; "spo2"]%string
  = Raise (KeyError "Required feature 'heart_rate' not found in DataFrame") /\
  String.index 0 "spo2" "Required feature 'heart_rate' not found in DataFrame"
  = None /\
  (let sc := build_scorecard (fun _ => Ok 0.2) ["lactate"]%string
               (Some (fun _ => Ok 0.9)) (Some (fun _ => Ok 0.9))
               (Some (fun _ => Ok 0.9)) (Some (fun _ => Ok 0.9))
               (fun _ => Ok 0.9) ["lactate"; "heart_rate"]%string
               "2026-01-01T00:00:00" "LIVE-001"
               [("patient_id"%string, CStr "LIVE-001")] in
   prob_seizure sc = None /\ risk_seizure sc = "LOW"%string /\
   prob_prognosis_poor_outcome sc = None /\ risk_prognosis sc = "LOW"%string /\
   recommendations sc
   = ["Maintain current temperature; continue monitoring."%string]).
Proof. vm_compute. repeat split. Qed.

(* ------------------------------------------------------------------ *)
(** ** Determinism under a fixed seed *)

(** What a run returned or raised, without the world it left. *)
Definition outcome {R : RandomSource} {A} (r : result (A * world)) : result A :=
  match r with
  | Ok (a, _) => Ok a
  | Raise e => Raise e
  end.

(** Two worlds whose generators are in the same state; their clocks may
    differ. *)
Definition same_stream {R : RandomSource} (w1 w2 : world) : Prop :=
  np_random w1 = np_random w2.

(** Run from worlds with the same generator state, [c1] and [c2] raise
    the same exception or return related values and leave the generators
    in the same state. *)
Definition sim {R : RandomSource} {A} (Rel : A -> A -> Prop) (c1 c2 : M A) : Prop :=
  forall w1 w2, same_stream w1 w2 ->
    match c1 w1, c2 w2 with
    | Ok (a1, v1), Ok (a2, v2) => Rel a1 a2 /\ same_stream v1 v2
    | Raise e1, Raise e2 => e1 = e2
    | _, _ => False
    end.

(** Two protocols that differ at most in their start time. *)
Definition same_protocol (p1 p2 : CoolingProtocol) : Prop :=
  target_temp p1 = target_temp p2 /\
  duration_hours p1 = duration_hours p2 /\
  cooling_rate p1 = cooling_rate p2 /\
  rewarming_rate p1 = rewarming_rate p2 /\
  protocol_baseline_temp p1 = protocol_baseline_temp p2.

Section Determinism.
Context {R : RandomSource}.

Lemma sim_ret {A} (Rel : A -> A -> Prop) (a1 a2 : A) :
  Rel a1 a2 -> sim Rel (ret a1) (ret a2).
Proof. intros Ha w1 w2 Hw. cbn. split; assumption. Qed.

Lemma sim_raise {A} (Rel : A -> A -> Prop) (e : exn) :
  sim Rel (raise e) (raise e).
Proof. intros w1 w2 Hw. reflexivity. Qed.

Lemma sim_lift {A} (r : result A) : sim eq (lift_result r) (lift_result r).
Proof.
  intros w1 w2 Hw. unfold lift_result. destruct r; [split |]; auto.
Qed.

Lemma sim_draw {A} (d : rng -> A * rng) : sim eq (draw d) (draw d).
Proof.
  intros w1 w2 Hw. unfold draw, same_stream in *. rewrite Hw.
  destruct (d (np_random w2)) as [a s]. split; reflexivity.
Qed.

Lemma sim_now : sim (fun _ _ => True) datetime_now datetime_now.
Proof. intros w1 w2 Hw. cbn. split; [exact I | exact Hw]. Qed.

Lemma sim_bind {A B} (RA : A -> A -> Prop) (RB : B -> B -> Prop)
    (c1 c2 : M A) (k1 k2 : A -> M B) :
  sim RA c1 c2 ->
  (forall a1 a2, RA a1 a2 -> sim RB (k1 a1) (k2 a2)) ->
  sim RB (bind c1 k1) (bind c2 k2).
Proof.
  intros Hc Hk w1 w2 Hw. unfold bind. specialize (Hc w1 w2 Hw).
  destruct (c1 w1) as [[a1 v1] | e1], (c2 w2) as [[a2 v2] | e2];
    try contradiction.
  - destruct Hc as [Ha Hv]. exact (Hk a1 a2 Ha v1 v2 Hv).
  - exact Hc.
Qed.

Lemma sim_for_each {A B} (body : A -> M B) (l : list A) :
  (forall x, sim eq (body x) (body x)) ->
  sim eq (for_each body l) (for_each body l).
Proof.
  intros Hbody. induction l as [| x l IH]; cbn [for_each].
  - apply sim_ret. reflexivity.
  - eapply sim_bind; [apply Hbody |]. intros b ? <-.
    eapply sim_bind; [apply IH |]. intros bs ? <-.
    apply sim_ret. reflexivity.
Qed.

Lemma sim_outcome {A} (c : M A) w1 w2 :
  sim eq c c -> same_stream w1 w2 -> outcome (c w1) = outcome (c w2).
Proof.
  intros Hc Hw. specialize (Hc w1 w2 Hw). unfold outcome.
  destruct (c w1) as [[a1 v1] | e1], (c w2) as [[a2 v2] | e2];
    try contradiction.
  - destruct Hc as [-> _]. reflexivity.
  - rewrite Hc. reflexivity.
Qed.

End Determinism.

(** Steps through a computation that does not read the clock. *)
Ltac sim_steps :=
  first
    [ apply sim_ret; reflexivity
    | apply sim_raise
    | apply sim_draw
    | apply sim_lift
    | apply sim_for_each; intros ?; sim_steps
    | eapply (sim_bind eq); [sim_steps | intros ? ? <-; sim_steps]
    | match goal with
      | |- sim _ (if ?b then _ else _) _ => destruct b; sim_steps
      | |- sim _ (let (_, _) := ?p in _) _ => destruct p; sim_steps
      | |- sim _ (match ?o with Some _ => _ | None => _ end) _ =>
          destruct o; sim_steps
      end
    | idtac ].

Section DeterministicPipeline.
Context {R : RandomSource} {N : Numerics}.

Lemma sim_choice {A} (l : list A) : sim eq (np_random_choice l) (np_random_choice l).
Proof. unfold np_random_choice. destruct l; sim_steps. Qed.

Lemma sim_temperature baseline target rate rewarm dur step :
  sim eq (simulate_rectal_temperature baseline target rate rewarm dur step)
         (simulate_rectal_temperature baseline target rate rewarm dur step).
Proof. unfold simulate_rectal_temperature. sim_steps. Qed.

Lemma sim_heart_rate baseline_hr dur step stress :
  sim eq (generate_heart_rate_data baseline_hr dur step stress)
         (generate_heart_rate_data baseline_hr dur step stress).
Proof. unfold generate_heart_rate_data. sim_steps. Qed.

Lemma sim_blood_pressure b_sys b_dia dur step :
  sim eq (generate_blood_pressure_data b_sys b_dia dur step)
         (generate_blood_pressure_data b_sys b_dia dur step).
Proof. unfold generate_blood_pressure_data. sim_steps. Qed.

Lemma sim_spo2 baseline_spo2 dur step distress :
  sim eq (generate_oxygen_saturation_data baseline_spo2 dur step distress)
         (generate_oxygen_saturation_data baseline_spo2 dur step distress).
Proof.
  unfold generate_oxygen_saturation_data, spo2_sample. sim_steps.
Qed.

Lemma sim_blood_gas hours ts sev :
  sim eq (generate_blood_gas_data hours ts sev)
         (generate_blood_gas_data hours ts sev).
Proof.
  unfold generate_blood_gas_data. sim_steps.
Qed.

Lemma sim_baseline pid :
  sim eq (generate_baseline_parameters pid) (generate_baseline_parameters pid).
Proof.
  unfold generate_baseline_parameters.
  repeat (eapply sim_bind;
          [first [apply sim_draw | apply sim_choice | apply sim_lift]
          | intros ? ? <-]).
  apply sim_ret. reflexivity.
Qed.

Lemma sim_protocol sev baseline_temp :
  sim same_protocol (generate_cooling_protocol sev baseline_temp)
                    (generate_cooling_protocol sev baseline_temp).
Proof.
  unfold generate_cooling_protocol.
  do 9 (eapply sim_bind; [apply sim_draw | intros ? ? <-]).
  eapply sim_bind; [apply sim_lift | intros [[[tg hs] cl] rw] ? <-].
  eapply sim_bind; [apply sim_now | intros now1 now2 _].
  apply sim_ret. repeat split.
Qed.

Lemma sim_patient_dataset pid hours step :
  sim eq (generate_complete_patient_dataset pid hours step)
         (generate_complete_patient_dataset pid hours step).
Proof.
  unfold generate_complete_patient_dataset.
  eapply sim_bind; [apply sim_baseline | intros b ? <-].
  eapply sim_bind; [apply sim_protocol |].
  intros p1 p2 (Ht & _ & Hc & Hr & Hb). rewrite Ht, Hc, Hr, Hb.
  eapply sim_bind; [apply sim_temperature | intros [tps temps] ? <-].
  eapply sim_bind; [apply sim_heart_rate | intros hr ? <-].
  eapply sim_bind; [apply sim_blood_pressure | intros bp ? <-].
  eapply sim_bind; [apply sim_spo2 | intros sat ? <-].
  eapply sim_bind; [apply sim_lift | intros df ? <-].
  eapply sim_bind; [apply sim_blood_gas | intros abg ? <-].
  eapply sim_bind; [apply sim_lift | intros abg_df ? <-].
  apply sim_lift.
Qed.

Lemma sim_batch num_patients hours :
  sim eq (generate_batch_dataset num_patients hours)
         (generate_batch_dataset num_patients hours).
Proof.
  unfold generate_batch_dataset.
  eapply (sim_bind eq); [| intros dfs ? <-; apply sim_lift].
  apply sim_for_each. intros i. apply sim_patient_dataset.
Qed.

End DeterministicPipeline.

(** C2: two runs of [generate_batch_dataset] on generators freshly
    constructed with the same seed, with the same [num_patients] and
    [duration_hours], end alike whatever the generator state and the clock
    were before: both raise the same exception or both return the same
    dataset, with equal row counts, equal columns and equal values in
    every cell. *)
Theorem seeded_batch_runs_agree
    (R : RandomSource) (N : Numerics) (seed num_patients hours : Z)
    (w1 w2 : world) :
  outcome (seeded_batch_run seed num_patients hours w1)
  = outcome (seeded_batch_run seed num_patients hours w2) /\
  (forall df1 df2,
      outcome (seeded_batch_run seed num_patients hours w1) = Ok df1 ->
      outcome (seeded_batch_run seed num_patients hours w2) = Ok df2 ->
      nrows df1 = nrows df2 /\ columns df1 = columns df2 /\
      forall name r, cell_at df1 name r = cell_at df2 name r).
Proof.
  assert (Heq : outcome (seeded_batch_run seed num_patients hours w1)
                = outcome (seeded_batch_run seed num_patients hours w2)).
  { unfold seeded_batch_run, bind, np_random_seed.
    apply sim_outcome; [apply sim_batch | reflexivity]. }
  split; [exact Heq |].
  intros df1 df2 H1 H2. rewrite Heq, H2 in H1. injection H1 as ->.
  repeat split.
Qed.

(* ------------------------------------------------------------------ *)
(** ** The seizure window in binary64 *)

(** [current_minute_of] on a machine integer. *)
Definition minute63 (i : int) : float :=
  (PrimFloat.of_uint63 i / 60)%float.

(** The window test holds at [n] consecutive seconds from [i] on. *)
Fixpoint window_holds (n : nat) (i : int) (start : float) : bool :=
  match n with
  | O => true
  | S n' =>
      if in_seizure_window (minute63 i) start
      then window_holds n' (i + 1)%uint63 start
      else false
  end.

(** For an onset at second [t]: the window test holds at the seconds
    [t .. t + 119] and fails at second [t + 121]. *)
Definition window_ok (t : int) : bool :=
  let start := minute63 t in
  if window_holds 120 t start
  then negb (in_seizure_window (minute63 (t + 121)%uint63) start)
  else false.

Fixpoint windows_ok (n : nat) (t : int) : bool :=
  match n with
  | O => true
  | S n' => if window_ok t then windows_ok n' (t + 1)%uint63 else false
  end.

(** The onsets covered by the check below: [2 ^ 18] seconds, a little
    over the 72 hours of the longest protocol. *)
Definition checked_seconds : nat := Nat.pow 2 18.

Lemma windows_ok_checked : windows_ok checked_seconds 0%uint63 = true.
Proof. vm_compute. reflexivity. Qed.

Lemma of_Z_succ (z : Z) : (of_Z z + 1)%uint63 = of_Z (z + 1).
Proof.
  apply to_Z_inj. rewrite Uint63Axioms.add_spec, !of_Z_spec, to_Z_1.
  rewrite Z.add_mod_idemp_l by (unfold wB; cbn; lia). reflexivity.
Qed.

Lemma of_Z_plus (z k : Z) : (of_Z z + of_Z k)%uint63 = of_Z (z + k).
Proof.
  apply to_Z_inj. rewrite Uint63Axioms.add_spec, !of_Z_spec.
  rewrite <- Z.add_mod by (unfold wB; cbn; lia). reflexivity.
Qed.

Lemma current_minute_of_63 (z : Z) :
  (0 <= z)%Z -> current_minute_of z = minute63 (of_Z z).
Proof.
  intros Hz. unfold current_minute_of, minute63, float_of_Z.
  destruct z as [| p | p]; [reflexivity | reflexivity | lia].
Qed.

Lemma window_holds_spec (n : nat) (i0 : Z) (start : float) :
  window_holds n (of_Z i0) start = true ->
  forall i, (i0 <= i < i0 + Z.of_nat n)%Z ->
            in_seizure_window (minute63 (of_Z i)) start = true.
Proof.
  revert i0. induction n as [| n IH]; intros i0 H i Hi; [lia |].
  cbn [window_holds] in H.
  destruct (in_seizure_window (minute63 (of_Z i0)) start) eqn:E; [| discriminate].
  destruct (Z.eq_dec i i0) as [-> | Hne]; [exact E |].
  rewrite of_Z_succ in H. apply (IH (i0 + 1)%Z H). lia.
Qed.

Lemma windows_ok_spec (n : nat) (t0 : Z) :
  windows_ok n (of_Z t0) = true ->
  forall t, (t0 <= t < t0 + Z.of_nat n)%Z -> window_ok (of_Z t) = true.
Proof.
  revert t0. induction n as [| n IH]; intros t0 H t Ht; [lia |].
  cbn [windows_ok] in H.
  destruct (window_ok (of_Z t0)) eqn:E; [| discriminate].
  destruct (Z.eq_dec t t0) as [-> | Hne]; [exact E |].
  rewrite of_Z_succ in H. apply (IH (t0 + 1)%Z H). lia.
Qed.

(** An onset at second [t] keeps the window test true through second
    [t + 119] and false at second [t + 121]. *)
Lemma seizure_window_bounds (t : Z) :
  (0 <= t < Z.of_nat checked_seconds)%Z ->
  (forall k, (0 <= k <= 119)%Z ->
     in_seizure_window (current_minute_of (t + k)) (current_minute_of t) = true) /\
  in_seizure_window (current_minute_of (t + 121)) (current_minute_of t) = false.
Proof.
  intros Ht.
  pose proof (windows_ok_spec checked_seconds 0 windows_ok_checked t
                ltac:(lia)) as Hok.
  unfold window_ok in Hok. cbv zeta in Hok.
  destruct (window_holds 120 (of_Z t) (minute63 (of_Z t))) eqn:Hall;
    [| discriminate].
  split.
  - intros k Hk. rewrite !current_minute_of_63 by lia.
    apply (window_holds_spec 120 t _ Hall). lia.
  - rewrite !current_minute_of_63 by lia.
    change 121%uint63 with (of_Z 121) in Hok. rewrite of_Z_plus in Hok.
    apply negb_true_iff in Hok. exact Hok.
Qed.

(* ------------------------------------------------------------------ *)
(** ** The seizure state machine *)


(** Band powers drawn from the ictal, respectively the normal, ranges. *)
Definition ictal_bands (row : eeg_row) : Prop :=
  within 50 150 (delta_power row) /\ within 100 250 (theta_power row) /\
  within 200 400 (alpha_power row).

Definition normal_bands (row : eeg_row) : Prop :=
  within 10 40 (delta_power row) /\ within 5 20 (theta_power row) /\
  within 2 10 (alpha_power row).

(** The loop variables with which an iteration starts: the initial ones,
    then those the previous iteration left. *)
Definition eeg_before (init : eeg_state) (rows : list eeg_row) (d : eeg_row)
    (i : nat) : eeg_state :=
  match i with
  | O => init
  | S j => eeg_after (nth j rows d)
  end.

(** What an iteration that starts from [st] at time point [tp] leaves. *)
Definition eeg_next (st : eeg_state) (tp : Z) (onset : bool) : eeg_state :=
  let current_minute := current_minute_of tp in
  match (if onset then Some current_minute else seizure_start_minute st) with
  | Some m =>
      if in_seizure_window current_minute m
      then mkEeg (Some m) true
      else mkEeg None false
  | None => mkEeg None (seizure_active st)
  end.

Section EegTrace.
Context {R : RandomSource}.

Lemma uniform_within lo hi w v w' :
  lo <= hi -> draw (uniform lo hi) w = Ok (v, w') -> within lo hi v.
Proof.
  intros Hle H. apply draw_ok in H. subst v. apply uniform_range, Hle.
Qed.

Lemma eeg_iteration_spec dur p tp st w row st' w' :
  eeg_iteration dur p tp st w = Ok ((row, st'), w') ->
  st' = eeg_after row /\
  (seizure_start_minute st <> None -> onset_triggered row = false) /\
  eeg_after row = eeg_next st tp (onset_triggered row) /\
  (if seizure_active (eeg_after row) then ictal_bands row else normal_bands row).
Proof.
  intros H. unfold eeg_iteration in H.
  apply bind_ok in H as (onset & w1 & Honset & H).
  apply bind_ok in H as ([[d t] a] & w2 & Hbands & H).
  cbn beta iota zeta in H.
  apply ret_ok in H as [H _]. injection H as -> ->.
  cbn [eeg_after onset_triggered delta_power theta_power alpha_power].
  split; [reflexivity |]. split.
  { intros Hst. destruct (seizure_start_minute st); [| contradiction].
    apply ret_ok in Honset as [-> _]. reflexivity. }
  split; [reflexivity |].
  fold (eeg_next st tp onset) in Hbands |- *.
  destruct (seizure_active (eeg_next st tp onset)).
  - apply bind_ok in Hbands as (d' & wa & Hd & Hbands).
    apply bind_ok in Hbands as (t' & wb & Ht & Hbands).
    apply bind_ok in Hbands as (a' & wc & Ha & Hbands).
    apply ret_ok in Hbands as [Hbands _]. injection Hbands as -> -> ->.
    unfold ictal_bands, normal_bands.
    cbn [delta_power theta_power alpha_power].
    split; [| split]; (eapply uniform_within; [| eassumption]; lra).
  - apply bind_ok in Hbands as (d' & wa & Hd & Hbands).
    apply bind_ok in Hbands as (t' & wb & Ht & Hbands).
    apply bind_ok in Hbands as (a' & wc & Ha & Hbands).
    apply ret_ok in Hbands as [Hbands _]. injection Hbands as -> -> ->.
    unfold ictal_bands, normal_bands.
    cbn [delta_power theta_power alpha_power].
    split; [| split]; (eapply uniform_within; [| eassumption]; lra).
Qed.

Lemma eeg_iteration_total dur p tp st : total (eeg_iteration dur p tp st).
Proof.
  unfold eeg_iteration. cbv zeta.
  apply total_bind; [destruct (seizure_start_minute st); total_steps |].
  intros onset. apply total_bind; [total_steps |].
  intros [[d t] a]. apply total_ret.
Qed.

Lemma for_state_total {A B S} (body : A -> S -> M (B * S)) (l : list A) :
  (forall x st, total (body x st)) -> forall st, total (for_state body l st).
Proof.
  intros Hbody. induction l as [| x l IH]; intros st; cbn [for_state].
  - apply total_ret.
  - apply total_bind; [apply Hbody |]. intros r.
    apply total_bind; [apply IH |]. intros rs. apply total_ret.
Qed.

(** Every iteration of the loop is an [eeg_iteration] from the variables
    the previous one left. *)
Lemma eeg_loop_rows dur p (tps : list Z) init w rows final w' (d : eeg_row) :
  for_state (eeg_iteration dur p) tps init w = Ok ((rows, final), w') ->
  List.length rows = List.length tps /\
  forall i, (i < List.length tps)%nat ->
    exists wi wi',
      eeg_iteration dur p (nth i tps 0%Z) (eeg_before init rows d i) wi
      = Ok ((nth i rows d, eeg_after (nth i rows d)), wi').
Proof.
  revert init w rows final w'.
  induction tps as [| tp tps IH]; intros init w rows final w' H.
  - apply ret_ok in H as [H _]. injection H as -> ->.
    split; [reflexivity |]. intros i Hi. cbn in Hi. lia.
  - cbn [for_state] in H.
    apply bind_ok in H as ([row st1] & w1 & Hrow & H).
    apply bind_ok in H as ([rows' final'] & w2 & Hrest & H).
    apply ret_ok in H as [H _]. cbn [fst snd] in H, Hrest.
    injection H as -> ->.
    destruct (IH st1 w1 rows' final' w2 Hrest) as [Hlen Hrows].
    pose proof (eeg_iteration_spec _ _ _ _ _ _ _ _ Hrow) as (Hst1 & _).
    split; [cbn; rewrite Hlen; reflexivity |].
    intros [| i] Hi.
    + exists w, w1. cbn [nth eeg_before]. rewrite <- Hst1. exact Hrow.
    + cbn [List.length] in Hi.
      destruct (Hrows i ltac:(lia)) as (wi & wi' & Hi').
      exists wi, wi'. cbn [nth].
      replace (eeg_before init (row :: rows') d (S i))
        with (eeg_before st1 rows' d i); [exact Hi' |].
      destruct i as [| j]; cbn [eeg_before nth]; [exact Hst1 | reflexivity].
Qed.

End EegTrace.

Lemma arange_len_unit (n : Z) : (0 <= n)%Z -> arange_len n 1 = Z.to_nat n.
Proof.
  intros Hn. unfold arange_len. rewrite Z.div_1_r, Z.opp_involutive. reflexivity.
Qed.

Section SeizureWindow.
Context {R : RandomSource}.
Variables (dur : Z) (p : Q) (init : eeg_state).
Variables (rows : list eeg_row) (final : eeg_state) (w w' : world) (d : eeg_row).
Hypothesis Hdur : (0 <= dur * 60 <= Z.of_nat checked_seconds)%Z.
Hypothesis Hloop :
  for_state (eeg_iteration dur p) (np_arange (dur * 60) 1) init w
  = Ok ((rows, final), w').

Lemma eeg_rows_length : List.length rows = Z.to_nat (dur * 60).
Proof.
  destruct (eeg_loop_rows _ _ _ _ _ _ _ _ d Hloop) as [Hlen _].
  rewrite Hlen, np_arange_length. apply arange_len_unit. lia.
Qed.

(** Iteration [i] of the loop, at second [i]. *)
Lemma eeg_row_step (i : nat) :
  (i < List.length rows)%nat ->
  (seizure_start_minute (eeg_before init rows d i) <> None ->
   onset_triggered (nth i rows d) = false) /\
  eeg_after (nth i rows d)
  = eeg_next (eeg_before init rows d i) (Z.of_nat i) (onset_triggered (nth i rows d)) /\
  (if seizure_active (eeg_after (nth i rows d))
   then ictal_bands (nth i rows d) else normal_bands (nth i rows d)).
Proof.
  intros Hi.
  destruct (eeg_loop_rows _ _ _ _ _ _ _ _ d Hloop) as [Hlen Hrows].
  rewrite Hlen in Hi.
  destruct (Hrows i Hi) as (wi & wi' & Hstep).
  rewrite np_arange_length in Hi.
  rewrite (np_arange_nth _ _ _ Hi), Z.mul_1_r in Hstep.
  destruct (eeg_iteration_spec _ _ _ _ _ _ _ _ Hstep) as (_ & Hons & Hnext & Hb).
  repeat split; assumption.
Qed.

Variable t : nat.
Hypothesis Ht : (t < List.length rows)%nat.
Hypothesis Honset : onset_triggered (nth t rows d) = true.

Let onset_state : eeg_state := mkEeg (Some (current_minute_of (Z.of_nat t))) true.

Lemma onset_in_range : (0 <= Z.of_nat t < Z.of_nat checked_seconds)%Z.
Proof. rewrite eeg_rows_length in Ht. lia. Qed.

Lemma seizure_holds (k : nat) :
  (k < 120)%nat -> (t + k < List.length rows)%nat ->
  eeg_after (nth (t + k) rows d) = onset_state.
Proof.
  destruct (seizure_window_bounds (Z.of_nat t) onset_in_range) as [Hin _].
  induction k as [| k IH]; intros Hk Hlen.
  - rewrite Nat.add_0_r.
    destruct (eeg_row_step t Ht) as (_ & Hnext & _).
    rewrite Hnext, Honset. unfold eeg_next.
    pose proof (Hin 0%Z ltac:(lia)) as H0. rewrite Z.add_0_r in H0.
    rewrite H0. reflexivity.
  - specialize (IH ltac:(lia) ltac:(lia)).
    destruct (eeg_row_step (t + S k) Hlen) as (Hons & Hnext & _).
    replace (t + S k)%nat with (S (t + k)) in * by lia.
    cbn [eeg_before] in Hons, Hnext. rewrite IH in Hons, Hnext.
    rewrite Hons in Hnext by discriminate.
    rewrite Hnext. unfold eeg_next, onset_state. cbn [seizure_start_minute].
    pose proof (Hin (Z.of_nat (S k)) ltac:(lia)) as Hw.
    replace (Z.of_nat t + Z.of_nat (S k))%Z with (Z.of_nat (S (t + k))) in Hw by lia.
    rewrite Hw. reflexivity.
Qed.

Lemma seizure_reverts :
  (t + 120 < List.length rows)%nat ->
  if in_seizure_window (current_minute_of (Z.of_nat t + 120))
                       (current_minute_of (Z.of_nat t))
  then eeg_after (nth (t + 120) rows d) = onset_state /\
       ((t + 121 < List.length rows)%nat ->
        eeg_after (nth (t + 121) rows d) = mkEeg None false)
  else eeg_after (nth (t + 120) rows d) = mkEeg None false.
Proof.
  intros Hlen.
  destruct (seizure_window_bounds (Z.of_nat t) onset_in_range) as [_ Hout].
  pose proof (seizure_holds 119 ltac:(lia) ltac:(lia)) as H119.
  destruct (eeg_row_step (t + 120) Hlen) as (Hons & Hnext & _).
  replace (t + 120)%nat with (S (t + 119)) in * by lia.
  cbn [eeg_before] in Hons, Hnext. rewrite H119 in Hons, Hnext.
  rewrite Hons in Hnext by discriminate.
  unfold eeg_next, onset_state in Hnext. cbn [seizure_start_minute] in Hnext.
  replace (Z.of_nat (S (t + 119))) with (Z.of_nat t + 120)%Z in Hnext by lia.
  destruct (in_seizure_window (current_minute_of (Z.of_nat t + 120))
                              (current_minute_of (Z.of_nat t)));
    [| exact Hnext].
  split; [exact Hnext |]. intros Hlen'.
  destruct (eeg_row_step (t + 121) Hlen') as (Hons' & Hnext' & _).
  replace (t + 121)%nat with (S (S (t + 119))) in * by lia.
  cbn [eeg_before] in Hons', Hnext'. rewrite Hnext in Hons', Hnext'.
  rewrite Hons' in Hnext' by discriminate.
  unfold eeg_next in Hnext'. cbn [seizure_start_minute] in Hnext'.
  replace (Z.of_nat (S (S (t + 119)))) with (Z.of_nat t + 121)%Z in Hnext' by lia.
  rewrite Hout in Hnext'. exact Hnext'.
Qed.

End SeizureWindow.

(** The seconds at which the onset test fired, and the seconds left in
    the state SeizureActive. *)
Definition positions (f : eeg_row -> bool) (rows : list eeg_row) : list nat :=
  map fst (filter (fun ir => f (snd ir)) (enumerate rows)).

Definition onset_seconds : list eeg_row -> list nat :=
  positions onset_triggered.

Definition active_seconds : list eeg_row -> list nat :=
  positions (fun row => seizure_active (eeg_after row)).

(** X30: in [generate_eeg_data] on the 1-second grid, for a recording of
    at most 4368 minutes, every onset that fires at second [t] leaves the
    state SeizureActive, with band powers drawn from the ictal ranges, at
    every second from [t] to [t + 119] that the recording still has (an
    onset within two minutes of the end is cut short by the end).  What
    second [t + 120] is, the window test of the code decides, in
    binary64: when [(t + 120) / 60 < t / 60 + 2] fails there, the state
    is Normal again with the onset marker cleared; when it holds, second
    [t + 120] is one more ictal sample and second [t + 121] is Normal
    with the marker cleared. *)
Theorem seizure_window_after_onset
    (R : RandomSource) (w : world) (duration_minutes : Z) (p : Q)
    (start : option float) :
  (0 <= duration_minutes <= 4368)%Z ->
  exists rows w',
    eeg_trace duration_minutes 1 p start w
      = Ok ((np_arange (duration_minutes * 60) 1, rows), w') /\
    List.length rows = Z.to_nat (duration_minutes * 60) /\
    forall (t : nat) (d : eeg_row),
      (t < List.length rows)%nat ->
      onset_triggered (nth t rows d) = true ->
      (forall k, (k < 120)%nat -> (t + k < List.length rows)%nat ->
         seizure_active (eeg_after (nth (t + k) rows d)) = true /\
         ictal_bands (nth (t + k) rows d)) /\
      ((t + 120 < List.length rows)%nat ->
         if in_seizure_window (current_minute_of (Z.of_nat t + 120))
                              (current_minute_of (Z.of_nat t))
         then seizure_active (eeg_after (nth (t + 120) rows d)) = true /\
              ictal_bands (nth (t + 120) rows d) /\
              ((t + 121 < List.length rows)%nat ->
               eeg_after (nth (t + 121) rows d) = mkEeg None false /\
               normal_bands (nth (t + 121) rows d))
         else eeg_after (nth (t + 120) rows d) = mkEeg None false /\
              normal_bands (nth (t + 120) rows d)).
Proof.
  intros Hdur.
  assert (Hsec : (0 <= duration_minutes * 60 <= Z.of_nat checked_seconds)%Z).
  { unfold checked_seconds. rewrite Nat2Z.inj_pow. cbn. lia. }
  unfold eeg_trace. cbn [Z.eqb].
  destruct (for_state_total (eeg_iteration duration_minutes p)
              (np_arange (duration_minutes * 60) 1)
              (eeg_iteration_total duration_minutes p)
              (mkEeg start false) w) as ([rows final] & w' & Hloop).
  exists rows, w'. rewrite (bind_returns _ _ _ _ _ Hloop).
  split; [reflexivity |].
  split.
  { apply (eeg_rows_length duration_minutes p (mkEeg start false) rows final
             w w' (mkEegRow false (mkEeg None false) 0 0 0) Hsec Hloop). }
  intros t d Ht Honset.
  pose proof (fun i => eeg_row_step duration_minutes p (mkEeg start false)
                         rows final w w' d Hloop i) as Hstep.
  assert (Hbands : forall i, (i < List.length rows)%nat ->
            forall st, eeg_after (nth i rows d) = st ->
            if seizure_active st then ictal_bands (nth i rows d)
            else normal_bands (nth i rows d)).
  { intros i Hi st <-. apply (Hstep i Hi). }
  split.
  - intros k Hk Hlen.
    pose proof (seizure_holds duration_minutes p (mkEeg start false) rows
                  final w w' d Hsec Hloop t Ht Honset k Hk Hlen) as Hst.
    split; [rewrite Hst; reflexivity |].
    exact (Hbands _ Hlen _ Hst).
  - intros Hlen.
    pose proof (seizure_reverts duration_minutes p (mkEeg start false) rows
                  final w w' d Hsec Hloop t Ht Honset Hlen) as Hrev.
    destruct (in_seizure_window (current_minute_of (Z.of_nat t + 120))
                                (current_minute_of (Z.of_nat t))).
    + destruct Hrev as [Hact Hrev].
      split; [rewrite Hact; reflexivity |].
      split; [exact (Hbands _ Hlen _ Hact) |].
      intros Hlen'. specialize (Hrev Hlen').
      split; [exact Hrev |]. exact (Hbands _ Hlen' _ Hrev).
    + split; [exact Hrev |]. exact (Hbands _ Hlen _ Hrev).
Qed.

(** A tape that fires the onset test at draw [n] only. *)
Definition onset_at_draw (n : nat) : world (R := Oracle.source) :=
  mkWorld (R := Oracle.source)
    (Oracle.mkTape 0 (fun k => if Nat.eqb k n then 0 else (1 # 2)%Q))
    0 (fun _ => 0%Z).

(** A three-minute recording. *)
Lemma seizure_window_after_onset_witness :
  exists rows w',
    eeg_trace (R := Oracle.source) 3 1 (1 # 5) None (onset_at_draw 0)
      = Ok ((np_arange (3 * 60) 1, rows), w') /\
    List.length rows = 180%nat /\
    forall (t : nat) (d : eeg_row),
      (t < List.length rows)%nat ->
      onset_triggered (nth t rows d) = true ->
      forall k, (k < 120)%nat -> (t + k < List.length rows)%nat ->
        seizure_active (eeg_after (nth (t + k) rows d)) = true.
Proof.
  destruct (seizure_window_after_onset Oracle.source (onset_at_draw 0) 3
              (1 # 5) None ltac:(lia)) as (rows & w' & Hrun & Hlen & Hrows).
  exists rows, w'. split; [exact Hrun |]. split; [exact Hlen |].
  intros t d Ht Honset k Hk Hlen'.
  apply (proj1 (Hrows t d Ht Honset) k Hk Hlen').
Defined.

(** What three runs on the oracle show: the seconds at which an onset
    fired and the seconds spent in SeizureActive. *)
Definition seizure_seconds {R : RandomSource}
    (r : result (list Z * list eeg_row * world)) : option (list nat * list nat) :=
  match value_of r with
  | Some (_, rows) => Some (onset_seconds rows, active_seconds rows)
  | None => None
  end.

(** An onset at second 0 of a three-minute recording: 120 seconds of
    SeizureActive, seconds 0 to 119. *)
Lemma seizure_of_two_minutes :
  seizure_seconds (eeg_trace (R := Oracle.source) 3 1 (1 # 5) None (onset_at_draw 0))
  = Some ([0%nat], seq 0 120).
Proof. vm_compute. reflexivity. Qed.

(** The onsets of the first [n] seconds whose seizure the window test
    of the code lets run into second [t + 120]. *)
Definition overlong_onsets (n : nat) : list Z :=
  filter (fun t => in_seizure_window (current_minute_of (t + 120))
                                     (current_minute_of t))
         (map Z.of_nat (seq 0 n)).

(** C4: the code does not give every onset exactly 120 samples.  In
    exact arithmetic the window test [i / 60 < t / 60 + 2] holds at the
    seconds [t] to [t + 119] and fails at second [t + 120], the two
    minutes of the comment in the code.  The code evaluates it in
    binary64, where [146 / 60 < 26 / 60 + 2] holds: an onset at second 26
    of a five-minute recording gives 121 samples of SeizureActive,
    seconds 26 to 146, and so do 75 of the onsets of the first hour.
    Besides, the loop ends with the recording: an onset at second 0 of a
    one-minute recording gives 60 samples, all there are. *)
Theorem seizure_outlasts_two_minutes :
  (forall t k : Z,
      (inject_Z (t + k) / 60 < inject_Z t / 60 + 2)%Q <-> (k < 120)%Z) /\
  in_seizure_window (current_minute_of 146) (current_minute_of 26) = true /\
  seizure_seconds (eeg_trace (R := Oracle.source) 5 1 (1 # 5) None (onset_at_draw 104))
  = Some ([26%nat], seq 26 121) /\
  List.length (overlong_onsets 3600) = 75%nat /\
  seizure_seconds (eeg_trace (R := Oracle.source) 1 1 (1 # 5) None (onset_at_draw 0))
  = Some ([0%nat], seq 0 60).
Proof.
  split.
  { intros t k. rewrite inject_Z_plus.
    assert (E : (inject_Z t + inject_Z k) / 60 < inject_Z t / 60 + 2
                <-> inject_Z k < inject_Z 120).
    { change (inject_Z 120) with 120%Q.
      assert (H : (inject_Z t + inject_Z k) / 60
                  == inject_Z t / 60 + inject_Z k * (1 # 60)) by field.
      rewrite H. split; intros; lra. }
    rewrite E, <- Zlt_Qlt. reflexivity. }
  repeat split; vm_compute; reflexivity.
Qed.

(* ------------------------------------------------------------------ *)
(** * Further properties of the code

    ** Runs that raise *)

From Stdlib Require Import Sorted.

(** A computation that raises [e] from every world. *)
Definition raises {R : RandomSource} {A} (c : M A) (e : exn) : Prop :=
  forall w, c w = Raise e.

Section Raises.
Context {R : RandomSource}.

Lemma raises_bind_first {A B} (c : M A) (k : A -> M B) (e : exn) :
  raises c e -> raises (bind c k) e.
Proof. intros Hc w. unfold bind. rewrite Hc. reflexivity. Qed.

Lemma raises_bind_later {A B} (c : M A) (k : A -> M B) (P : A -> Prop) (e : exn) :
  returns c P -> (forall a, P a -> raises (k a) e) -> raises (bind c k) e.
Proof.
  intros Hc Hk w. destruct (Hc w) as (a & w1 & Ha & HP).
  rewrite (bind_returns _ _ _ _ _ Ha). apply (Hk a HP).
Qed.

Lemma raises_lift {A} (r : result A) (e : exn) :
  r = Raise e -> raises (lift_result r) e.
Proof. intros -> w. reflexivity. Qed.

Lemma returns_uniform (lo hi : Q) :
  lo <= hi -> returns (draw (uniform lo hi)) (within lo hi).
Proof. intros Hle. apply returns_draw. intros s. apply uniform_range, Hle. Qed.

Lemma returns_for_each_post {A B} (body : A -> M B) (P : A -> B -> Prop) l :
  (forall x, returns (body x) (P x)) ->
  returns (for_each body l) (fun bs => Forall2 P l bs).
Proof.
  intros Hbody. induction l as [| x l IH]; cbn [for_each].
  - apply returns_ret. constructor.
  - eapply returns_bind; [apply Hbody | intros b Hb].
    eapply returns_bind; [apply IH | intros bs Hbs].
    apply returns_ret. constructor; assumption.
Qed.

End Raises.

Ltac uniform_step v H :=
  eapply returns_bind; [apply returns_uniform; lra | intros v H].

(** [np.arange(0, stop, step)] has [ceil(stop / step)] points. *)
Lemma arange_len_ceil (stop step : Z) :
  (0 < step)%Z -> (0 <= stop)%Z ->
  Z.of_nat (arange_len stop step)
  = (stop / step + (if (stop mod step =? 0)%Z then 0 else 1))%Z.
Proof.
  intros Hs Hn. unfold arange_len.
  pose proof (Z.div_mod stop step ltac:(lia)) as Hdm.
  pose proof (Z.mod_pos_bound stop step Hs) as Hmod.
  pose proof (Z.div_mod (- stop) step ltac:(lia)) as Hdm'.
  pose proof (Z.mod_pos_bound (- stop) step Hs) as Hmod'.
  assert (H0 : (0 <= stop / step)%Z) by (apply Z.div_pos; lia).
  destruct (Z.eqb_spec (stop mod step) 0) as [E | E];
    rewrite Z2Nat.id by nia; nia.
Qed.

Lemma dict_get_unknown_severity {A} (a b c : A) (severity : string) :
  ~ In severity severities ->
  dict_get [("mild"%string, a); ("moderate"%string, b); ("severe"%string, c)]
           severity
  = Raise (KeyError severity).
Proof.
  intros Hsev. cbn [dict_get].
  destruct (String.eqb_spec "mild" severity) as [<- | _];
    [exfalso; apply Hsev; cbn; auto |].
  destruct (String.eqb_spec "moderate" severity) as [<- | _];
    [exfalso; apply Hsev; cbn; auto |].
  destruct (String.eqb_spec "severe" severity) as [<- | _];
    [exfalso; apply Hsev; cbn; auto |].
  reflexivity.
Qed.

(* ------------------------------------------------------------------ *)
(** ** Which calls of the pipeline return, and what the others raise *)

Section PipelineOutcome.
Context {R : RandomSource} {N : Numerics}.

Lemma abg_frame_mismatch tps_abg abg :
  List.length abg <> List.length tps_abg ->
  abg_frame tps_abg abg
  = Raise (ValueError "All arrays must be of the same length").
Proof.
  intros Hne. unfold abg_frame, pd_DataFrame. cbn [array_lengths forallb].
  rewrite !length_map.
  destruct (Nat.eqb_spec (List.length tps_abg) (List.length abg)) as [E | _];
    [congruence | reflexivity].
Qed.

(** The pipeline up to the vitals frame returns for every non-zero time
    step; what comes after it decides. *)
Lemma pipeline_after_vitals pid hours step (e : exn) :
  step <> 0%Z ->
  (forall b df,
      In (hie_severity b) severities ->
      raises (abg <- generate_blood_gas_data hours 4 (hie_severity b) ;;
              abg_df <- lift_result (abg_frame (fst abg) (snd abg)) ;;
              lift_result
                (rbind (align_blood_gas df abg_df)
                       (add_baseline_columns (baseline_items b)))) e) ->
  raises (generate_complete_patient_dataset pid hours step) e.
Proof.
  intros Hstep Htail. unfold generate_complete_patient_dataset.
  eapply raises_bind_later; [apply generate_baseline_parameters_returns |].
  intros b (Hpid & Hsev & _ & Hb).
  eapply raises_bind_later; [apply generate_cooling_protocol_returns, Hsev |].
  intros p (Hrate & Ht & Hbase).
  eapply raises_bind_later.
  { rewrite Hbase.
    destruct (pipeline_rate_in_range _ _ _ Hb Ht Hrate) as [Hzero Hinf].
    apply temperature_returns; assumption. }
  intros [tps temps] [Htps Htemps]. cbn [fst snd] in Htps, Htemps. subst tps.
  eapply raises_bind_later; [apply heart_rate_returns, Hstep |].
  intros [tps1 hrs] [_ Hhrs]. cbn [snd] in Hhrs.
  eapply raises_bind_later; [apply blood_pressure_returns, Hstep |].
  intros [[tps2 sys] dia] (_ & Hsys & Hdia). cbn [fst snd] in Hsys, Hdia.
  eapply raises_bind_later; [apply spo2_returns, Hstep |].
  intros [tps3 sats] [_ Hsats]. cbn [fst snd] in *.
  eapply raises_bind_later.
  { eapply returns_lift with (P := fun _ => True);
      [apply vitals_frame_ok; assumption | exact I]. }
  intros df0 _. apply Htail, Hsev.
Qed.

Lemma pipeline_zero_step pid hours :
  raises (generate_complete_patient_dataset pid hours 0) ZeroDivisionError.
Proof.
  unfold generate_complete_patient_dataset.
  eapply raises_bind_later; [apply generate_baseline_parameters_returns |].
  intros b (_ & Hsev & _).
  eapply raises_bind_later; [apply generate_cooling_protocol_returns, Hsev |].
  intros p _. apply raises_bind_first. intros w. reflexivity.
Qed.

Lemma pipeline_negative_hours pid hours step :
  step <> 0%Z -> (hours < 0)%Z ->
  raises (generate_complete_patient_dataset pid hours step)
         (ValueError "negative dimensions are not allowed").
Proof.
  intros Hstep Hh. apply pipeline_after_vitals; [exact Hstep |].
  intros b df Hsev. apply raises_bind_first. intros w.
  unfold generate_blood_gas_data. cbn [Z.eqb].
  destruct (Z.ltb_spec (hours / 4) 0) as [_ | Hge]; [reflexivity |].
  exfalso. assert (hours / 4 < 0)%Z by (apply Z.div_lt_upper_bound; lia). lia.
Qed.

Lemma pipeline_ragged_blood_gas pid hours step :
  step <> 0%Z -> (0 <= hours)%Z -> (hours mod 4 <> 0)%Z ->
  raises (generate_complete_patient_dataset pid hours step)
         (ValueError "All arrays must be of the same length").
Proof.
  intros Hstep Hh Hm. apply pipeline_after_vitals; [exact Hstep |].
  intros b df Hsev.
  eapply raises_bind_later.
  { apply blood_gas_returns with (ts := 4%Z);
      [discriminate | apply Z.div_pos; lia | exact Hsev]. }
  intros [tps_abg abg] [Htps Habg]. cbn [fst snd] in *. subst tps_abg.
  apply raises_bind_first, raises_lift, abg_frame_mismatch.
  rewrite np_arange_length, Habg.
  pose proof (arange_len_ceil hours 4 ltac:(lia) Hh) as Hc.
  destruct (Z.eqb_spec (hours mod 4) 0) as [E | _]; [contradiction |].
  assert (H0 : (0 <= hours / 4)%Z) by (apply Z.div_pos; lia). lia.
Qed.

(** X1: [generate_complete_patient_dataset] returns a dataset exactly for
    a non-zero time step and a duration that is a non-negative multiple of
    four hours.  A zero time step raises [ZeroDivisionError] in the
    temperature series; a negative duration raises the [ValueError] of the
    blood-gas arrays; and a duration that is not a multiple of four hours
    raises the [ValueError] of the blood-gas frame, whose time points
    ([np.arange], rounded up) are one more than its values (floor
    division). *)
Theorem patient_dataset_outcomes (pid : string) (hours step : Z) (w : world) :
  (step <> 0%Z -> (0 <= hours)%Z -> (hours mod 4 = 0)%Z ->
   exists df w', generate_complete_patient_dataset pid hours step w = Ok (df, w')) /\
  (step = 0%Z ->
   generate_complete_patient_dataset pid hours step w = Raise ZeroDivisionError) /\
  (step <> 0%Z -> (hours < 0)%Z ->
   generate_complete_patient_dataset pid hours step w
   = Raise (ValueError "negative dimensions are not allowed")) /\
  (step <> 0%Z -> (0 <= hours)%Z -> (hours mod 4 <> 0)%Z ->
   generate_complete_patient_dataset pid hours step w
   = Raise (ValueError "All arrays must be of the same length")).
Proof.
  split; [| split; [| split]].
  - intros Hstep Hh Hm. apply patient_dataset_returns; assumption.
  - intros ->. apply pipeline_zero_step.
  - intros Hstep Hh. apply pipeline_negative_hours; assumption.
  - intros Hstep Hh Hm. apply pipeline_ragged_blood_gas; assumption.
Qed.

End PipelineOutcome.

(* ------------------------------------------------------------------ *)
(** ** Baseline parameters and the protocol table *)

(** The ranges [generate_baseline_parameters] draws from. *)
Definition baseline_in_ranges (b : PatientBaseline) : Prop :=
  within 2.5 4.5 (birth_weight_kg b) /\
  within 35 42 (gestational_age_weeks b) /\
  In (hie_severity b) severities /\
  within 120 160 (baseline_heart_rate b) /\
  within 40 60 (baseline_resp_rate b) /\
  within 50 70 (baseline_systolic_bp b) /\
  within 30 45 (baseline_diastolic_bp b) /\
  within 95 100 (baseline_oxygen_sat b) /\
  within 36.8 37.4 (baseline_rectal_temp b) /\
  within 36.5 37.3 (baseline_core_temp b) /\
  In (seizure_risk_factor b) seizure_risk_values.

(** The parameters of one entry of the protocol table. *)
Definition protocol_in_ranges (target_lo target_hi : Q) (hours : Z)
    (cooling_lo cooling_hi rewarming_lo rewarming_hi : Q)
    (p : CoolingProtocol) : Prop :=
  within target_lo target_hi (target_temp p) /\
  duration_hours p = hours /\
  within cooling_lo cooling_hi (cooling_rate p) /\
  within rewarming_lo rewarming_hi (rewarming_rate p).

Section Parameters.
Context {R : RandomSource}.

(** X2: every baseline [generate_baseline_parameters] returns carries the
    given patient id and has each drawn field in the range of its draw;
    the diastolic baseline is therefore always below the systolic one. *)
Theorem baseline_parameters_in_ranges (pid : string) :
  returns (generate_baseline_parameters pid)
    (fun b => patient_id b = pid /\ baseline_in_ranges b /\
              baseline_diastolic_bp b < baseline_systolic_bp b).
Proof.
  unfold generate_baseline_parameters.
  uniform_step weight Hweight. uniform_step gest Hgest.
  eapply returns_bind; [apply returns_total, total_draw | intros hour _].
  eapply returns_bind; [apply returns_choice; discriminate | intros sev Hsev].
  uniform_step hr Hhr. uniform_step resp Hresp. uniform_step sys Hsys.
  uniform_step dia Hdia. uniform_step sat Hsat. uniform_step rectal Hrectal.
  uniform_step core Hcore.
  eapply returns_bind; [apply returns_choice; discriminate | intros key Hkey].
  apply in_severities in Hkey.
  assert (Hpp : dia < sys) by (destruct Hsys, Hdia; lra).
  destruct Hkey as [-> | [-> | ->]];
    (eapply returns_bind;
     [ eapply returns_lift with (P := fun v => In v seizure_risk_values);
       [ reflexivity | cbn; auto ]
     | intros risk Hrisk; apply returns_ret; unfold baseline_in_ranges;
       cbn [patient_id birth_weight_kg gestational_age_weeks hie_severity
            baseline_heart_rate baseline_resp_rate baseline_systolic_bp
            baseline_diastolic_bp baseline_oxygen_sat baseline_rectal_temp
            baseline_core_temp seizure_risk_factor];
       repeat match goal with |- _ /\ _ => split end;
       solve [assumption | reflexivity] ]).
Qed.

(** The protocol returned for [severity] is the entry of the table built
    from the nine draws, with the baseline temperature and the clock. *)
Lemma protocol_draws (severity : string) (baseline_temp : Q)
    (P : CoolingProtocol -> Prop) :
  (forall mt mc mr ot oc ow st sc sr now,
      within 32.5 33.5 mt -> within 0.1 0.2 mc -> within 0.05 0.1 mr ->
      within 33.0 33.5 ot -> within 0.15 0.25 oc -> within 0.05 0.1 ow ->
      within 32.0 33.5 st -> within 0.2 0.3 sc -> within 0.05 0.08 sr ->
      exists p,
        dict_get [ ("mild"%string, (mt, 48%Z, mc, mr));
                   ("moderate"%string, (ot, 72%Z, oc, ow));
                   ("severe"%string, (st, 72%Z, sc, sr)) ] severity
        = Ok p /\
        P (let '(target, hours, cooling, rewarming) := p in
           mkProtocol target hours cooling rewarming baseline_temp now)) ->
  returns (generate_cooling_protocol severity baseline_temp) P.
Proof.
  intros HP. unfold generate_cooling_protocol.
  uniform_step mt Hmt. uniform_step mc Hmc. uniform_step mr Hmr.
  uniform_step ot Hot. uniform_step oc Hoc. uniform_step ow How.
  uniform_step st Hst. uniform_step sc Hsc. uniform_step sr Hsr.
  cbv zeta.
  assert (Hnow : forall now, exists p, _) by
    (intros now;
     exact (HP mt mc mr ot oc ow st sc sr now Hmt Hmc Hmr Hot Hoc How Hst Hsc Hsr)).
  destruct (Hnow 0%Z) as (p0 & Hp0 & _).
  eapply returns_bind;
    [eapply returns_lift with (P := fun p => p = p0); [exact Hp0 | reflexivity] |].
  intros p ->. destruct p0 as [[[target hours] cooling] rewarming].
  eapply returns_bind; [apply returns_now |]. intros now _.
  apply returns_ret.
  destruct (Hnow now) as (p1 & Hp1 & HP1).
  rewrite Hp0 in Hp1. injection Hp1 as <-. exact HP1.
Qed.

(** X3: the protocol [generate_cooling_protocol] returns for each of the
    three severities: 48 hours for mild and 72 hours for moderate and
    severe, with target temperature, cooling rate and rewarming rate in
    the ranges of that severity's entry, and the given baseline
    temperature. *)
Theorem cooling_protocol_by_severity (baseline_temp : Q) :
  returns (generate_cooling_protocol "mild" baseline_temp)
    (fun p => protocol_in_ranges 32.5 33.5 48 0.1 0.2 0.05 0.1 p /\
              protocol_baseline_temp p = baseline_temp) /\
  returns (generate_cooling_protocol "moderate" baseline_temp)
    (fun p => protocol_in_ranges 33.0 33.5 72 0.15 0.25 0.05 0.1 p /\
              protocol_baseline_temp p = baseline_temp) /\
  returns (generate_cooling_protocol "severe" baseline_temp)
    (fun p => protocol_in_ranges 32.0 33.5 72 0.2 0.3 0.05 0.08 p /\
              protocol_baseline_temp p = baseline_temp).
Proof.
  split; [| split]; apply protocol_draws; intros; eexists;
    (split; [reflexivity |]); unfold protocol_in_ranges;
    cbn [target_temp duration_hours cooling_rate rewarming_rate
         protocol_baseline_temp]; auto.
Qed.

(** X4: a severity outside the table makes [generate_cooling_protocol]
    raise [KeyError] with that severity as the key. *)
Theorem cooling_protocol_unknown_severity (severity : string) (baseline_temp : Q) :
  ~ In severity severities ->
  raises (generate_cooling_protocol severity baseline_temp) (KeyError severity).
Proof.
  intros Hsev. unfold generate_cooling_protocol.
  do 9 (eapply raises_bind_later; [apply returns_total, total_draw | intros ? _]).
  cbv zeta. apply raises_bind_first, raises_lift, dict_get_unknown_severity, Hsev.
Qed.

(** Nine draws in a row: what they give does not depend on what follows,
    and they leave the clock alone. *)
Lemma nine_draws (d1 d2 d3 d4 d5 d6 d7 d8 d9 : rng -> Q * rng) (w : world) :
  exists v1 v2 v3 v4 v5 v6 v7 v8 v9 s,
    forall A (k : Q -> Q -> Q -> Q -> Q -> Q -> Q -> Q -> Q -> M A),
    (a1 <- draw d1 ;; a2 <- draw d2 ;; a3 <- draw d3 ;; a4 <- draw d4 ;;
     a5 <- draw d5 ;; a6 <- draw d6 ;; a7 <- draw d7 ;; a8 <- draw d8 ;;
     a9 <- draw d9 ;; k a1 a2 a3 a4 a5 a6 a7 a8 a9) w
    = k v1 v2 v3 v4 v5 v6 v7 v8 v9 (mkWorld s (clock_reads w) (wall_clock w)).
Proof.
  eexists _, _, _, _, _, _, _, _, _, _. intros A k.
  do 9 (erewrite bind_returns by apply draw_returns;
        cbn [np_random clock_reads wall_clock]).
  reflexivity.
Qed.

Lemma protocol_run_world (w : world) :
  exists w', forall severity baseline_temp,
    In severity severities ->
    exists p,
      generate_cooling_protocol severity baseline_temp w = Ok (p, w') /\
      start_time p = wall_clock w (clock_reads w) /\
      clock_reads w' = S (clock_reads w).
Proof.
  destruct (nine_draws (uniform 32.5 33.5) (uniform 0.1 0.2) (uniform 0.05 0.1)
              (uniform 33.0 33.5) (uniform 0.15 0.25) (uniform 0.05 0.1)
              (uniform 32.0 33.5) (uniform 0.2 0.3) (uniform 0.05 0.08) w)
    as (v1 & v2 & v3 & v4 & v5 & v6 & v7 & v8 & v9 & s & Hrun).
  exists (mkWorld s (S (clock_reads w)) (wall_clock w)).
  intros severity baseline_temp Hsev. apply in_severities in Hsev.
  unfold generate_cooling_protocol. rewrite Hrun.
  destruct Hsev as [-> | [-> | ->]];
    eexists; (split; [reflexivity |]); split; reflexivity.
Qed.

(** X5: [generate_cooling_protocol] draws the parameters of all three
    protocols before it selects one, so that two calls from the same
    state leave the random generator and the clock in the same state
    whatever the severity and the baseline temperature, with the clock
    read once. *)
Theorem cooling_protocol_draws_whatever_the_severity
    (severity1 severity2 : string) (temp1 temp2 : Q) (w : world) :
  In severity1 severities -> In severity2 severities ->
  exists p1 p2 w',
    generate_cooling_protocol severity1 temp1 w = Ok (p1, w') /\
    generate_cooling_protocol severity2 temp2 w = Ok (p2, w') /\
    start_time p1 = start_time p2 /\
    clock_reads w' = S (clock_reads w).
Proof.
  intros H1 H2. destruct (protocol_run_world w) as (w' & Hrun).
  destruct (Hrun severity1 temp1 H1) as (p1 & Hp1 & Hs1 & Hclock).
  destruct (Hrun severity2 temp2 H2) as (p2 & Hp2 & Hs2 & _).
  exists p1, p2, w'. repeat split; try assumption. congruence.
Qed.

End Parameters.

(** A severity the table does not have. *)
Lemma cooling_protocol_unknown_severity_witness :
  raises (R := Oracle.source) (generate_cooling_protocol "profound" 37)
         (KeyError "profound").
Proof.
  apply (cooling_protocol_unknown_severity (R := Oracle.source) "profound" 37).
  intros [H | [H | [H | []]]]; discriminate.
Defined.

(** A mild and a severe protocol from the same state. *)
Lemma cooling_protocol_draws_whatever_the_severity_witness :
  exists p1 p2 w',
    generate_cooling_protocol "mild" 37 quiet_world = Ok (p1, w') /\
    generate_cooling_protocol "severe" (73 # 2) quiet_world = Ok (p2, w') /\
    start_time p1 = start_time p2 /\
    clock_reads w' = S (clock_reads quiet_world).
Proof.
  apply (cooling_protocol_draws_whatever_the_severity (R := Oracle.source)
           "mild" "severe" 37 (73 # 2) quiet_world);
    [left | right; right; left]; reflexivity.
Defined.

(* ------------------------------------------------------------------ *)
(** ** Blood-gas samples and the time grid of the series *)

(** The range of blood-gas sample [i] for the baseline row [b] of the
    table: the first three drift with the improvement factor
    [1 - 0.01 * i], the lactate decays by a tenth per sample. *)
Definition abg_sample_within (b : Q * Q * Q * Q) (i : nat) (a : abg_sample) : Prop :=
  let '(b_pH, b_pCO2, b_pO2, b_lactate) := b in
  let f := 1 - 0.01 * Qnat i in
  within (b_pH - 0.05 * f) (b_pH + 0.1 * f) (abg_pH a) /\
  within (b_pCO2 - 5 * f) (b_pCO2 + 3 * f) (abg_pCO2 a) /\
  within (b_pO2 - 10 * f) (b_pO2 + 15 * f) (abg_pO2 a) /\
  within (b_lactate * 0.9 ^ Z.of_nat i - 0.5)
         (b_lactate * 0.9 ^ Z.of_nat i + 0.5) (abg_lactate a).

(** The time points of [np.arange(0, stop, step)] for a positive step:
    multiples of the step from 0, below [stop], in increasing order. *)
Definition time_grid (stop step : Z) (tps : list Z) : Prop :=
  Z.of_nat (List.length tps)
  = (stop / step + (if (stop mod step =? 0)%Z then 0 else 1))%Z /\
  (forall k, (k < List.length tps)%nat -> nth k tps 0%Z = (Z.of_nat k * step)%Z) /\
  Forall (fun t => (0 <= t < stop)%Z) tps /\
  StronglySorted Z.lt tps.

Lemma Forall2_seq_nth {B} (P : nat -> B -> Prop) (bs : list B) (s n : nat) :
  Forall2 P (seq s n) bs ->
  forall i a, nth_error bs i = Some a -> P (s + i)%nat a.
Proof.
  revert s bs. induction n as [| n IH]; intros s bs H i a Hi; cbn [seq] in H.
  - inversion H; subst. destruct i; discriminate.
  - inversion H as [| x y l l' Hxy Hrest]; subst.
    destruct i as [| i]; cbn [nth_error] in Hi.
    + injection Hi as <-. rewrite Nat.add_0_r. exact Hxy.
    + replace (s + S i)%nat with (S s + i)%nat by lia.
      apply (IH (S s) l' Hrest i a Hi).
Qed.

Lemma np_arange_grid (stop step : Z) :
  (0 < step)%Z -> (0 <= stop)%Z -> time_grid stop step (np_arange stop step).
Proof.
  intros Hs Hn. unfold time_grid. rewrite np_arange_length.
  split; [apply arange_len_ceil; assumption |].
  split; [intros k Hk; apply np_arange_nth, Hk |].
  split.
  - apply Forall_forall. intros t Ht. unfold np_arange in Ht.
    apply in_map_iff in Ht as (k & <- & Hk). apply in_seq in Hk.
    pose proof (proj1 (arange_len_lt stop step k Hs) ltac:(lia)). nia.
  - unfold np_arange. generalize (arange_len stop step) as n. intros n.
    generalize 0%nat as s.
    induction n as [| n IH]; intros s; cbn [seq map]; constructor.
    + apply IH.
    + apply Forall_forall. intros t Ht.
      apply in_map_iff in Ht as (k & <- & Hk). apply in_seq in Hk. nia.
Qed.

Section Series.
Context {R : RandomSource} {N : Numerics}.

(** X6: for a severity of the baseline table and at most 100 samples,
    [generate_blood_gas_data] returns [duration // step] samples, and
    sample [i] has pH, pCO2 and pO2 within the uniform noise scaled by the
    improvement factor [1 - 0.01 * i] around the severity's baseline, and
    lactate within 0.5 of [baseline * 0.9 ** i]; the lactate is not
    clipped. *)
Theorem blood_gas_samples_within (hours step : Z) (severity : string)
    (b : Q * Q * Q * Q) :
  step <> 0%Z -> (0 <= hours / step <= 100)%Z ->
  dict_get abg_baselines severity = Ok b ->
  returns (generate_blood_gas_data hours step severity)
    (fun r => List.length (snd r) = Z.to_nat (hours / step) /\
              forall i a, nth_error (snd r) i = Some a ->
                          abg_sample_within b i a).
Proof.
  intros Hstep Hn Hb. unfold generate_blood_gas_data.
  destruct (Z.eqb_spec step 0) as [E | _]; [contradiction |].
  destruct (Z.ltb_spec (hours / step) 0) as [E | _]; [lia |].
  eapply returns_bind;
    [eapply returns_lift with (P := fun v => v = b); [exact Hb | reflexivity] |].
  intros ? ->. destruct b as [[[b_pH b_pCO2] b_pO2] b_lactate].
  eapply returns_bind.
  - apply (returns_for_each_post _
             (fun i a => (i < Z.to_nat (hours / step))%nat ->
                         abg_sample_within (b_pH, b_pCO2, b_pO2, b_lactate) i a)).
    intros i. cbv zeta.
    eapply returns_bind; [apply returns_uniform; lra | intros u1 [H1 H1']].
    eapply returns_bind; [apply returns_uniform; lra | intros u2 [H2 H2']].
    eapply returns_bind; [apply returns_uniform; lra | intros u3 [H3 H3']].
    eapply returns_bind; [apply returns_uniform; lra | intros u4 [H4 H4']].
    apply returns_ret. intros Hi. unfold abg_sample_within, within.
    cbn [abg_pH abg_pCO2 abg_pO2 abg_lactate].
    assert (Hf : 0 <= 1 - 0.01 * Qnat i).
    { assert (Qnat i <= 100); [| lra].
      unfold Qnat. change 100 with (inject_Z 100). rewrite <- Zle_Qle. lia. }
    set (f := 1 - 0.01 * Qnat i) in *.
    repeat split; nra.
  - intros vals Hvals. apply returns_ret. cbn [snd]. split.
    + apply Forall2_length in Hvals. rewrite length_seq in Hvals. auto.
    + intros i a Hi. apply (Forall2_seq_nth _ _ _ _ Hvals i a Hi).
      apply Forall2_length in Hvals. rewrite length_seq in Hvals.
      rewrite Hvals. cbn [Nat.add]. apply nth_error_Some. congruence.
Qed.

(** X7: the outcomes of [generate_blood_gas_data].  A zero step raises
    [ZeroDivisionError]; a negative sample count raises the [ValueError]
    of [np.zeros]; a severity outside the table raises [KeyError] with
    that severity; and for a positive step, a non-negative duration and a
    known severity it returns the time points of [np.arange], which are
    one more than the values exactly when the step does not divide the
    duration. *)
Theorem blood_gas_outcomes (hours step : Z) (severity : string) :
  (step = 0%Z ->
   raises (generate_blood_gas_data hours step severity) ZeroDivisionError) /\
  (step <> 0%Z -> (hours / step < 0)%Z ->
   raises (generate_blood_gas_data hours step severity)
          (ValueError "negative dimensions are not allowed")) /\
  (step <> 0%Z -> (0 <= hours / step)%Z -> ~ In severity severities ->
   raises (generate_blood_gas_data hours step severity) (KeyError severity)) /\
  ((0 < step)%Z -> (0 <= hours)%Z -> In severity severities ->
   returns (generate_blood_gas_data hours step severity)
     (fun r => time_grid hours step (fst r) /\
               List.length (fst r)
               = (List.length (snd r)
                  + (if (hours mod step =? 0)%Z then 0 else 1))%nat)).
Proof.
  split; [| split; [| split]].
  - intros -> w. reflexivity.
  - intros Hstep Hneg w. unfold generate_blood_gas_data.
    destruct (Z.eqb_spec step 0) as [E | _]; [contradiction |].
    destruct (Z.ltb_spec (hours / step) 0) as [_ | E]; [reflexivity | lia].
  - intros Hstep Hn Hsev. unfold generate_blood_gas_data.
    destruct (Z.eqb_spec step 0) as [E | _]; [contradiction |].
    destruct (Z.ltb_spec (hours / step) 0) as [E | _]; [lia |].
    apply raises_bind_first, raises_lift.
    apply dict_get_unknown_severity, Hsev.
  - intros Hstep Hh Hsev.
    assert (Hn : (0 <= hours / step)%Z) by (apply Z.div_pos; lia).
    eapply returns_weaken;
      [apply blood_gas_returns; [lia | exact Hn | exact Hsev] |].
    intros [tps vals] [Htps Hvals]. cbn [fst snd] in *. subst tps.
    split; [apply np_arange_grid; assumption |].
    pose proof (arange_len_ceil hours step Hstep Hh) as Hc.
    rewrite np_arange_length, Hvals.
    destruct (hours mod step =? 0)%Z; lia.
Qed.

(** X8: for a positive time step, a non-negative duration, a cooling
    rate of magnitude at least [1e-100] and temperatures at most [1e100]
    apart (far inside the range of binary64, where the rate over 60 is
    not [0.0] and the length of the cooling phase is finite), the four
    vitals generators return one and the same time grid with one value
    per time point: [ceil(duration / step)] points, point [k] at
    [k * step], all in [[0, duration)], strictly increasing. *)
Theorem vitals_share_one_time_grid
    (baseline target rate rewarm baseline_hr stress b_sys b_dia baseline_spo2 : Q)
    (distress : bool) (dur step : Z) :
  (0 < step)%Z -> (0 <= dur)%Z ->
  (1 # 10 ^ 100) <= Qabs rate ->
  Qabs (baseline - target) <= inject_Z (10 ^ 100) ->
  exists tps,
    time_grid dur step tps /\
    returns (simulate_rectal_temperature baseline target rate rewarm dur step)
            (on_grid tps) /\
    returns (generate_heart_rate_data baseline_hr dur step stress) (on_grid tps) /\
    returns (generate_blood_pressure_data b_sys b_dia dur step)
            (fun r => on_grid tps (fst r) /\
                      List.length (snd r) = List.length tps) /\
    returns (generate_oxygen_saturation_data baseline_spo2 dur step distress)
            (on_grid tps).
Proof.
  intros Hstep Hdur Hrate Hdiff. exists (np_arange dur step).
  assert (Hs : step <> 0%Z) by lia.
  split; [apply np_arange_grid; assumption |].
  split.
  { destruct (ordinary_rate_in_range baseline target rate Hrate Hdiff)
      as [Hzero Hinf].
    apply temperature_returns; assumption. }
  split; [apply heart_rate_returns, Hs |].
  split; [| apply spo2_returns, Hs].
  eapply returns_weaken; [apply blood_pressure_returns, Hs |].
  intros [[tps sys] dia] (H1 & H2 & H3). cbn [fst snd] in *.
  unfold on_grid. cbn [fst snd]. auto.
Qed.

(** X9: the outcomes of [simulate_rectal_temperature].  It raises
    [ZeroDivisionError] exactly when the time step is zero or the cooling
    rate over 60 is [0.0], which is so for a rate of zero and for every
    rate so small that the quotient rounds to zero (magnitude at most
    [2 ^ -1075]).  For a non-zero time step, a rate of magnitude at least
    [1e-100] and temperatures at most [1e100] apart it returns the time
    grid with one temperature per point.  For a non-zero time step and a
    rate that is not rounded to zero but so small that the length of the
    cooling phase is infinite, it raises the [OverflowError] of
    [int]. *)
Theorem temperature_series_outcomes
    (baseline target rate rewarm : Q) (dur step : Z) (w : world) :
  (step = 0%Z \/ Qabs (rate / 60) <= binary64_half_min <->
   simulate_rectal_temperature baseline target rate rewarm dur step w
   = Raise ZeroDivisionError) /\
  (step <> 0%Z -> (1 # 10 ^ 100) <= Qabs rate ->
   Qabs (baseline - target) <= inject_Z (10 ^ 100) ->
   exists r w',
     simulate_rectal_temperature baseline target rate rewarm dur step w
     = Ok (r, w') /\
     on_grid (np_arange dur step) r) /\
  (step <> 0%Z -> binary64_half_min < Qabs (rate / 60) ->
   4 * binary64_inf_bound <= Qabs (baseline - target) / Qabs (rate / 60) ->
   simulate_rectal_temperature baseline target rate rewarm dur step w
   = Raise (OverflowError "cannot convert float infinity to integer")).
Proof.
  split; [| split].
  - split.
    + intros Hz. unfold simulate_rectal_temperature.
      destruct (Z.eqb_spec step 0) as [_ | Hs]; [reflexivity |].
      destruct Hz as [Hz | Hz]; [contradiction |].
      apply float_rounds_to_zero_iff in Hz. rewrite Hz. reflexivity.
    + intros Hrun. destruct (Z.eq_dec step 0) as [Hs | Hs]; [left; exact Hs |].
      right. destruct (float_rounds_to_zero (rate / 60)) eqn:Ez.
      { apply float_rounds_to_zero_iff, Ez. }
      exfalso.
      destruct (float_rounds_to_inf (Qabs (baseline - target) / (rate / 60)))
        eqn:Ei.
      * unfold simulate_rectal_temperature in Hrun.
        destruct (Z.eqb_spec step 0) as [E | _]; [contradiction |].
        rewrite Ez in Hrun. cbv zeta in Hrun. rewrite Ei in Hrun.
        discriminate.
      * destruct (temperature_returns baseline target rate rewarm dur step
                    Hs Ez Ei w) as (r & w' & Hok & _).
        rewrite Hok in Hrun. discriminate.
  - intros Hs Hrate Hdiff.
    destruct (ordinary_rate_in_range baseline target rate Hrate Hdiff)
      as [Hzero Hinf].
    destruct (temperature_returns baseline target rate rewarm dur step Hs
                Hzero Hinf w) as (r & w' & Hrun & Hgrid).
    exists r, w'. split; assumption.
  - intros Hs Hrate Hlong. unfold simulate_rectal_temperature.
    destruct (Z.eqb_spec step 0) as [E | _]; [contradiction |].
    rewrite (float_nonzero_above _ Hrate). cbv zeta.
    rewrite (long_phase_is_infinite _ _ _ Hlong). reflexivity.
Qed.

End Series.

(** Seventy-two hours on the four-hour grid, severity severe. *)
Lemma blood_gas_samples_within_witness :
  returns (R := Oracle.source) (generate_blood_gas_data 72 4 "severe")
    (fun r => List.length (snd r) = 18%nat /\
              forall i a, nth_error (snd r) i = Some a ->
                          abg_sample_within (7.25, 50, 65, 8) i a).
Proof.
  apply (blood_gas_samples_within (R := Oracle.source) 72 4 "severe"
           (7.25, 50, 65, 8)); [discriminate | split; discriminate | reflexivity].
Defined.

(** Twenty minutes on a five-minute grid. *)
Lemma vitals_share_one_time_grid_witness :
  exists tps,
    time_grid 20 5 tps /\
    returns (R := Oracle.source)
            (simulate_rectal_temperature 37 33 (1 # 5) 0 20 5) (on_grid tps) /\
    returns (R := Oracle.source)
            (generate_heart_rate_data (N := Oracle.numerics) 140 20 5 (1 # 2))
            (on_grid tps) /\
    returns (R := Oracle.source)
            (generate_blood_pressure_data (N := Oracle.numerics) 60 40 20 5)
            (fun r => on_grid tps (fst r) /\
                      List.length (snd r) = List.length tps) /\
    returns (R := Oracle.source)
            (generate_oxygen_saturation_data 97 20 5 false) (on_grid tps).
Proof.
  apply (vitals_share_one_time_grid (R := Oracle.source) (N := Oracle.numerics)
           37 33 (1 # 5) 0 140 (1 # 2) 60 40 97 false 20 5);
    [reflexivity | discriminate | vm_compute; discriminate
    | vm_compute; discriminate].
Defined.

(* ------------------------------------------------------------------ *)
(** ** The samples of an EEG recording *)

(** One sample of the three band powers: all three from the ictal ranges
    or all three from the normal ranges. *)
Definition ictal_sample (d t a : Q) : Prop :=
  within 50 150 d /\ within 100 250 t /\ within 200 400 a.

Definition normal_sample (d t a : Q) : Prop :=
  within 10 40 d /\ within 5 20 t /\ within 2 10 a.

(** What [generate_eeg_data] returned, sample by sample. *)
Definition eeg_samples (r : list Z * list Q * list Q * list Q)
    (P : nat -> Z -> Q -> Q -> Q -> Prop) : Prop :=
  let '(tps, ds, ts, als) := r in
  List.length ds = List.length tps /\
  List.length ts = List.length tps /\
  List.length als = List.length tps /\
  forall i, (i < List.length tps)%nat ->
            P i (nth i tps 0%Z) (nth i ds 0) (nth i ts 0) (nth i als 0).

Section EegRecording.
Context {R : RandomSource}.

(** A property of every row of the trace is a property of every sample
    of the recording. *)
Lemma eeg_data_of_trace dur step p start
    (T : list Z * list eeg_row -> Prop) (P : nat -> Z -> Q -> Q -> Q -> Prop) :
  returns (eeg_trace dur step p start) T ->
  (forall tps rows, T (tps, rows) ->
     List.length rows = List.length tps /\
     forall i d, (i < List.length tps)%nat ->
       P i (nth i tps 0%Z) (delta_power (nth i rows d))
         (theta_power (nth i rows d)) (alpha_power (nth i rows d))) ->
  returns (generate_eeg_data dur step p start) (fun r => eeg_samples r P).
Proof.
  intros Htrace HT. unfold generate_eeg_data.
  eapply returns_bind; [exact Htrace |].
  intros [tps rows] Hrows. apply returns_ret.
  destruct (HT tps rows Hrows) as [Hlen HP].
  unfold eeg_samples. rewrite !length_map.
  repeat (split; [exact Hlen |]).
  intros i Hi. set (d := mkEegRow false (mkEeg None false) 0 0 0).
  change 0 with (delta_power d) at 1. rewrite map_nth.
  change 0 with (theta_power d) at 1. rewrite map_nth.
  change 0 with (alpha_power d) at 1. rewrite map_nth.
  apply HP, Hi.
Qed.

(** The trace, row by row: each row is one [eeg_iteration] from the
    variables the row before left. *)
Lemma eeg_trace_rows dur step p start :
  step <> 0%Z ->
  returns (eeg_trace dur step p start)
    (fun r =>
       fst r = np_arange (dur * 60) step /\
       List.length (snd r) = List.length (fst r) /\
       forall i d, (i < List.length (fst r))%nat ->
         let before := eeg_before (mkEeg start false) (snd r) d i in
         let row := nth i (snd r) d in
         (seizure_start_minute before <> None -> onset_triggered row = false) /\
         eeg_after row = eeg_next before (nth i (fst r) 0%Z) (onset_triggered row) /\
         (if seizure_active (eeg_after row)
          then ictal_bands row else normal_bands row)).
Proof.
  intros Hstep w. unfold eeg_trace.
  destruct (Z.eqb_spec step 0) as [E | _]; [contradiction |].
  destruct (for_state_total (eeg_iteration dur p) (np_arange (dur * 60) step)
              (eeg_iteration_total dur p) (mkEeg start false) w)
    as ([rows final] & w' & Hloop).
  exists (np_arange (dur * 60) step, rows), w'.
  rewrite (bind_returns _ _ _ _ _ Hloop). split; [reflexivity |].
  cbn [fst snd]. split; [reflexivity |].
  split.
  { apply (eeg_loop_rows _ _ _ _ _ _ _ _
             (mkEegRow false (mkEeg None false) 0 0 0) Hloop). }
  intros i d Hi.
  destruct (eeg_loop_rows _ _ _ _ _ _ _ _ d Hloop) as [_ Hrows].
  destruct (Hrows i Hi) as (wi & wi' & Hit).
  destruct (eeg_iteration_spec _ _ _ _ _ _ _ _ Hit) as (_ & Hons & Hnext & Hb).
  cbv zeta. repeat split; assumption.
Qed.

(** X10: for a non-zero time step [generate_eeg_data] returns the time
    points of [np.arange(0, duration_minutes * 60, time_step)] with one
    delta, theta and alpha power per time point, and at every sample the
    three powers come together from the ictal ranges or together from the
    normal ranges. *)
Theorem eeg_samples_ictal_or_normal (dur step : Z) (p : Q) (start : option float) :
  step <> 0%Z ->
  returns (generate_eeg_data dur step p start)
    (fun r => fst (fst (fst r)) = np_arange (dur * 60) step /\
              eeg_samples r (fun _ _ d t a =>
                               ictal_sample d t a \/ normal_sample d t a)).
Proof.
  intros Hstep.
  assert (Hgrid : returns (generate_eeg_data dur step p start)
                    (fun r => fst (fst (fst r)) = np_arange (dur * 60) step)).
  { unfold generate_eeg_data.
    eapply returns_bind; [apply eeg_trace_rows, Hstep |].
    intros [tps rows] (Htps & _). apply returns_ret. exact Htps. }
  pose proof (eeg_data_of_trace dur step p start _
                (fun _ _ d t a => ictal_sample d t a \/ normal_sample d t a)
                (eeg_trace_rows dur step p start Hstep)) as Hs.
  intros w. destruct (Hgrid w) as (r & w' & Hrun & Hg).
  destruct (Hs ltac:(
    intros tps rows (_ & Hlen & Hrows); cbn [fst snd] in *;
    split; [exact Hlen |]; intros i d Hi;
    destruct (Hrows i d Hi) as (_ & _ & Hb);
    destruct (seizure_active _); [left | right]; exact Hb) w)
    as (r' & w'' & Hrun' & Hs').
  rewrite Hrun in Hrun'. injection Hrun' as <- <-.
  exists r, w'. auto.
Qed.

(** X11: a seizure scheduled through [seizure_start_minute = m] does not
    wait for minute [m]: every sample up to which the window test
    [current_minute < m + 2] has held has ictal band powers, from the
    first sample on. *)
Theorem scheduled_seizure_is_active_from_the_start
    (dur step : Z) (p : Q) (m : float) :
  step <> 0%Z ->
  returns (generate_eeg_data dur step p (Some m))
    (fun r =>
       eeg_samples r (fun i _ d t a =>
         (forall j, (j <= i)%nat ->
            in_seizure_window
              (current_minute_of (nth j (np_arange (dur * 60) step) 0%Z)) m
            = true) ->
         ictal_sample d t a)).
Proof.
  intros Hstep.
  apply (eeg_data_of_trace dur step p (Some m) _ _
           (eeg_trace_rows dur step p (Some m) Hstep)).
  intros tps rows (Htps & Hlen & Hrows). cbn [fst snd] in *. subst tps.
  split; [exact Hlen |]. intros i d Hi Hwin.
  assert (Hstate : forall k, (k <= i)%nat ->
            eeg_after (nth k rows d) = mkEeg (Some m) true).
  { induction k as [| k IH]; intros Hk.
    - destruct (Hrows 0%nat d ltac:(lia)) as (Hons & Hnext & _).
      cbn [eeg_before seizure_start_minute] in Hons, Hnext.
      rewrite Hons in Hnext by discriminate.
      rewrite Hnext. unfold eeg_next. cbn [seizure_start_minute].
      rewrite (Hwin 0%nat ltac:(lia)). reflexivity.
    - specialize (IH ltac:(lia)).
      destruct (Hrows (S k) d ltac:(lia)) as (Hons & Hnext & _).
      cbn [eeg_before] in Hons, Hnext. rewrite IH in Hons, Hnext.
      cbn [seizure_start_minute] in Hons.
      rewrite Hons in Hnext by discriminate.
      rewrite Hnext. unfold eeg_next. cbn [seizure_start_minute].
      rewrite (Hwin (S k) Hk). reflexivity. }
  destruct (Hrows i d Hi) as (_ & _ & Hb).
  rewrite (Hstate i (Nat.le_refl i)) in Hb. exact Hb.
Qed.

End EegRecording.

(** A one-minute recording. *)
Lemma eeg_samples_ictal_or_normal_witness :
  returns (R := Oracle.source) (generate_eeg_data 1 1 (1 # 5) None)
    (fun r => fst (fst (fst r)) = np_arange (1 * 60) 1 /\
              eeg_samples r (fun _ _ d t a =>
                               ictal_sample d t a \/ normal_sample d t a)).
Proof.
  apply (eeg_samples_ictal_or_normal (R := Oracle.source) 1 1 (1 # 5) None).
  discriminate.
Defined.

(** A seizure scheduled for minute 10 of a one-minute recording. *)
Lemma scheduled_seizure_is_active_from_the_start_witness :
  returns (R := Oracle.source) (generate_eeg_data 1 1 (1 # 5) (Some 10%float))
    (fun r =>
       eeg_samples r (fun i _ d t a =>
         (forall j, (j <= i)%nat ->
            in_seizure_window
              (current_minute_of (nth j (np_arange (1 * 60) 1) 0%Z)) 10%float
            = true) ->
         ictal_sample d t a)).
Proof.
  apply (scheduled_seizure_is_active_from_the_start (R := Oracle.source)
           1 1 (1 # 5) 10%float).
  discriminate.
Defined.

(* ------------------------------------------------------------------ *)
(** ** Batches of any size *)

(** One patient's block of a batch: the frame has the dataset's columns,
    [n] rows, and [pid] in every row of [patient_id]. *)
Definition patient_block (pid : string) (n : nat) (df : DataFrame) : Prop :=
  columns df = dataset_columns /\ rows_of n df /\
  get_column df "patient_id" = Ok (repeat (CStr pid) n).

Lemma mem_string_in (x : string) (l : list string) :
  mem_string x l = true <-> In x l.
Proof.
  unfold mem_string. rewrite existsb_exists. split.
  - intros (y & Hy & E). apply String.eqb_eq in E. subst. exact Hy.
  - intros H. exists x. split; [exact H | apply String.eqb_refl].
Qed.

Lemma union_names_seen (seen names : list string) :
  (forall n, In n names -> In n seen) -> union_names seen names = seen.
Proof.
  induction names as [| n names IH]; intros Hin; [reflexivity |].
  cbn [union_names].
  rewrite (proj2 (mem_string_in n seen)) by (apply Hin; left; reflexivity).
  apply IH. intros x Hx. apply Hin. right. exact Hx.
Qed.

Lemma union_names_app (seen a b : list string) :
  union_names seen (a ++ b) = union_names (union_names seen a) b.
Proof.
  revert seen. induction a as [| n a IH]; intros seen; [reflexivity |].
  cbn [app union_names]. destruct (mem_string n seen); apply IH.
Qed.

Lemma union_names_same_columns (df : DataFrame) (dfs : list DataFrame) :
  Forall (fun d => columns d = dataset_columns) (df :: dfs) ->
  union_names [] (flat_map columns (df :: dfs)) = dataset_columns.
Proof.
  intros H. pose proof (Forall_inv H) as Hdf.
  pose proof (Forall_inv_tail H) as Hrest.
  cbn [flat_map]. rewrite union_names_app, Hdf.
  replace (union_names [] dataset_columns) with dataset_columns
    by (vm_compute; reflexivity).
  apply union_names_seen. intros n Hn.
  apply in_flat_map in Hn as (d & Hd & Hn).
  rewrite Forall_forall in Hrest. rewrite (Hrest d Hd) in Hn. exact Hn.
Qed.

Lemma stacked_rows (n : nat) (dfs : list DataFrame) (name : string) :
  Forall (fun d => columns d = dataset_columns /\ rows_of n d) dfs ->
  In name dataset_columns ->
  List.length (stacked dfs name) = (List.length dfs * n)%nat.
Proof.
  intros H Hname. unfold stacked.
  induction dfs as [| d dfs IH]; [reflexivity |].
  pose proof (Forall_inv H) as [Hc Hr]. cbn [flat_map List.length].
  rewrite length_app, (IH (Forall_inv_tail H)).
  destruct (get_column_in d name ltac:(rewrite Hc; exact Hname)) as (c & E).
  rewrite E, (rows_of_get _ _ _ _ Hr E). lia.
Qed.

Section Batch.
Context {R : RandomSource} {N : Numerics}.

Lemma patient_dataset_block pid hours :
  (0 <= hours)%Z -> (hours mod 4 = 0)%Z ->
  returns (generate_complete_patient_dataset pid hours 5)
          (patient_block pid (arange_len (hours * 60) 5)).
Proof.
  intros Hh Hm w.
  destruct (patient_dataset_returns pid hours 5 ltac:(discriminate) Hh Hm w)
    as (df & w' & Hrun).
  exists df, w'. split; [exact Hrun |].
  destruct (patient_dataset_shape pid hours 5 w df w' Hrun)
    as (b & target & temps & hrs & sys & dia & sats & abg & Hpid & _ & _ & _
        & _ & _ & _ & _ & ->).
  split; [apply patient_table_columns |]. split.
  - pose proof (patient_table_rows b target (np_arange (hours * 60) 5) temps hrs
                  sys dia sats (np_arange hours 4) abg) as Hrows.
    rewrite join_idx_length, np_arange_length in Hrows. exact Hrows.
  - rewrite patient_table_patient_id, np_arange_length, Hpid. reflexivity.
Qed.

(** X12: the outcomes of [generate_batch_dataset].  Without patients
    [pd.concat] raises [ValueError]; with patients, a negative duration
    and a duration that is not a multiple of four hours raise the
    [ValueError] of the first patient's dataset; otherwise the batch has
    the dataset's columns and [12 * duration_hours] rows per patient, the
    rows of patient [i] in one block labelled [PATIENT_] followed by
    [i + 1] on four digits. *)
Theorem batch_dataset_outcomes (num_patients hours : Z) :
  ((num_patients <= 0)%Z ->
   raises (generate_batch_dataset num_patients hours)
          (ValueError "No objects to concatenate")) /\
  ((0 < num_patients)%Z -> (hours < 0)%Z ->
   raises (generate_batch_dataset num_patients hours)
          (ValueError "negative dimensions are not allowed")) /\
  ((0 < num_patients)%Z -> (0 <= hours)%Z -> (hours mod 4 <> 0)%Z ->
   raises (generate_batch_dataset num_patients hours)
          (ValueError "All arrays must be of the same length")) /\
  ((0 < num_patients)%Z -> (0 <= hours)%Z -> (hours mod 4 = 0)%Z ->
   returns (generate_batch_dataset num_patients hours)
     (fun df =>
        let n := Z.to_nat num_patients in
        let m := Z.to_nat (12 * hours) in
        columns df = dataset_columns /\
        rows_of (n * m) df /\
        get_column df "patient_id"
        = Ok (flat_map (fun i => repeat (CStr (batch_patient_id i)) m)
                       (seq 0 n)))).
Proof.
  assert (Hfirst : forall e, (0 < num_patients)%Z ->
            (forall w, generate_complete_patient_dataset (batch_patient_id 0) hours 5 w
                       = Raise e) ->
            raises (generate_batch_dataset num_patients hours) e).
  { intros e Hn He. unfold generate_batch_dataset.
    destruct (Z.to_nat num_patients) as [| n] eqn:En; [lia |].
    cbn [seq for_each]. do 2 apply raises_bind_first. exact He. }
  split; [| split; [| split]].
  - intros Hn w. unfold generate_batch_dataset.
    replace (Z.to_nat num_patients) with 0%nat by lia. reflexivity.
  - intros Hn Hh. apply (Hfirst _ Hn). intros w.
    apply pipeline_negative_hours; [discriminate | exact Hh].
  - intros Hn Hh Hm. apply (Hfirst _ Hn). intros w.
    apply pipeline_ragged_blood_gas; [discriminate | exact Hh | exact Hm].
  - intros Hn Hh Hm. cbv zeta.
    assert (Hlen : arange_len (hours * 60) 5 = Z.to_nat (12 * hours)).
    { unfold arange_len. f_equal.
      replace (- (hours * 60))%Z with ((- (12 * hours)) * 5)%Z by lia.
      rewrite Z.div_mul by discriminate. lia. }
    unfold generate_batch_dataset.
    eapply returns_bind.
    { apply (returns_for_each_post _
               (fun i df => patient_block (batch_patient_id i)
                              (Z.to_nat (12 * hours)) df)).
      intros i. rewrite <- Hlen. apply patient_dataset_block; assumption. }
    intros dfs Hdfs.
    set (m := Z.to_nat (12 * hours)) in *.
    assert (Hall : Forall (fun d => columns d = dataset_columns /\ rows_of m d) dfs).
    { clear -Hdfs. induction Hdfs as [| i d l l' (Hc & Hr & _) _ IH];
        constructor; auto. }
    assert (Hn' : List.length dfs = Z.to_nat num_patients).
    { apply Forall2_length in Hdfs. rewrite length_seq in Hdfs. auto. }
    destruct dfs as [| df dfs]; [cbn in Hn'; lia |].
    assert (Hcat : pd_concat (df :: dfs)
                   = Ok (map (fun n => (n, stacked (df :: dfs) n)) dataset_columns)).
    { unfold pd_concat. rewrite union_names_same_columns; [reflexivity |].
      eapply Forall_impl; [| exact Hall]. intros d [Hc _]. exact Hc. }
    eapply returns_lift; [exact Hcat |].
    split; [unfold columns; rewrite map_map; apply map_id |].
    split.
    { unfold rows_of. apply Forall_map, Forall_forall. intros n Hin. cbn [snd].
      rewrite (stacked_rows m _ _ Hall Hin), Hn'. reflexivity. }
    change (get_column (map (fun n => (n, stacked (df :: dfs) n)) dataset_columns)
              "patient_id")
      with (Ok (A := column) (stacked (df :: dfs) "patient_id")).
    f_equal. unfold stacked. clear -Hdfs.
    generalize dependent (seq 0 (Z.to_nat num_patients)). intros l Hdfs.
    induction Hdfs as [| i d l l' (_ & _ & Hp) _ IH]; [reflexivity |].
    cbn [flat_map]. rewrite Hp, IH. reflexivity.
Qed.

End Batch.

(* ------------------------------------------------------------------ *)
(** ** Clinical labels ([utils/feature_engineering.py]) *)

(** What a call on a frame can raise besides the exceptions of the
    generator: the comparison of a string with a number is a
    [TypeError]. *)
Inductive py_error : Type :=
| Builtin (e : exn)
| TypeError (msg : string).

Inductive attempt (A : Type) : Type :=
| Done (a : A)
| Failed (e : py_error).
Arguments Done {A} a.
Arguments Failed {A} e.

Definition attempt_bind {A B} (r : attempt A) (k : A -> attempt B) : attempt B :=
  match r with
  | Done a => k a
  | Failed e => Failed e
  end.

Definition of_result {A} (r : result A) : attempt A :=
  match r with
  | Ok a => Done a
  | Raise e => Failed (Builtin e)
  end.

Fixpoint attempt_map {A B} (f : A -> attempt B) (l : list A) : attempt (list B) :=
  match l with
  | [] => Done []
  | x :: rest =>
      attempt_bind (f x) (fun y =>
      attempt_bind (attempt_map f rest) (fun ys => Done (y :: ys)))
  end.

Declare Scope attempt_scope.
Delimit Scope attempt_scope with attempt.
Notation "x <~ c ;; k" := (attempt_bind c (fun x => k))
  (at level 61, c at next level, right associativity) : attempt_scope.

Definition compare_message (op : string) : string :=
  ("'" ++ op ++ "' not supported between instances of 'str' and 'float'")%string.

(** [q < x] and [q > x] on floats. *)
Definition float_lt (q x : Q) : bool := negb (Qle_bool x q).
Definition float_gt (q x : Q) : bool := negb (Qle_bool q x).

(** One cell compared with a float: NaN compares false, an integer is
    converted, a string is a [TypeError]. *)
Definition compare_cell (op : string) (test : Q -> Q -> bool) (x : Q) (c : cell)
    : attempt bool :=
  match c with
  | CNum q => Done (test q x)
  | CInt z => Done (test (inject_Z z) x)
  | CNaN => Done false
  | CStr _ => Failed (TypeError (compare_message op))
  end.

(** [series < x] and [series > x] *)
Definition series_lt (c : column) (x : Q) : attempt (list bool) :=
  attempt_map (compare_cell "<" float_lt x) c.

Definition series_gt (c : column) (x : Q) : attempt (list bool) :=
  attempt_map (compare_cell ">" float_gt x) c.

(** [a | b] and [a & b] on boolean series of one index. *)
Definition series_or (a b : list bool) : list bool :=
  map (fun p => orb (fst p) (snd p)) (combine a b).

Definition series_and (a b : list bool) : list bool :=
  map (fun p => andb (fst p) (snd p)) (combine a b).

(** [series.astype(int)] on booleans. *)
Definition astype_int (l : list bool) : column :=
  map (fun b : bool => CInt (if b then 1 else 0)) l.

(** [df[name] = flags.astype(int)] *)
Definition set_flags (df : DataFrame) (name : string) (flags : list bool)
    : attempt DataFrame :=
  of_result (set_column df name (Values (astype_int flags))).

(** [df[name] < x], [df[name] > x] *)
Definition column_lt (df : DataFrame) (name : string) (x : Q) : attempt (list bool) :=
  attempt_bind (of_result (get_column df name)) (fun c => series_lt c x).

Definition column_gt (df : DataFrame) (name : string) (x : Q) : attempt (list bool) :=
  attempt_bind (of_result (get_column df name)) (fun c => series_gt c x).

Local Open Scope attempt_scope.

(** [add_clinical_labels] *)
Definition add_clinical_labels (df : DataFrame) (target_temp_low target_temp_high : Q)
    : attempt DataFrame :=
  under <~ column_lt df "rectal_temp" (target_temp_low - 0.5) ;;
  df1 <~ set_flags df "temp_undershoot_risk" under ;;
  over <~ column_gt df1 "rectal_temp" (target_temp_high + 0.5) ;;
  df2 <~ set_flags df1 "temp_overshoot_risk" over ;;
  lactate_high <~ column_gt df2 "lactate" 4.0 ;;
  ph_low <~ column_lt df2 "ph" 7.30 ;;
  hrv_high <~ (if has_column df2 "hrv_proxy"
               then column_gt df2 "hrv_proxy" 25.0
               else Done (repeat false (nrows df2))) ;;
  let seizure_cond := series_or (series_or lactate_high ph_low) hrv_high in
  df3 <~ set_flags df2 "seizure_risk_high" seizure_cond ;;
  map_low <~ column_lt df3 "map_mmHg" 35.0 ;;
  pp_low <~ column_lt df3 "pulse_pressure" 20.0 ;;
  df4 <~ set_flags df3 "cardiac_distress_flag" (series_and map_low pp_low) ;;
  map_low' <~ column_lt df4 "map_mmHg" 35.0 ;;
  spo2_low <~ column_lt df4 "spo2" 92.0 ;;
  ph_low' <~ column_lt df4 "ph" 7.30 ;;
  let renal_cond := series_and (series_and map_low' spo2_low) ph_low' in
  df5 <~ set_flags df4 "renal_dysfunction_risk" renal_cond ;;
  Done df5.

(** The five label columns, in the order they are written. *)
Definition label_columns : list string :=
  [ "temp_undershoot_risk"; "temp_overshoot_risk"; "seizure_risk_high";
    "cardiac_distress_flag"; "renal_dysfunction_risk" ]%string.

(** A cell read as a number, where it is one. *)
Definition cell_number (c : cell) : option Q :=
  match c with
  | CNum q => Some q
  | CInt z => Some (inject_Z z)
  | _ => None
  end.

(** The value in row [r] of column [name] is a number below, respectively
    above, [x]. *)
Definition below (df : DataFrame) (name : string) (r : nat) (x : Q) : Prop :=
  exists q, cell_number (cell_at df name r) = Some q /\ q < x.

Definition above (df : DataFrame) (name : string) (r : nat) (x : Q) : Prop :=
  exists q, cell_number (cell_at df name r) = Some q /\ x < q.

(** The flag in row [r] of a label column is set. *)
Definition flagged (df : DataFrame) (name : string) (r : nat) : Prop :=
  cell_at df name r = CInt 1.

(** Every cell of a label column is 0 or 1. *)
Definition is_flag_column (df : DataFrame) (name : string) : Prop :=
  exists flags, get_column df name = Ok (astype_int flags) /\
                List.length flags = nrows df.

Lemma attempt_map_done {A B} (f : A -> attempt B) (l : list A) (bs : list B) :
  attempt_map f l = Done bs -> Forall2 (fun x b => f x = Done b) l bs.
Proof.
  revert bs. induction l as [| x l IH]; intros bs H; cbn [attempt_map] in H.
  - injection H as <-. constructor.
  - destruct (f x) as [y | e] eqn:Ey; [| discriminate]. cbn [attempt_bind] in H.
    destruct (attempt_map f l) as [ys | e]; [| discriminate].
    cbn [attempt_bind] in H. injection H as <-.
    constructor; [exact Ey | apply IH; reflexivity].
Qed.

Lemma Forall2_nth_default {A B} (P : A -> B -> Prop) (l : list A) (bs : list B)
    (da : A) (db : B) :
  Forall2 P l bs -> P da db -> forall r, P (nth r l da) (nth r bs db).
Proof.
  intros H Hd. induction H as [| x b l bs Hxb _ IH]; intros r.
  - destruct r; exact Hd.
  - destruct r as [| r]; [exact Hxb | apply IH].
Qed.

Lemma float_lt_iff (q x : Q) : float_lt q x = true <-> q < x.
Proof.
  unfold float_lt. rewrite negb_true_iff. split.
  - intros H. apply Qnot_le_lt. intros Hle.
    apply Qle_bool_iff in Hle. congruence.
  - intros H. destruct (Qle_bool x q) eqn:E; [| reflexivity].
    apply Qle_bool_iff in E. apply Qle_not_lt in E. contradiction.
Qed.

Lemma float_gt_iff (q x : Q) : float_gt q x = true <-> x < q.
Proof. unfold float_gt. apply (float_lt_iff x q). Qed.

(** A comparison that returned: flag by flag, the cell is a number and
    the test holds of it. *)
Lemma compare_cell_done op test x c b :
  compare_cell op test x c = Done b ->
  (b = true <-> exists q, cell_number c = Some q /\ test q x = true).
Proof.
  destruct c as [s | z | q |]; cbn [compare_cell cell_number]; intros H;
    [discriminate | | |]; injection H as <-.
  - split; [intros H; eexists; split; [reflexivity | exact H] |].
    intros (q & Hq & Ht). injection Hq as <-. exact Ht.
  - split; [intros H; eexists; split; [reflexivity | exact H] |].
    intros (q' & Hq & Ht). injection Hq as <-. exact Ht.
  - split; [discriminate | intros (q & Hq & _); discriminate].
Qed.

Lemma series_compare_nth op test x (c : column) (bs : list bool) :
  attempt_map (compare_cell op test x) c = Done bs ->
  List.length bs = List.length c /\
  forall r, nth r bs false = true <->
            exists q, cell_number (nth r c CNaN) = Some q /\ test q x = true.
Proof.
  intros H. apply attempt_map_done in H. split.
  - symmetry. eapply Forall2_length, H.
  - intros r. apply compare_cell_done with (op := op).
    apply (Forall2_nth_default _ _ _ CNaN false H). reflexivity.
Qed.

Lemma column_lt_done df name x bs :
  column_lt df name x = Done bs ->
  exists c, get_column df name = Ok c /\ List.length bs = List.length c /\
            forall r, nth r bs false = true <-> below df name r x.
Proof.
  unfold column_lt, below, cell_at. intros H.
  destruct (get_column df name) as [c | e]; [| discriminate].
  cbn [of_result attempt_bind] in H.
  destruct (series_compare_nth _ _ _ _ _ H) as [Hlen Hnth].
  exists c. split; [reflexivity |]. split; [exact Hlen |].
  intros r. rewrite Hnth. split; intros (q & Hq & Ht); exists q;
    (split; [exact Hq |]); apply float_lt_iff; exact Ht.
Qed.

Lemma column_gt_done df name x bs :
  column_gt df name x = Done bs ->
  exists c, get_column df name = Ok c /\ List.length bs = List.length c /\
            forall r, nth r bs false = true <-> above df name r x.
Proof.
  unfold column_gt, above, cell_at. intros H.
  destruct (get_column df name) as [c | e]; [| discriminate].
  cbn [of_result attempt_bind] in H.
  destruct (series_compare_nth _ _ _ _ _ H) as [Hlen Hnth].
  exists c. split; [reflexivity |]. split; [exact Hlen |].
  intros r. rewrite Hnth. split; intros (q & Hq & Ht); exists q;
    (split; [exact Hq |]); apply float_gt_iff; exact Ht.
Qed.

(** Reading a frame after a column was replaced or appended. *)
Lemma get_replace_column df name c other :
  get_column (replace_column df name c) other
  = if String.eqb name other
    then (if has_column df name then Ok c else get_column df other)
    else get_column df other.
Proof.
  unfold get_column, has_column, columns.
  induction df as [| [k v] df IH]; cbn [replace_column dict_get map existsb fst].
  - destruct (String.eqb name other); reflexivity.
  - destruct (String.eqb_spec k name) as [-> | Hk].
    + cbn [dict_get]. rewrite String.eqb_refl. cbn [orb].
      destruct (String.eqb name other); reflexivity.
    + cbn [dict_get].
      assert (Hnk : String.eqb name k = false)
        by (apply String.eqb_neq; congruence).
      rewrite Hnk. cbn [orb].
      destruct (String.eqb_spec k other) as [-> | Hko].
      * rewrite Hnk. reflexivity.
      * exact IH.
Qed.

Lemma get_append_column df name c other :
  has_column df name = false ->
  get_column (df ++ [(name, c)]) other
  = if String.eqb name other then Ok c else get_column df other.
Proof.
  unfold get_column, has_column, columns.
  induction df as [| [k v] df IH]; cbn [app dict_get map existsb fst]; intros H.
  - destruct (String.eqb name other); reflexivity.
  - apply orb_false_iff in H as [Hnk H].
    destruct (String.eqb_spec k other) as [-> | Hko].
    + rewrite Hnk. reflexivity.
    + apply IH, H.
Qed.

Lemma nrows_replace_column df name c :
  List.length c = nrows df -> nrows (replace_column df name c) = nrows df.
Proof.
  destruct df as [| [k v] df]; [reflexivity |]. cbn [replace_column nrows].
  intros H. destruct (String.eqb k name); [exact H | reflexivity].
Qed.

Lemma set_flags_done df name flags df' :
  set_flags df name flags = Done df' ->
  List.length flags = nrows df /\
  nrows df' = nrows df /\
  get_column df' name = Ok (astype_int flags) /\
  (forall other, other <> name -> get_column df' other = get_column df other) /\
  (forall other, other <> name -> has_column df' other = has_column df other).
Proof.
  unfold set_flags, set_column. intros H.
  destruct (Nat.eqb_spec (List.length (astype_int flags)) (nrows df)) as [E | _];
    [| discriminate].
  cbn [negb of_result] in H. injection H as <-.
  assert (Hlen : List.length flags = nrows df)
    by (unfold astype_int in E; rewrite length_map in E; exact E).
  assert (Hget : forall other,
            get_column (if has_column df name
                        then replace_column df name (astype_int flags)
                        else df ++ [(name, astype_int flags)]) other
            = if String.eqb name other then Ok (astype_int flags)
              else get_column df other).
  { intros other. destruct (has_column df name) eqn:Hhas.
    - rewrite get_replace_column, Hhas. reflexivity.
    - apply get_append_column, Hhas. }
  split; [exact Hlen |]. split.
  { destruct (has_column df name); [apply nrows_replace_column, E |].
    destruct df as [| [k v] df]; [cbn in *; exact E | reflexivity]. }
  split; [rewrite Hget, String.eqb_refl; reflexivity |].
  assert (Hother : forall other, other <> name ->
            get_column (if has_column df name
                        then replace_column df name (astype_int flags)
                        else df ++ [(name, astype_int flags)]) other
            = get_column df other).
  { intros other Hne. rewrite Hget.
    destruct (String.eqb_spec name other); [congruence | reflexivity]. }
  split; [exact Hother |].
  intros other Hne.
  assert (Hhas : forall d, has_column d other = true <->
                           exists c, get_column d other = Ok c).
  { intros d. unfold has_column, get_column, columns.
    induction d as [| [k v] d IHd]; cbn [map existsb dict_get fst].
    - split; [discriminate | intros (c & Hc); discriminate].
    - rewrite String.eqb_sym.
      destruct (String.eqb k other); cbn [orb]; [| exact IHd].
      split; [intros _; eexists; reflexivity | reflexivity]. }
  apply eq_true_iff_eq. rewrite !Hhas, Hother by exact Hne. reflexivity.
Qed.

Lemma nth_map_in {A B} (f : A -> B) (l : list A) (r : nat) (d : B) (d' : A) :
  (r < List.length l)%nat -> nth r (map f l) d = f (nth r l d').
Proof.
  revert r. induction l as [| x l IH]; intros r Hr; [cbn in Hr; lia |].
  destruct r as [| r]; [reflexivity |]. cbn [map nth]. apply IH. cbn in Hr. lia.
Qed.

Lemma flagged_nth df name flags r :
  get_column df name = Ok (astype_int flags) ->
  (flagged df name r <-> nth r flags false = true).
Proof.
  intros H. unfold flagged, cell_at. rewrite H. unfold astype_int.
  destruct (Nat.lt_ge_cases r (List.length flags)) as [Hr | Hr].
  - rewrite (nth_map_in _ _ _ _ false Hr).
    destruct (nth r flags false); split; intros E; try reflexivity;
      discriminate.
  - rewrite !nth_overflow by (rewrite ?length_map; exact Hr).
    split; discriminate.
Qed.

Lemma nth_combine_lt {A B} (a : list A) (b : list B) (r : nat) (da : A) (db : B) :
  (r < List.length a)%nat -> (r < List.length b)%nat ->
  nth r (combine a b) (da, db) = (nth r a da, nth r b db).
Proof.
  revert b r. induction a as [| x a IH]; intros b r Ha Hb; [cbn in Ha; lia |].
  destruct b as [| y b]; [cbn in Hb; lia |].
  destruct r as [| r]; [reflexivity |]. cbn [combine nth].
  apply IH; cbn in Ha, Hb; lia.
Qed.

Lemma series_or_nth (a b : list bool) r :
  (r < List.length a)%nat -> (r < List.length b)%nat ->
  nth r (series_or a b) false = orb (nth r a false) (nth r b false).
Proof.
  intros Ha Hb. unfold series_or.
  rewrite (nth_map_in _ _ _ _ (false, false))
    by (rewrite length_combine; lia).
  rewrite nth_combine_lt by assumption. reflexivity.
Qed.

Lemma series_and_nth (a b : list bool) r :
  (r < List.length a)%nat -> (r < List.length b)%nat ->
  nth r (series_and a b) false = andb (nth r a false) (nth r b false).
Proof.
  intros Ha Hb. unfold series_and.
  rewrite (nth_map_in _ _ _ _ (false, false))
    by (rewrite length_combine; lia).
  rewrite nth_combine_lt by assumption. reflexivity.
Qed.

Lemma series_or_length (a b : list bool) :
  List.length (series_or a b) = Nat.min (List.length a) (List.length b).
Proof. unfold series_or. rewrite length_map. apply length_combine. Qed.

Lemma series_and_length (a b : list bool) :
  List.length (series_and a b) = Nat.min (List.length a) (List.length b).
Proof. unfold series_and. rewrite length_map. apply length_combine. Qed.

Lemma get_column_missing (df : DataFrame) (name : string) :
  ~ In name (columns df) -> get_column df name = Raise (KeyError name).
Proof.
  unfold get_column, columns.
  induction df as [| [k v] df IH]; cbn [map dict_get fst]; intros Hin;
    [reflexivity |].
  destruct (String.eqb_spec k name) as [E | _];
    [exfalso; apply Hin; left; exact E |].
  apply IH. intros H. apply Hin. right. exact H.
Qed.

Lemma has_column_get (df : DataFrame) (name : string) :
  has_column df name = true <-> exists c, get_column df name = Ok c.
Proof.
  unfold has_column, get_column, columns.
  induction df as [| [k v] df IH]; cbn [map existsb dict_get fst].
  - split; [discriminate | intros (c & Hc); discriminate].
  - rewrite String.eqb_sym.
    destruct (String.eqb k name); cbn [orb]; [| exact IH].
    split; [intros _; eexists; reflexivity | reflexivity].
Qed.

Lemma below_ext d1 d2 name r x :
  get_column d1 name = get_column d2 name ->
  (below d1 name r x <-> below d2 name r x).
Proof. unfold below, cell_at. intros ->. reflexivity. Qed.

Lemma above_ext d1 d2 name r x :
  get_column d1 name = get_column d2 name ->
  (above d1 name r x <-> above d2 name r x).
Proof. unfold above, cell_at. intros ->. reflexivity. Qed.

Lemma above_missing df name r x :
  has_column df name = false -> ~ above df name r x.
Proof.
  intros Hhas (q & Hq & _). unfold cell_at in Hq.
  destruct (get_column df name) as [c | e] eqn:E; [| discriminate].
  assert (H : has_column df name = true) by (apply has_column_get; eauto).
  congruence.
Qed.

(** The flags a run of [add_clinical_labels] computed and wrote, when it
    returned. *)
Record label_flags : Type := mkFlags {
  f_under : list bool;
  f_over : list bool;
  f_lactate : list bool;
  f_ph : list bool;
  f_hrv : list bool;
  f_map : list bool;
  f_pulse : list bool;
  f_map_again : list bool;
  f_spo2 : list bool;
  f_ph_again : list bool
}.

Definition seizure_flags (f : label_flags) : list bool :=
  series_or (series_or (f_lactate f) (f_ph f)) (f_hrv f).

Definition cardiac_flags (f : label_flags) : list bool :=
  series_and (f_map f) (f_pulse f).

Definition renal_flags (f : label_flags) : list bool :=
  series_and (series_and (f_map_again f) (f_spo2 f)) (f_ph_again f).

Definition written_flags (f : label_flags) : list (string * list bool) :=
  [ ("temp_undershoot_risk", f_under f);
    ("temp_overshoot_risk", f_over f);
    ("seizure_risk_high", seizure_flags f);
    ("cardiac_distress_flag", cardiac_flags f);
    ("renal_dysfunction_risk", renal_flags f) ]%string.

Ltac attempt_step H x E :=
  match type of H with
  | attempt_bind ?c _ = Done _ =>
      destruct c as [x | ?] eqn:E; [cbn [attempt_bind] in H | discriminate H]
  end.

Lemma add_clinical_labels_done df lo hi df' :
  add_clinical_labels df lo hi = Done df' ->
  exists f,
    (forall r, nth r (f_under f) false = true <-> below df "rectal_temp" r (lo - 0.5)) /\
    (forall r, nth r (f_over f) false = true <-> above df "rectal_temp" r (hi + 0.5)) /\
    (forall r, nth r (f_lactate f) false = true <-> above df "lactate" r 4.0) /\
    (forall r, nth r (f_ph f) false = true <-> below df "ph" r 7.30) /\
    (forall r, nth r (f_hrv f) false = true <-> above df "hrv_proxy" r 25.0) /\
    (forall r, nth r (f_map f) false = true <-> below df "map_mmHg" r 35.0) /\
    (forall r, nth r (f_pulse f) false = true <-> below df "pulse_pressure" r 20.0) /\
    (forall r, nth r (f_map_again f) false = true <-> below df "map_mmHg" r 35.0) /\
    (forall r, nth r (f_spo2 f) false = true <-> below df "spo2" r 92.0) /\
    (forall r, nth r (f_ph_again f) false = true <-> below df "ph" r 7.30) /\
    nrows df' = nrows df /\
    Forall (fun nf => get_column df' (fst nf) = Ok (astype_int (snd nf)) /\
                      List.length (snd nf) = nrows df) (written_flags f) /\
    (forall name, ~ In name label_columns ->
                  get_column df' name = get_column df name).
Proof.
  intros H. unfold add_clinical_labels in H.
  attempt_step H under E1. attempt_step H df1 S1.
  attempt_step H over E2. attempt_step H df2 S2.
  attempt_step H c1 E3. attempt_step H c2 E4. attempt_step H c3 E5.
  cbv zeta in H. attempt_step H df3 S3.
  attempt_step H m1 E6. attempt_step H m2 E7. attempt_step H df4 S4.
  attempt_step H r1 E8. attempt_step H r2 E9. attempt_step H r3 E10.
  attempt_step H df5 S5. injection H as <-.
  apply set_flags_done in S1 as (L1 & N1 & G1 & O1 & A1).
  apply set_flags_done in S2 as (L2 & N2 & G2 & O2 & A2).
  apply set_flags_done in S3 as (L3 & N3 & G3 & O3 & A3).
  apply set_flags_done in S4 as (L4 & N4 & G4 & O4 & A4).
  apply set_flags_done in S5 as (L5 & N5 & G5 & O5 & A5).
  apply column_lt_done in E1 as (x1 & _ & _ & B1).
  apply column_gt_done in E2 as (x2 & _ & _ & B2).
  apply column_gt_done in E3 as (x3 & _ & _ & B3).
  apply column_lt_done in E4 as (x4 & _ & _ & B4).
  apply column_lt_done in E6 as (x6 & _ & _ & B6).
  apply column_lt_done in E7 as (x7 & _ & _ & B7).
  apply column_lt_done in E8 as (x8 & _ & _ & B8).
  apply column_lt_done in E9 as (x9 & _ & _ & B9).
  apply column_lt_done in E10 as (x10 & _ & _ & B10).
  assert (D1 : forall name, ~ In name label_columns ->
                 get_column df1 name = get_column df name).
  { intros name Hn. apply O1. intros ->. apply Hn. cbn. auto. }
  assert (D2 : forall name, ~ In name label_columns ->
                 get_column df2 name = get_column df name).
  { intros name Hn. rewrite O2; [apply D1, Hn |].
    intros ->. apply Hn. cbn. auto 10. }
  assert (D3 : forall name, ~ In name label_columns ->
                 get_column df3 name = get_column df name).
  { intros name Hn. rewrite O3; [apply D2, Hn |].
    intros ->. apply Hn. cbn. auto 10. }
  assert (D4 : forall name, ~ In name label_columns ->
                 get_column df4 name = get_column df name).
  { intros name Hn. rewrite O4; [apply D3, Hn |].
    intros ->. apply Hn. cbn. auto 10. }
  assert (D5 : forall name, ~ In name label_columns ->
                 get_column df5 name = get_column df name).
  { intros name Hn. rewrite O5; [apply D4, Hn |].
    intros ->. apply Hn. cbn. auto 10. }
  assert (Hin : forall name, In name ["rectal_temp"; "lactate"; "ph"; "hrv_proxy";
                                      "map_mmHg"; "pulse_pressure"; "spo2"]%string ->
                             ~ In name label_columns).
  { intros name Hname Hl. cbn in Hname, Hl.
    repeat match goal with
           | H : _ \/ _ |- _ => destruct H as [H | H]
           | H : False |- _ => destruct H
           end; subst; discriminate. }
  assert (Hhrv : forall r, nth r c3 false = true <-> above df "hrv_proxy" r 25.0).
  { intros r. destruct (has_column df2 "hrv_proxy") eqn:Hhas.
    - apply column_gt_done in E5 as (x5 & _ & _ & B5). rewrite B5.
      apply above_ext, D2, Hin. cbn; auto 10.
    - injection E5 as <-. split.
      + intros Hc. exfalso. revert Hc.
        destruct (Nat.lt_ge_cases r (nrows df2)) as [Hr | Hr].
        * rewrite nth_repeat_lt by exact Hr. discriminate.
        * rewrite nth_overflow by (rewrite repeat_length; exact Hr). discriminate.
      + intros Habove. exfalso.
        apply (above_missing df2 "hrv_proxy" r 25.0 Hhas).
        apply (above_ext df2 df); [apply D2, Hin; cbn; auto 10 | exact Habove]. }
  exists (mkFlags under over c1 c2 c3 m1 m2 r1 r2 r3).
  cbn [f_under f_over f_lactate f_ph f_hrv f_map f_pulse f_map_again f_spo2
       f_ph_again].
  split; [exact B1 |].
  split; [intros r; rewrite B2; apply above_ext, D1, Hin; cbn; auto 10 |].
  split; [intros r; rewrite B3; apply above_ext, D2, Hin; cbn; auto 10 |].
  split; [intros r; rewrite B4; apply below_ext, D2, Hin; cbn; auto 10 |].
  split; [exact Hhrv |].
  split; [intros r; rewrite B6; apply below_ext, D3, Hin; cbn; auto 10 |].
  split; [intros r; rewrite B7; apply below_ext, D3, Hin; cbn; auto 10 |].
  split; [intros r; rewrite B8; apply below_ext, D4, Hin; cbn; auto 10 |].
  split; [intros r; rewrite B9; apply below_ext, D4, Hin; cbn; auto 10 |].
  split; [intros r; rewrite B10; apply below_ext, D4, Hin; cbn; auto 10 |].
  split; [congruence |].
  split; [| exact D5].
  unfold written_flags, seizure_flags, cardiac_flags, renal_flags.
  cbn [f_under f_over f_lactate f_ph f_hrv f_map f_pulse f_map_again f_spo2
       f_ph_again].
  repeat constructor; cbn [fst snd]; try congruence.
  - rewrite O5, O4, O3, O2 by discriminate. exact G1.
  - rewrite O5, O4, O3 by discriminate. exact G2.
  - rewrite O5, O4 by discriminate. exact G3.
  - rewrite O5 by discriminate. exact G4.
Qed.

(** The five flags of row [r], read off the input frame. *)
Lemma label_rows df lo hi df' r :
  add_clinical_labels df lo hi = Done df' -> (r < nrows df)%nat ->
  (flagged df' "temp_undershoot_risk" r <-> below df "rectal_temp" r (lo - 0.5)) /\
  (flagged df' "temp_overshoot_risk" r <-> above df "rectal_temp" r (hi + 0.5)) /\
  (flagged df' "seizure_risk_high" r <->
   above df "lactate" r 4.0 \/ below df "ph" r 7.30 \/ above df "hrv_proxy" r 25.0) /\
  (flagged df' "cardiac_distress_flag" r <->
   below df "map_mmHg" r 35.0 /\ below df "pulse_pressure" r 20.0) /\
  (flagged df' "renal_dysfunction_risk" r <->
   below df "map_mmHg" r 35.0 /\ below df "spo2" r 92.0 /\ below df "ph" r 7.30).
Proof.
  intros H Hr.
  destruct (add_clinical_labels_done df lo hi df' H)
    as (f & B1 & B2 & B3 & B4 & B5 & B6 & B7 & B8 & B9 & B10 & _ & Hw & _).
  unfold written_flags in Hw.
  apply Forall_cons_iff in Hw as [[G1 _] Hw].
  apply Forall_cons_iff in Hw as [[G2 _] Hw].
  apply Forall_cons_iff in Hw as [[G3 L3] Hw].
  apply Forall_cons_iff in Hw as [[G4 L4] Hw].
  apply Forall_cons_iff in Hw as [[G5 L5] _].
  cbn [fst snd] in *.
  unfold seizure_flags in G3, L3. unfold cardiac_flags in G4, L4.
  unfold renal_flags in G5, L5.
  rewrite !series_or_length in L3. rewrite series_and_length in L4.
  rewrite !series_and_length in L5.
  split; [rewrite (flagged_nth _ _ _ r G1); apply B1 |].
  split; [rewrite (flagged_nth _ _ _ r G2); apply B2 |].
  split.
  { rewrite (flagged_nth _ _ _ r G3).
    rewrite series_or_nth by (rewrite ?series_or_length; lia).
    rewrite series_or_nth by lia.
    rewrite !orb_true_iff, B3, B4, B5. tauto. }
  split.
  { rewrite (flagged_nth _ _ _ r G4).
    rewrite series_and_nth by lia.
    rewrite andb_true_iff, B6, B7. reflexivity. }
  rewrite (flagged_nth _ _ _ r G5).
  rewrite series_and_nth by (rewrite ?series_and_length; lia).
  rewrite series_and_nth by lia.
  rewrite !andb_true_iff, B8, B9, B10. tauto.
Qed.

(** X13: when [add_clinical_labels] returns, the frame has the rows of
    the input, every column other than the five labels is as it was, each
    label column holds one 0 or 1 per row, and row by row the flags are
    set exactly under the conditions of the source, read on the input: a
    missing value (NaN) satisfies no comparison, and a missing
    [hrv_proxy] column contributes nothing to [seizure_risk_high]. *)
Theorem clinical_labels_by_row (df : DataFrame) (lo hi : Q) (df' : DataFrame) :
  add_clinical_labels df lo hi = Done df' ->
  nrows df' = nrows df /\
  (forall name, ~ In name label_columns ->
                get_column df' name = get_column df name) /\
  Forall (is_flag_column df') label_columns /\
  forall r, (r < nrows df)%nat ->
    (flagged df' "temp_undershoot_risk" r <->
     below df "rectal_temp" r (lo - 0.5)) /\
    (flagged df' "temp_overshoot_risk" r <->
     above df "rectal_temp" r (hi + 0.5)) /\
    (flagged df' "seizure_risk_high" r <->
     above df "lactate" r 4.0 \/ below df "ph" r 7.30 \/
     above df "hrv_proxy" r 25.0) /\
    (flagged df' "cardiac_distress_flag" r <->
     below df "map_mmHg" r 35.0 /\ below df "pulse_pressure" r 20.0) /\
    (flagged df' "renal_dysfunction_risk" r <->
     below df "map_mmHg" r 35.0 /\ below df "spo2" r 92.0 /\
     below df "ph" r 7.30).
Proof.
  intros H.
  destruct (add_clinical_labels_done df lo hi df' H)
    as (f & _ & _ & _ & _ & _ & _ & _ & _ & _ & _ & Hn & Hw & Hkeep).
  split; [exact Hn |]. split; [exact Hkeep |]. split.
  - change label_columns with (map fst (written_flags f)).
    apply Forall_map. eapply Forall_impl; [| exact Hw].
    intros [name flags] [Hg Hl]. cbn [fst snd] in *.
    exists flags. split; [exact Hg | congruence].
  - intros r Hr. apply (label_rows df lo hi df' r H Hr).
Qed.

(** X14: what the labels of one row imply of each other.  When the
    undershoot threshold is not above the overshoot threshold
    ([low <= high + 1], as with the defaults) no row is flagged for both;
    a row flagged for renal dysfunction is flagged for seizure risk, and
    for cardiac distress as well when its pulse pressure is below 20; a
    row without a rectal temperature is flagged neither for undershoot
    nor for overshoot. *)
Theorem clinical_labels_consistent (df : DataFrame) (lo hi : Q) (df' : DataFrame)
    (r : nat) :
  add_clinical_labels df lo hi = Done df' -> (r < nrows df)%nat ->
  (lo <= hi + 1 ->
   ~ (flagged df' "temp_undershoot_risk" r /\
      flagged df' "temp_overshoot_risk" r)) /\
  (flagged df' "renal_dysfunction_risk" r -> flagged df' "seizure_risk_high" r) /\
  (flagged df' "renal_dysfunction_risk" r ->
   below df "pulse_pressure" r 20.0 -> flagged df' "cardiac_distress_flag" r) /\
  (cell_at df "rectal_temp" r = CNaN ->
   ~ flagged df' "temp_undershoot_risk" r /\
   ~ flagged df' "temp_overshoot_risk" r).
Proof.
  intros H Hr.
  destruct (label_rows df lo hi df' r H Hr) as (Hu & Ho & Hs & Hc & Hn).
  split; [| split; [| split]].
  - intros Hle [Hunder Hover].
    apply Hu in Hunder as (q & Hq & Hlt). apply Ho in Hover as (q' & Hq' & Hgt).
    rewrite Hq in Hq'. injection Hq' as <-. lra.
  - intros Hrenal. apply Hs. apply Hn in Hrenal as (_ & _ & Hph). auto.
  - intros Hrenal Hpp. apply Hc. apply Hn in Hrenal as (Hmap & _). auto.
  - intros Hnan. split; intros Hf.
    + apply Hu in Hf as (q & Hq & _). rewrite Hnan in Hq. discriminate.
    + apply Ho in Hf as (q & Hq & _). rewrite Hnan in Hq. discriminate.
Qed.

(** Three rows: a cold one in shock, one without measurements, a warm
    one. *)
Definition sample_frame : DataFrame :=
  [ ("rectal_temp", [CNum 31; CNaN; CNum 34.5]);
    ("lactate", [CNum 2; CNaN; CNum 5]);
    ("ph", [CNum 7.2; CNaN; CNum 7.35]);
    ("map_mmHg", [CNum 30; CNaN; CNum 45]);
    ("pulse_pressure", [CNum 15; CNaN; CNum 25]);
    ("spo2", [CInt 90; CNaN; CInt 97]) ]%string.

Definition sample_labels : DataFrame :=
  sample_frame ++
  [ ("temp_undershoot_risk", [CInt 1; CInt 0; CInt 0]);
    ("temp_overshoot_risk", [CInt 0; CInt 0; CInt 1]);
    ("seizure_risk_high", [CInt 1; CInt 0; CInt 1]);
    ("cardiac_distress_flag", [CInt 1; CInt 0; CInt 0]);
    ("renal_dysfunction_risk", [CInt 1; CInt 0; CInt 0]) ]%string.

Lemma sample_frame_labelled :
  add_clinical_labels sample_frame 32 33.5 = Done sample_labels.
Proof. vm_compute. reflexivity. Qed.

Lemma clinical_labels_by_row_witness :
  nrows sample_labels = nrows sample_frame /\
  (forall name, ~ In name label_columns ->
                get_column sample_labels name = get_column sample_frame name) /\
  Forall (is_flag_column sample_labels) label_columns /\
  forall r, (r < nrows sample_frame)%nat ->
    (flagged sample_labels "temp_undershoot_risk" r <->
     below sample_frame "rectal_temp" r (32 - 0.5)) /\
    (flagged sample_labels "temp_overshoot_risk" r <->
     above sample_frame "rectal_temp" r (33.5 + 0.5)) /\
    (flagged sample_labels "seizure_risk_high" r <->
     above sample_frame "lactate" r 4.0 \/ below sample_frame "ph" r 7.30 \/
     above sample_frame "hrv_proxy" r 25.0) /\
    (flagged sample_labels "cardiac_distress_flag" r <->
     below sample_frame "map_mmHg" r 35.0 /\
     below sample_frame "pulse_pressure" r 20.0) /\
    (flagged sample_labels "renal_dysfunction_risk" r <->
     below sample_frame "map_mmHg" r 35.0 /\ below sample_frame "spo2" r 92.0 /\
     below sample_frame "ph" r 7.30).
Proof.
  apply (clinical_labels_by_row sample_frame 32 33.5 sample_labels).
  vm_compute. reflexivity.
Defined.

Lemma clinical_labels_consistent_witness :
  (32 <= 33.5 + 1 ->
   ~ (flagged sample_labels "temp_undershoot_risk" 0 /\
      flagged sample_labels "temp_overshoot_risk" 0)) /\
  (flagged sample_labels "renal_dysfunction_risk" 0 ->
   flagged sample_labels "seizure_risk_high" 0) /\
  (flagged sample_labels "renal_dysfunction_risk" 0 ->
   below sample_frame "pulse_pressure" 0 20.0 ->
   flagged sample_labels "cardiac_distress_flag" 0) /\
  (cell_at sample_frame "rectal_temp" 0 = CNaN ->
   ~ flagged sample_labels "temp_undershoot_risk" 0 /\
   ~ flagged sample_labels "temp_overshoot_risk" 0).
Proof.
  apply (clinical_labels_consistent sample_frame 32 33.5 sample_labels 0).
  - vm_compute. reflexivity.
  - vm_compute. lia.
Defined.

Section LabelsOfGeneratedData.
Context {R : RandomSource} {N : Numerics}.

(** X15: the datasets of the generator do not have the column names
    [add_clinical_labels] reads: applied to any dataset returned by
    [generate_complete_patient_dataset] it raises [KeyError] for
    [rectal_temp], the first column it reads. *)
Theorem clinical_labels_reject_generated_dataset
    (pid : string) (hours step : Z) (lo hi : Q) :
  step <> 0%Z -> (0 <= hours)%Z -> (hours mod 4 = 0)%Z ->
  returns (generate_complete_patient_dataset pid hours step)
    (fun df => add_clinical_labels df lo hi
               = Failed (Builtin (KeyError "rectal_temp"))).
Proof.
  intros Hstep Hh Hm w.
  destruct (patient_dataset_returns pid hours step Hstep Hh Hm w)
    as (df & w' & Hrun).
  exists df, w'. split; [exact Hrun |].
  destruct (patient_dataset_shape pid hours step w df w' Hrun)
    as (b & target & temps & hrs & sys & dia & sats & abg & _ & _ & _ & _
        & _ & _ & _ & _ & ->).
  unfold add_clinical_labels, column_lt.
  rewrite get_column_missing; [reflexivity |].
  rewrite patient_table_columns. unfold dataset_columns. cbn [In].
  intros Hin.
  repeat match goal with
         | H : _ \/ _ |- _ => destruct H as [H | H]
         | H : False |- _ => destruct H
         end; discriminate.
Qed.

End LabelsOfGeneratedData.

Lemma clinical_labels_reject_generated_dataset_witness :
  returns (R := Oracle.source)
    (generate_complete_patient_dataset (N := Oracle.numerics) "PATIENT_0001" 72 5)
    (fun df => add_clinical_labels df 32 33.5
               = Failed (Builtin (KeyError "rectal_temp"))).
Proof.
  apply (clinical_labels_reject_generated_dataset (R := Oracle.source)
           (N := Oracle.numerics) "PATIENT_0001" 72 5 32 33.5);
    [discriminate | discriminate | reflexivity].
Defined.

(* ------------------------------------------------------------------ *)
(** ** The feature matrix, when it is built *)

Lemma result_map_ok {A B} (f : A -> result B) (l : list A) (ys : list B) :
  result_map f l = Ok ys -> Forall2 (fun x y => f x = Ok y) l ys.
Proof.
  revert ys. induction l as [| x l IH]; intros ys H; cbn [result_map] in H.
  - injection H as <-. constructor.
  - destruct (f x) as [y | e] eqn:Ey; [| discriminate]. cbn [rbind] in H.
    destruct (result_map f l) as [ys' | e]; [| discriminate].
    cbn [rbind] in H. injection H as <-.
    constructor; [exact Ey | apply IH; reflexivity].
Qed.

Lemma Forall2_nth_lt {A B} (P : A -> B -> Prop) (l : list A) (bs : list B)
    (da : A) (db : B) :
  Forall2 P l bs ->
  forall r, (r < List.length l)%nat -> P (nth r l da) (nth r bs db).
Proof.
  intros H. induction H as [| x b l bs Hxb _ IH]; intros r Hr;
    [cbn in Hr; lia |].
  destruct r as [| r]; [exact Hxb | apply IH; cbn in Hr; lia].
Qed.

(** X16: a matrix returned by [build_feature_matrix] has one row per row
    of the frame and one entry per requested feature, in the order of the
    request: entry [j] of row [r] is the cell of column [feature_cols[j]]
    in row [r], converted to a float. *)
Theorem feature_matrix_aligned (float_of_string : string -> option Q)
    (df : DataFrame) (feature_cols : list string)
    (X : list (list (option Q))) :
  build_feature_matrix float_of_string df feature_cols = Ok X ->
  List.length X = nrows df /\
  first_missing df feature_cols = None /\
  forall r, (r < nrows df)%nat ->
    List.length (nth r X []) = List.length feature_cols /\
    forall j, (j < List.length feature_cols)%nat ->
      cell_to_float float_of_string (cell_at df (nth j feature_cols ""%string) r)
      = Ok (nth j (nth r X []) None).
Proof.
  unfold build_feature_matrix. intros H.
  destruct (first_missing df feature_cols) as [col |]; [discriminate |].
  apply result_map_ok in H.
  pose proof (Forall2_length H) as Hlen. rewrite length_seq in Hlen.
  split; [symmetry; exact Hlen |]. split; [reflexivity |].
  intros r Hr.
  pose proof (Forall2_nth_lt _ _ _ 0%nat [] H r
                ltac:(rewrite length_seq; exact Hr)) as Hrow.
  cbn beta in Hrow. rewrite seq_nth in Hrow by exact Hr. cbn [Nat.add] in Hrow.
  apply result_map_ok in Hrow.
  split; [symmetry; eapply Forall2_length, Hrow |].
  intros j Hj.
  apply (Forall2_nth_lt _ _ _ ""%string None Hrow j Hj).
Qed.

(** Two features of the three-row frame, in the order of the request. *)
Definition sample_matrix : list (list (option Q)) :=
  [ [Some 7.2; Some 31]; [None; None]; [Some 7.35; Some 34.5] ].

Lemma feature_matrix_aligned_witness :
  List.length sample_matrix = nrows sample_frame /\
  first_missing sample_frame ["ph"; "rectal_temp"]%string = None /\
  forall r, (r < nrows sample_frame)%nat ->
    List.length (nth r sample_matrix []) = 2%nat /\
    forall j, (j < 2)%nat ->
      cell_to_float (fun _ => None)
        (cell_at sample_frame (nth j ["ph"; "rectal_temp"]%string ""%string) r)
      = Ok (nth j (nth r sample_matrix []) None).
Proof.
  apply (feature_matrix_aligned (fun _ => None) sample_frame
           ["ph"; "rectal_temp"]%string).
  vm_compute. reflexivity.
Defined.

(* ------------------------------------------------------------------ *)
(** ** Risk levels and the recommendations of a scorecard *)

(** The order of the risk labels. *)
Definition risk_rank (label : string) : nat :=
  if String.eqb label RISK_HIGH then 2
  else if String.eqb label RISK_MED then 1
  else 0.

(** X17: [categorize] returns one of the three labels; it returns HIGH
    exactly from the high threshold on and LOW exactly below both
    thresholds; a higher probability never gives a lower level, whatever
    the thresholds; and when the medium threshold is above the high one,
    MED is never returned. *)
Theorem categorize_levels (prob high medium : Q) :
  In (categorize prob high medium) [RISK_HIGH; RISK_MED; RISK_LOW] /\
  (categorize prob high medium = RISK_HIGH <-> high <= prob) /\
  (categorize prob high medium = RISK_LOW <-> prob < high /\ prob < medium) /\
  (forall prob', prob <= prob' ->
     (risk_rank (categorize prob high medium)
      <= risk_rank (categorize prob' high medium))%nat) /\
  (high < medium -> categorize prob high medium <> RISK_MED).
Proof.
  unfold categorize.
  destruct (Qle_bool high prob) eqn:Eh; [apply Qle_bool_iff in Eh |];
    [| destruct (Qle_bool medium prob) eqn:Em; [apply Qle_bool_iff in Em |]].
  - split; [cbn; auto |]. split; [tauto |].
    split; [split; [discriminate | intros [H _]; lra] |].
    split; [| discriminate].
    intros prob' Hle.
    assert (Hh : Qle_bool high prob' = true) by (apply Qle_bool_iff; lra).
    rewrite Hh. constructor.
  - assert (Hlt : prob < high).
    { apply Qnot_le_lt. intros H. apply Qle_bool_iff in H. congruence. }
    split; [cbn; auto |].
    split; [split; [discriminate | intros H; lra] |].
    split; [split; [discriminate | intros [_ H]; lra] |].
    split; [| intros H; lra].
    intros prob' Hle.
    destruct (Qle_bool high prob'); [cbn; lia |].
    assert (Hm : Qle_bool medium prob' = true) by (apply Qle_bool_iff; lra).
    rewrite Hm. constructor.
  - assert (Hlt : prob < high).
    { apply Qnot_le_lt. intros H. apply Qle_bool_iff in H. congruence. }
    assert (Hltm : prob < medium).
    { apply Qnot_le_lt. intros H. apply Qle_bool_iff in H. congruence. }
    split; [cbn; auto |].
    split; [split; [discriminate | intros H; lra] |].
    split; [tauto |].
    split; [| discriminate].
    intros prob' _. cbn. lia.
Qed.

(** One for a level other than LOW. *)
Definition raised (risk : string) : nat :=
  if String.eqb risk RISK_LOW then 0 else 1.

(** The three messages on the temperature. *)
Definition temperature_messages : list string :=
  [ "Strongly consider temperature reduction by ~1.0°C.";
    "Consider temperature reduction by ~0.5°C.";
    "Maintain current temperature; continue monitoring." ]%string.

Lemma categorize_label (prob high medium : Q) :
  categorize prob high medium = RISK_HIGH \/
  categorize prob high medium = RISK_MED \/
  categorize prob high medium = RISK_LOW.
Proof.
  unfold categorize.
  destruct (Qle_bool high prob); [auto |]. destruct (Qle_bool medium prob); auto.
Qed.

Lemma advice_length (risk high medium : string) :
  risk = RISK_HIGH \/ risk = RISK_MED \/ risk = RISK_LOW ->
  List.length (advice risk high medium) = raised risk.
Proof. intros [-> | [-> | ->]]; reflexivity. Qed.

(** [round(x, 2)] is within half a hundredth of [x]. *)
Lemma py_round2_close (x : Q) : Qabs (py_round2 x - x) <= 1 # 200.
Proof.
  unfold py_round2. cbv zeta.
  pose proof (Qfloor_le (x * 100)) as Hlo.
  pose proof (Qlt_floor (x * 100)) as Hhi.
  rewrite inject_Z_plus in Hhi. change (inject_Z 1) with 1 in Hhi.
  set (fl := Qfloor (x * 100)) in *.
  apply Qabs_Qle_condition.
  destruct (Qlt_le_dec (x * 100 - inject_Z fl) (1 # 2)) as [Hf | Hf].
  - assert (E : inject_Z fl / 100 - x == (inject_Z fl - x * 100) * (1 # 100))
      by field.
    rewrite E. split; lra.
  - destruct (Qlt_le_dec (1 # 2) (x * 100 - inject_Z fl)) as [Hg | Hg].
    + rewrite inject_Z_plus. change (inject_Z 1) with 1.
      assert (E : (inject_Z fl + 1) / 100 - x
                  == (inject_Z fl + 1 - x * 100) * (1 # 100)) by field.
      rewrite E. split; lra.
    + destruct (Z.odd fl).
      * rewrite inject_Z_plus. change (inject_Z 1) with 1.
        assert (E : (inject_Z fl + 1) / 100 - x
                    == (inject_Z fl + 1 - x * 100) * (1 # 100)) by field.
        rewrite E. split; lra.
      * assert (E : inject_Z fl / 100 - x == (inject_Z fl - x * 100) * (1 # 100))
          by field.
        rewrite E. split; lra.
Qed.

Lemma py_round2_at_least_one (x : Q) : 1 <= x -> 1 <= py_round2 x.
Proof.
  intros Hx. unfold py_round2. cbv zeta.
  assert (Hfl : (100 <= Qfloor (x * 100))%Z).
  { change (Qfloor 100 <= Qfloor (x * 100))%Z. apply Qfloor_resp_le. lra. }
  set (fl := Qfloor (x * 100)) in *.
  assert (Hq : 100 <= inject_Z fl).
  { change 100 with (inject_Z 100). rewrite <- Zle_Qle. exact Hfl. }
  destruct (Qlt_le_dec _ _); [| destruct (Qlt_le_dec _ _); [| destruct (Z.odd fl)]];
    rewrite ?inject_Z_plus; change (inject_Z 1) with 1;
    apply Qle_shift_div_l; lra.
Qed.

Lemma py_round2_below_half (x : Q) : x < 0.5 -> py_round2 x <= 0.5.
Proof.
  intros Hx. unfold py_round2. cbv zeta.
  pose proof (Qfloor_le (x * 100)) as Hlo.
  set (fl := Qfloor (x * 100)) in *.
  assert (Hfl : (fl < 50)%Z).
  { rewrite Zlt_Qlt. change (inject_Z 50) with 50. lra. }
  assert (Hq : inject_Z fl + 1 <= 50).
  { change 50 with (inject_Z 50). change 1 with (inject_Z 1).
    rewrite <- inject_Z_plus, <- Zle_Qle. lia. }
  destruct (Qlt_le_dec _ _); [| destruct (Qlt_le_dec _ _); [| destruct (Z.odd fl)]];
    rewrite ?inject_Z_plus; change (inject_Z 1) with 1;
    apply Qle_shift_div_r; lra.
Qed.

(** The five risk levels of a scorecard. *)
Definition risks (sc : Scorecard) : list string :=
  [risk_seizure sc; risk_sepsis sc; risk_cardiac sc; risk_renal sc;
   risk_prognosis sc].

Section ScorecardShape.
Variables (temp_model : predictor) (temp_features : list string).
Variables (seizure_model sepsis_model cardiac_model renal_model : option predictor).
Variables (prognosis_model : predictor) (prognosis_features : list string).
Variable utcnow_isoformat : string.

Local Notation "'scorecard'" :=
  (build_scorecard temp_model temp_features seizure_model sepsis_model
     cardiac_model renal_model prognosis_model prognosis_features
     utcnow_isoformat).



End ScorecardShape.

(* ------------------------------------------------------------------ *)
(** ** Model selection and persistence ([utils/model_utils.py]) *)

(** [Dict[str, Dict[str, float]]]: the metrics of each model, in insertion
    order. *)
Definition metrics_table : Type := list (string * list (string * Q)).

(** Whether [v] replaces the best value so far: [max] replaces on a
    greater value, [min] on a smaller one, so that the first of several
    equal items is kept. *)
Definition replaces (by_metric : string) (v best : Q) : bool :=
  if String.eqb by_metric "r2" then float_gt v best else float_lt v best.

(** The loop of [min(items, key=...)] and [max(items, key=...)] after the
    first item: the key of each item is computed as the item is
    reached. *)
Fixpoint select_loop (by_metric : string) (best : string * Q)
    (items : metrics_table) : result string :=
  match items with
  | [] => Ok (fst best)
  | (name, m) :: rest =>
      rbind (dict_get m by_metric) (fun v =>
        select_loop by_metric
          (if replaces by_metric v (snd best) then (name, v) else best) rest)
  end.

(** [select_best_model] *)
Definition select_best_model (metrics : metrics_table) (by_metric : string)
    : result string :=
  if negb (mem_string by_metric ["rmse"; "mae"; "r2"]%string)
  then Raise (ValueError "Selection metric must be one of {'rmse','mae','r2'}")
  else
    match metrics with
    | [] =>
        Raise (ValueError (if String.eqb by_metric "r2"
                           then "max() arg is an empty sequence"
                           else "min() arg is an empty sequence"))
    | (name, m) :: rest =>
        rbind (dict_get m by_metric) (fun v =>
          select_loop by_metric (name, v) rest)
    end.

(** [os.path.join(a, b)] on POSIX. *)
Fixpoint ends_with_slash (s : string) : bool :=
  match s with
  | EmptyString => false
  | String c EmptyString => Ascii.eqb c "/"
  | String _ rest => ends_with_slash rest
  end.

Definition os_path_join (a b : string) : string :=
  if String.prefix "/" b then b
  else if String.eqb a "" || ends_with_slash a then (a ++ b)%string
  else (a ++ "/" ++ b)%string.

Section Persistence.

(** A fitted estimator; [pickle.load] gives back what [pickle.dump]
    wrote. *)
Variable model : Type.

(** What a file holds; [Truncated] is a file that was opened for writing
    and closed with nothing written. *)
Inductive blob : Type :=
| Pickled (m : model)
| JsonMetrics (t : metrics_table)
| JsonStrings (l : list string)
| Truncated.

(** The files, the most recent write of a path first.  Every write is
    taken to succeed. *)
Definition files : Type := list (string * blob).

Definition write_file (path : string) (b : blob) (fs : files) : files :=
  (path, b) :: fs.

Fixpoint read_file (fs : files) (path : string) : option blob :=
  match fs with
  | [] => None
  | (p, b) :: rest => if String.eqb p path then Some b else read_file rest path
  end.

Definition variant_path (output_dir name : string) : string :=
  os_path_join output_dir ("temperature_model_" ++ name ++ ".pkl").

Definition save_variants (models : list (string * model)) (output_dir : string)
    (fs : files) : files :=
  fold_left (fun fs nm => write_file (variant_path output_dir (fst nm))
                                     (Pickled (snd nm)) fs)
            models fs.

(** [save_models]: the files it leaves, and [None] or what it raised.
    The optimization model is opened for writing before [models[best_name]]
    is looked up. *)
Definition save_models (models : list (string * model)) (feature_cols : list string)
    (results : metrics_table) (output_dir : string) (fs : files)
    : files * result unit :=
  let fs1 := save_variants models output_dir fs in
  match (match results with
         | [] => Ok "gradient_boosting"%string
         | _ => select_best_model results "rmse"
         end) with
  | Raise e => (fs1, Raise e)
  | Ok best_name =>
      let opened := write_file
                      (os_path_join output_dir "temperature_optimization_model.pkl")
                      Truncated fs1 in
      match dict_get models best_name with
      | Raise e => (opened, Raise e)
      | Ok best =>
          let fs2 := write_file
                       (os_path_join output_dir "temperature_optimization_model.pkl")
                       (Pickled best) opened in
          let fs3 := write_file
                       (os_path_join output_dir "temperature_model_results.json")
                       (JsonMetrics results) fs2 in
          let fs4 := write_file
                       (os_path_join output_dir "temperature_model_features.json")
                       (JsonStrings feature_cols) fs3 in
          (fs4, Ok tt)
      end
  end.

(** [load_model_and_features]: [None] when a file is missing or does not
    hold what is expected. *)
Definition load_model_and_features (model_path feature_path : string) (fs : files)
    : option (model * list string) :=
  match read_file fs model_path with
  | Some (Pickled m) =>
      match read_file fs feature_path with
      | Some (JsonStrings cols) => Some (m, cols)
      | _ => None
      end
  | _ => None
  end.

End Persistence.
Arguments Pickled {model} m.
Arguments JsonMetrics {model} t.
Arguments JsonStrings {model} l.
Arguments Truncated {model}.

(** [a] is a strictly better value of the metric than [b]: greater for
    [r2], smaller for an error. *)
Definition better (by_metric : string) (a b : Q) : Prop :=
  if String.eqb by_metric "r2" then b < a else a < b.

Lemma replaces_better by_metric v best :
  replaces by_metric v best = true <-> better by_metric v best.
Proof.
  unfold replaces, better. destruct (String.eqb by_metric "r2");
    [apply float_gt_iff | apply float_lt_iff].
Qed.

Lemma better_irrefl by_metric v : ~ better by_metric v v.
Proof. unfold better. destruct (String.eqb by_metric "r2"); lra. Qed.

Lemma better_trans by_metric a b c :
  better by_metric a b -> better by_metric b c -> better by_metric a c.
Proof. unfold better. destruct (String.eqb by_metric "r2"); lra. Qed.

Lemma better_asym by_metric a b : better by_metric a b -> ~ better by_metric b a.
Proof. unfold better. destruct (String.eqb by_metric "r2"); lra. Qed.

Lemma better_than_no_better by_metric a b c :
  better by_metric a b -> ~ better by_metric c b -> better by_metric a c.
Proof. unfold better. destruct (String.eqb by_metric "r2"); lra. Qed.

Lemma dict_get_raises {A} (d : list (string * A)) key e :
  dict_get d key = Raise e -> e = KeyError key.
Proof.
  induction d as [| [k v] d IH]; cbn [dict_get]; intros H.
  - injection H as <-. reflexivity.
  - destruct (String.eqb k key); [discriminate | exact (IH H)].
Qed.

(** Item [i] of the table has the value [v] of the metric, no item has a
    better one, and every item before it has a worse one. *)
Definition first_best (by_metric : string) (items : metrics_table)
    (i : nat) (name : string) (v : Q) : Prop :=
  (exists m, nth_error items i = Some (name, m) /\ dict_get m by_metric = Ok v) /\
  forall j name' m', nth_error items j = Some (name', m') ->
    exists v', dict_get m' by_metric = Ok v' /\
               ~ better by_metric v' v /\
               ((j < i)%nat -> better by_metric v v').

Lemma select_loop_ok by_metric items :
  forall best_name best_v name,
    select_loop by_metric (best_name, best_v) items = Ok name ->
    (name = best_name /\
     forall j name' m', nth_error items j = Some (name', m') ->
       exists v', dict_get m' by_metric = Ok v' /\ ~ better by_metric v' best_v) \/
    (exists i v, first_best by_metric items i name v /\ better by_metric v best_v).
Proof.
  induction items as [| [n m] rest IH]; intros bn bv name H; cbn [select_loop] in H.
  - injection H as <-. left. split; [reflexivity |].
    intros [| j] ? ? Hj; discriminate.
  - destruct (dict_get m by_metric) as [v0 |] eqn:Ev; [| discriminate].
    cbn [rbind snd] in H.
    destruct (replaces by_metric v0 bv) eqn:Er.
    + apply replaces_better in Er.
      destruct (IH n v0 name H) as [[-> Hall] | (i & v & [(mi & Hi & Hv) Hall] & Hb)].
      * right. exists 0%nat, v0. split; [split |]; [| | exact Er].
        { exists m. split; [reflexivity | exact Ev]. }
        intros [| j] name' m' Hj; cbn [nth_error] in Hj.
        { injection Hj as <- <-. exists v0. split; [exact Ev |].
          split; [apply better_irrefl | lia]. }
        destruct (Hall j name' m' Hj) as (v' & Hv' & Hnb).
        exists v'. split; [exact Hv' |]. split; [exact Hnb | lia].
      * right. exists (S i), v. split; [split |];
          [| | exact (better_trans _ _ _ _ Hb Er)].
        { exists mi. split; [exact Hi | exact Hv]. }
        intros [| j] name' m' Hj; cbn [nth_error] in Hj.
        { injection Hj as <- <-. exists v0. split; [exact Ev |].
          split; [apply better_asym, Hb | intros _; exact Hb]. }
        destruct (Hall j name' m' Hj) as (v' & Hv' & Hnb & Hlt).
        exists v'. split; [exact Hv' |]. split; [exact Hnb |].
        intros Hji. apply Hlt. lia.
    + assert (Hnb0 : ~ better by_metric v0 bv).
      { intros Hb. apply replaces_better in Hb. congruence. }
      destruct (IH bn bv name H) as [[-> Hall] | (i & v & [(mi & Hi & Hv) Hall] & Hb)].
      * left. split; [reflexivity |].
        intros [| j] name' m' Hj; cbn [nth_error] in Hj.
        { injection Hj as <- <-. exists v0. split; [exact Ev | exact Hnb0]. }
        apply (Hall j name' m' Hj).
      * right. exists (S i), v. split; [split |]; [| | exact Hb].
        { exists mi. split; [exact Hi | exact Hv]. }
        intros [| j] name' m' Hj; cbn [nth_error] in Hj.
        { injection Hj as <- <-. exists v0. split; [exact Ev |].
          pose proof (better_than_no_better _ _ _ _ Hb Hnb0) as Hbv.
          split; [apply better_asym, Hbv | intros _; exact Hbv]. }
        destruct (Hall j name' m' Hj) as (v' & Hv' & Hnb & Hlt).
        exists v'. split; [exact Hv' |]. split; [exact Hnb |].
        intros Hji. apply Hlt. lia.
Qed.

Lemma select_loop_total by_metric items :
  (forall name m, In (name, m) items -> exists v, dict_get m by_metric = Ok v) ->
  forall best, exists name, select_loop by_metric best items = Ok name.
Proof.
  induction items as [| [n m] rest IH]; intros Hall best; cbn [select_loop].
  - eexists; reflexivity.
  - destruct (Hall n m (or_introl eq_refl)) as (v & ->). cbn [rbind].
    apply IH. intros name m' Hin. apply (Hall name m'). right. exact Hin.
Qed.

Lemma select_loop_missing by_metric items :
  (exists name m, In (name, m) items /\ forall v, dict_get m by_metric <> Ok v) ->
  forall best, select_loop by_metric best items = Raise (KeyError by_metric).
Proof.
  induction items as [| [n m] rest IH]; intros (name & m' & Hin & Hmiss) best;
    [contradiction |].
  cbn [select_loop].
  destruct (dict_get m by_metric) as [v | e] eqn:Ev.
  - cbn [rbind]. apply IH. destruct Hin as [E | Hin].
    + injection E as -> ->. exfalso. apply (Hmiss v), Ev.
    + exists name, m'. split; assumption.
  - cbn [rbind]. apply dict_get_raises in Ev. congruence.
Qed.

(** X20: the model [select_best_model] returns is the first item of the
    table, in insertion order, whose value of the metric no other item
    betters: the lowest [rmse] or [mae], the highest [r2]; of several
    equally good models the first one is returned. *)
Theorem select_best_model_choice (metrics : metrics_table) (by_metric name : string) :
  select_best_model metrics by_metric = Ok name ->
  In by_metric ["rmse"; "mae"; "r2"]%string /\
  exists i v, first_best by_metric metrics i name v.
Proof.
  unfold select_best_model. intros H.
  destruct (mem_string by_metric ["rmse"; "mae"; "r2"]%string) eqn:Hby;
    [| discriminate].
  cbn [negb] in H. split; [apply mem_string_in, Hby |].
  destruct metrics as [| [n m] rest]; [discriminate |].
  destruct (dict_get m by_metric) as [v0 |] eqn:Ev; [| discriminate].
  cbn [rbind] in H.
  destruct (select_loop_ok _ _ _ _ _ H)
    as [[-> Hall] | (i & v & [(mi & Hi & Hv) Hall] & Hb)].
  - exists 0%nat, v0. split; [exists m; split; [reflexivity | exact Ev] |].
    intros [| j] name' m' Hj; cbn [nth_error] in Hj.
    + injection Hj as <- <-. exists v0. split; [exact Ev |].
      split; [apply better_irrefl | lia].
    + destruct (Hall j name' m' Hj) as (v' & Hv' & Hnb).
      exists v'. split; [exact Hv' |]. split; [exact Hnb | lia].
  - exists (S i), v. split; [exists mi; split; [exact Hi | exact Hv] |].
    intros [| j] name' m' Hj; cbn [nth_error] in Hj.
    + injection Hj as <- <-. exists v0. split; [exact Ev |].
      split; [apply better_asym, Hb | intros _; exact Hb].
    + destruct (Hall j name' m' Hj) as (v' & Hv' & Hnb & Hlt).
      exists v'. split; [exact Hv' |]. split; [exact Hnb |].
      intros Hji. apply Hlt. lia.
Qed.

(** X21: the outcomes of [select_best_model].  A metric other than
    [rmse], [mae] and [r2] raises [ValueError]; an empty table raises the
    [ValueError] of [min] or [max]; a table with a model that lacks the
    metric raises [KeyError] with the metric; every other call returns a
    model name. *)
Theorem select_best_model_outcomes (metrics : metrics_table) (by_metric : string) :
  (~ In by_metric ["rmse"; "mae"; "r2"]%string ->
   select_best_model metrics by_metric
   = Raise (ValueError "Selection metric must be one of {'rmse','mae','r2'}")) /\
  (In by_metric ["rmse"; "mae"; "r2"]%string -> metrics = [] ->
   select_best_model metrics by_metric
   = Raise (ValueError (if String.eqb by_metric "r2"
                        then "max() arg is an empty sequence"
                        else "min() arg is an empty sequence"))) /\
  (In by_metric ["rmse"; "mae"; "r2"]%string ->
   (exists name m, In (name, m) metrics /\
                   forall v, dict_get m by_metric <> Ok v) ->
   select_best_model metrics by_metric = Raise (KeyError by_metric)) /\
  (In by_metric ["rmse"; "mae"; "r2"]%string -> metrics <> [] ->
   (forall name m, In (name, m) metrics ->
                   exists v, dict_get m by_metric = Ok v) ->
   exists name, select_best_model metrics by_metric = Ok name /\
                In name (map fst metrics)).
Proof.
  unfold select_best_model.
  destruct (mem_string by_metric ["rmse"; "mae"; "r2"]%string) eqn:Hby.
  - apply mem_string_in in Hby. cbn [negb].
    split; [intros H; contradiction |].
    split; [intros _ ->; reflexivity |].
    split.
    + intros _ Hmiss. destruct metrics as [| [n m] rest];
        [destruct Hmiss as (? & ? & [] & _) |].
      destruct Hmiss as (name & m' & Hin & Hmiss).
      destruct (dict_get m by_metric) as [v | e] eqn:Ev; cbn [rbind].
      * apply select_loop_missing. destruct Hin as [E | Hin].
        { injection E as -> ->. exfalso. apply (Hmiss v), Ev. }
        exists name, m'. split; assumption.
      * apply dict_get_raises in Ev. congruence.
    + intros _ Hne Hall. destruct metrics as [| [n m] rest]; [contradiction |].
      destruct (Hall n m (or_introl eq_refl)) as (v & Hv). rewrite Hv.
      cbn [rbind].
      destruct (select_loop_total by_metric rest
                  ltac:(intros name m' Hin; apply (Hall name m'); right; exact Hin)
                  (n, v)) as (name & Hname).
      exists name. split; [exact Hname |].
      destruct (select_loop_ok _ _ _ _ _ Hname)
        as [[-> _] | (i & v' & [(mi & Hi & _) _] & _)].
      * left. reflexivity.
      * right. apply nth_error_In in Hi.
        apply (in_map fst) in Hi. exact Hi.
  - assert (Hnot : ~ In by_metric ["rmse"; "mae"; "r2"]%string).
    { intros H. apply mem_string_in in H. congruence. }
    cbn [negb]. split; [reflexivity |].
    repeat split; intros; contradiction.
Qed.

(** Three models, the second and the third with the same lowest error. *)
Definition sample_metrics : metrics_table :=
  [ ("random_forest", [("rmse", 0.31); ("mae", 0.2); ("r2", 0.9)]);
    ("gradient_boosting", [("rmse", 0.25); ("mae", 0.21); ("r2", 0.93)]);
    ("mlp", [("rmse", 0.25); ("mae", 0.19); ("r2", 0.93)]) ]%string.

Lemma select_best_model_choice_witness :
  In "rmse"%string ["rmse"; "mae"; "r2"]%string /\
  exists i v, first_best "rmse" sample_metrics i "gradient_boosting" v.
Proof.
  apply (select_best_model_choice sample_metrics "rmse" "gradient_boosting").
  vm_compute. reflexivity.
Defined.

Lemma string_app_inv_head (p a b : string) :
  (p ++ a)%string = (p ++ b)%string -> a = b.
Proof.
  induction p as [| c p IH]; cbn [String.append]; intros H; [exact H |].
  injection H as H. exact (IH H).
Qed.

(** Joined to one directory, two relative names give one path only when
    they are the same name. *)
Lemma os_path_join_inj (dir a b : string) :
  String.prefix "/" a = false -> String.prefix "/" b = false ->
  os_path_join dir a = os_path_join dir b -> a = b.
Proof.
  unfold os_path_join. intros -> ->.
  destruct (String.eqb dir "" || ends_with_slash dir); intros H.
  - exact (string_app_inv_head _ _ _ H).
  - apply string_app_inv_head in H. exact (string_app_inv_head "/" _ _ H).
Qed.

Fixpoint last_char (s : string) : option ascii :=
  match s with
  | EmptyString => None
  | String c EmptyString => Some c
  | String _ rest => last_char rest
  end.

Lemma last_char_app (a b : string) :
  b <> ""%string -> last_char (a ++ b) = last_char b.
Proof.
  intros Hb. induction a as [| c a IH]; [reflexivity |].
  cbn [String.append last_char]. rewrite IH.
  destruct (a ++ b)%string eqn:E; [| reflexivity].
  destruct a; cbn [String.append] in E; [contradiction | discriminate].
Qed.

(** No variant file has a name that ends in another letter than [l]. *)
Lemma not_a_variant_name (n name : string) :
  last_char name <> Some "l"%char ->
  ("temperature_model_" ++ n ++ ".pkl")%string <> name.
Proof.
  intros Hlast E. apply Hlast. rewrite <- E.
  rewrite (last_char_app "temperature_model_") by (destruct n; discriminate).
  rewrite last_char_app by discriminate. reflexivity.
Qed.

Section PersistenceFacts.
Variable model : Type.

Lemma read_write_file (path : string) (b : blob model) (fs : files model)
    (other : string) :
  read_file model (write_file model path b fs) other
  = if String.eqb path other then Some b else read_file model fs other.
Proof. reflexivity. Qed.

(** Saving the variants touches no file outside the variant paths. *)
Lemma read_after_variants (models : list (string * model)) (dir : string)
    (fs : files model) (name : string) :
  String.prefix "/" name = false ->
  (forall n, ("temperature_model_" ++ n ++ ".pkl")%string <> name) ->
  read_file model (save_variants model models dir fs) (os_path_join dir name)
  = read_file model fs (os_path_join dir name).
Proof.
  intros Hrel Hname. unfold save_variants. revert fs.
  induction models as [| [n m] models IH]; intros fs; cbn [fold_left fst snd];
    [reflexivity |].
  rewrite IH, read_write_file.
  destruct (String.eqb_spec (variant_path dir n) (os_path_join dir name))
    as [E | _]; [| reflexivity].
  exfalso. apply (Hname n). unfold variant_path in E.
  apply os_path_join_inj in E; [exact E | reflexivity | exact Hrel].
Qed.

Lemma not_a_variant_optimization (n : string) :
  ("temperature_model_" ++ n ++ ".pkl")%string
  <> "temperature_optimization_model.pkl"%string.
Proof. cbn [String.append]. discriminate. Qed.

End PersistenceFacts.

Lemma select_loop_raises by_metric items best e :
  select_loop by_metric best items = Raise e -> e = KeyError by_metric.
Proof.
  revert best. induction items as [| [n m] rest IH]; intros best H;
    cbn [select_loop] in H; [discriminate |].
  destruct (dict_get m by_metric) as [v | e1] eqn:Ev; cbn [rbind] in H.
  - exact (IH _ H).
  - injection H as <-. exact (dict_get_raises _ _ _ Ev).
Qed.

Lemma dict_get_missing_key {A} (d : list (string * A)) key e :
  dict_get d key = Raise e -> ~ In key (map fst d).
Proof.
  induction d as [| [k v] d IH]; cbn [dict_get map fst]; intros H Hin;
    [contradiction |].
  destruct (String.eqb_spec k key) as [E | Hne]; [discriminate |].
  destruct Hin as [E | Hin]; [contradiction | exact (IH H Hin)].
Qed.

Section SaveAndLoad.
Variable model : Type.
Variables (models : list (string * model)) (feature_cols : list string).
Variables (results : metrics_table) (output_dir : string) (fs : files model).

Local Notation "'optimization_path'" :=
  (os_path_join output_dir "temperature_optimization_model.pkl").
Local Notation "'results_path'" :=
  (os_path_join output_dir "temperature_model_results.json").
Local Notation "'features_path'" :=
  (os_path_join output_dir "temperature_model_features.json").

(** X22: after a [save_models] that returned, [load_model_and_features]
    on the optimization model and the feature file of the same directory
    gives back the model that [select_best_model] chose by [rmse] (the
    model named [gradient_boosting] when there are no results) and the
    feature list in the order it was given; the results file holds the
    results; and the default paths of the loader are the files of the
    default directory of the saver. *)
Theorem saved_models_load_back (fs' : files model) :
  save_models model models feature_cols results output_dir fs = (fs', Ok tt) ->
  (exists best m,
     match results with
     | [] => best = "gradient_boosting"%string
     | _ => select_best_model results "rmse" = Ok best
     end /\
     dict_get models best = Ok m /\
     load_model_and_features model optimization_path features_path fs'
     = Some (m, feature_cols)) /\
  read_file model fs' results_path = Some (JsonMetrics results) /\
  os_path_join "models" "temperature_optimization_model.pkl"
  = "models/temperature_optimization_model.pkl"%string /\
  os_path_join "models" "temperature_model_features.json"
  = "models/temperature_model_features.json"%string.
Proof.
  unfold save_models. intros H.
  assert (Hsel : exists best,
            match results with
            | [] => Ok "gradient_boosting"%string
            | _ :: _ => select_best_model results "rmse"
            end = Ok best /\
            match results with
            | [] => best = "gradient_boosting"%string
            | _ => select_best_model results "rmse" = Ok best
            end).
  { destruct results as [| r rest].
    - eexists. split; reflexivity.
    - destruct (select_best_model (r :: rest) "rmse") as [best | e] eqn:E;
        [| discriminate].
      exists best. split; reflexivity. }
  destruct Hsel as (best & Hbest & Hspec). rewrite Hbest in H.
  destruct (dict_get models best) as [m | e] eqn:Em; [| discriminate].
  cbv zeta in H. injection H as <-.
  assert (Hopt_res : String.eqb results_path optimization_path = false).
  { apply String.eqb_neq. intros E.
    apply os_path_join_inj in E; [discriminate | reflexivity | reflexivity]. }
  assert (Hopt_feat : String.eqb features_path optimization_path = false).
  { apply String.eqb_neq. intros E.
    apply os_path_join_inj in E; [discriminate | reflexivity | reflexivity]. }
  assert (Hres_feat : String.eqb features_path results_path = false).
  { apply String.eqb_neq. intros E.
    apply os_path_join_inj in E; [discriminate | reflexivity | reflexivity]. }
  split.
  { exists best, m. split; [exact Hspec |]. split; [exact Em |].
    unfold load_model_and_features.
    rewrite !read_write_file, Hopt_feat, Hopt_res, !String.eqb_refl.
    reflexivity. }
  split; [rewrite !read_write_file, Hres_feat, String.eqb_refl; reflexivity |].
  split; reflexivity.
Qed.


End SaveAndLoad.

(** A save of two models whose results name the second as the best. *)
Lemma saved_models_load_back_witness :
  (exists best m,
     select_best_model [("a", [("rmse", 0.3)]); ("b", [("rmse", 0.2)])]%string
       "rmse" = Ok best /\
     dict_get [("a", 1%nat); ("b", 2%nat)]%string best = Ok m /\
     load_model_and_features nat
       (os_path_join "models" "temperature_optimization_model.pkl")
       (os_path_join "models" "temperature_model_features.json")
       (fst (save_models nat [("a", 1%nat); ("b", 2%nat)]%string
               ["heart_rate"; "ph"]%string
               [("a", [("rmse", 0.3)]); ("b", [("rmse", 0.2)])]%string
               "models" []))
     = Some (m, ["heart_rate"; "ph"]%string)) /\
  read_file nat
    (fst (save_models nat [("a", 1%nat); ("b", 2%nat)]%string
            ["heart_rate"; "ph"]%string
            [("a", [("rmse", 0.3)]); ("b", [("rmse", 0.2)])]%string
            "models" []))
    (os_path_join "models" "temperature_model_results.json")
  = Some (JsonMetrics [("a", [("rmse", 0.3)]); ("b", [("rmse", 0.2)])]%string) /\
  os_path_join "models" "temperature_optimization_model.pkl"
  = "models/temperature_optimization_model.pkl"%string /\
  os_path_join "models" "temperature_model_features.json"
  = "models/temperature_model_features.json"%string.
Proof.
  apply (saved_models_load_back nat [("a", 1%nat); ("b", 2%nat)]%string
           ["heart_rate"; "ph"]%string
           [("a", [("rmse", 0.3)]); ("b", [("rmse", 0.2)])]%string
           "models" []).
  vm_compute. reflexivity.
Defined.

(** Results for a model that was not trained, over the files of an
    earlier save. *)
Definition earlier_files : files nat :=
  [("models/temperature_optimization_model.pkl"%string, Pickled 7%nat)].

Definition failed_save_files : files nat :=
  fst (save_models nat [("a", 1%nat)]%string ["ph"]%string
         [("b", [("rmse", 0.2)])]%string "models" earlier_files).


(* ------------------------------------------------------------------ *)
(** ** Scorecard files: their names and the latest one
       ([save_outputs] of [server/mock_live_feed.py],
        [latest_scorecards_path] of [server/cds_api.py]) *)

(** [datetime.utcnow()], to the second. *)
Record datetime : Type := mkDatetime {
  dt_year : Z;
  dt_month : Z;
  dt_day : Z;
  dt_hour : Z;
  dt_minute : Z;
  dt_second : Z
}.

(** The fields of a [datetime] from year 1000 on: [%Y] then gives four
    digits, as every other directive here gives two. *)
Definition datetime_ok (d : datetime) : Prop :=
  (1000 <= dt_year d < 10000)%Z /\ (0 <= dt_month d < 100)%Z /\
  (0 <= dt_day d < 100)%Z /\ (0 <= dt_hour d < 100)%Z /\
  (0 <= dt_minute d < 100)%Z /\ (0 <= dt_second d < 100)%Z.

(** A number that orders the datetimes as time does. *)
Definition datetime_key (d : datetime) : Z :=
  (((((dt_year d * 100 + dt_month d) * 100 + dt_day d) * 100 + dt_hour d) * 100
    + dt_minute d) * 100 + dt_second d)%Z.

Definition digit_char (d : Z) : ascii := ascii_of_N (Z.to_N (48 + d)).

Fixpoint digits_string (ds : list Z) : string :=
  match ds with
  | [] => EmptyString
  | d :: rest => String (digit_char d) (digits_string rest)
  end.

Definition two_digits (n : Z) : list Z := [n / 10; n mod 10]%Z.

Definition four_digits (n : Z) : list Z :=
  [n / 1000; (n / 100) mod 10; (n / 10) mod 10; n mod 10]%Z.

(** [strftime("%Y%m%dT%H%M%SZ")] *)
Definition strftime_compact (d : datetime) : string :=
  (digits_string (four_digits (dt_year d) ++ two_digits (dt_month d)
                  ++ two_digits (dt_day d))
   ++ "T"
   ++ digits_string (two_digits (dt_hour d) ++ two_digits (dt_minute d)
                     ++ two_digits (dt_second d))
   ++ "Z")%string.

(** The path [save_outputs] writes to at time [now]. *)
Definition scorecards_file_name (now : datetime) : string :=
  ("cds_scorecards_" ++ strftime_compact now ++ ".json")%string.

Definition save_outputs_path (out_dir : string) (now : datetime) : string :=
  os_path_join out_dir (scorecards_file_name now).

(** [fnmatch(name, "cds_scorecards_*.json")] *)
Definition ends_with (suffix s : string) : bool :=
  (String.length suffix <=? String.length s)%nat &&
  String.eqb (String.substring (String.length s - String.length suffix)
                               (String.length suffix) s) suffix.

Definition matches_scorecards_pattern (name : string) : bool :=
  String.prefix "cds_scorecards_" name &&
  ends_with ".json" (String.substring 15 (String.length name - 15) name).

(** [glob.glob(str(OUTPUT_DIR / "cds_scorecards_*.json"))] over the names
    the directory lists, in the order it lists them. *)
Definition glob_scorecards (output_dir : string) (listing : list string)
    : list string :=
  map (fun name => (output_dir ++ "/" ++ name)%string)
      (filter matches_scorecards_pattern listing).

(** [files.sort(reverse=True)] *)
Fixpoint insert_descending (x : string) (l : list string) : list string :=
  match l with
  | [] => [x]
  | y :: rest =>
      if String.ltb x y then y :: insert_descending x rest else x :: l
  end.

Definition sort_descending (l : list string) : list string :=
  fold_right insert_descending [] l.

(** [latest_scorecards_path] *)
Definition latest_scorecards_path (output_dir : string) (listing : list string)
    : option string :=
  match glob_scorecards output_dir listing with
  | [] => None
  | files => hd_error (sort_descending files)
  end.

(** *** The order of strings *)

Lemma ascii_compare_refl (c : ascii) : Ascii.compare c c = Eq.
Proof. apply N.compare_refl. Qed.

Lemma string_compare_refl (s : string) : String.compare s s = Eq.
Proof.
  induction s as [| c s IH]; [reflexivity |].
  cbn [String.compare]. rewrite ascii_compare_refl. exact IH.
Qed.

Lemma string_compare_lt_trans (a b c : string) :
  String.compare a b = Lt -> String.compare b c = Lt -> String.compare a c = Lt.
Proof.
  revert b c. induction a as [| x a IH]; intros [| y b] [| z c];
    cbn [String.compare]; try discriminate; try reflexivity.
  unfold Ascii.compare.
  destruct (N.compare_spec (N_of_ascii x) (N_of_ascii y)) as [Exy | Hxy | Hxy];
    try discriminate;
    destruct (N.compare_spec (N_of_ascii y) (N_of_ascii z)) as [Eyz | Hyz | Hyz];
    try discriminate; intros H1 H2.
  - rewrite Exy, Eyz, N.compare_refl. exact (IH _ _ H1 H2).
  - rewrite Exy. apply N.compare_lt_iff in Hyz. rewrite Hyz. reflexivity.
  - rewrite <- Eyz. apply N.compare_lt_iff in Hxy. rewrite Hxy. reflexivity.
  - assert (Hxz : (N_of_ascii x < N_of_ascii z)%N) by lia.
    apply N.compare_lt_iff in Hxz. rewrite Hxz. reflexivity.
Qed.

Lemma string_leb_refl (s : string) : String.leb s s = true.
Proof. unfold String.leb. rewrite string_compare_refl. reflexivity. Qed.

Lemma string_leb_trans (a b c : string) :
  String.leb a b = true -> String.leb b c = true -> String.leb a c = true.
Proof.
  unfold String.leb.
  destruct (String.compare a b) eqn:Eab; [| | discriminate];
    destruct (String.compare b c) eqn:Ebc; try discriminate; intros _ _.
  - apply String.compare_eq_iff in Eab, Ebc. subst.
    rewrite string_compare_refl. reflexivity.
  - apply String.compare_eq_iff in Eab. subst. rewrite Ebc. reflexivity.
  - apply String.compare_eq_iff in Ebc. subst. rewrite Eab. reflexivity.
  - rewrite (string_compare_lt_trans _ _ _ Eab Ebc). reflexivity.
Qed.

Lemma string_ltb_leb (a b : string) : String.ltb a b = true -> String.leb a b = true.
Proof.
  unfold String.ltb, String.leb. destruct (String.compare a b);
    try discriminate; reflexivity.
Qed.

Lemma string_not_ltb_leb (a b : string) :
  String.ltb a b = false -> String.leb b a = true.
Proof.
  unfold String.ltb, String.leb. rewrite (String.compare_antisym a b).
  destruct (String.compare b a); cbn [CompOpp]; try discriminate; reflexivity.
Qed.

(** *** The head of the sorted list is the greatest file *)

Definition greatest (p : string) (l : list string) : Prop :=
  In p l /\ forall q, In q l -> String.leb q p = true.

Lemma insert_descending_in (x : string) (l : list string) (q : string) :
  In q (insert_descending x l) <-> q = x \/ In q l.
Proof.
  induction l as [| y l IH]; cbn [insert_descending In].
  - intuition.
  - destruct (String.ltb x y); cbn [In]; [rewrite IH |]; intuition.
Qed.

Lemma sort_descending_in (l : list string) (q : string) :
  In q (sort_descending l) <-> In q l.
Proof.
  induction l as [| x l IH]; [reflexivity |].
  cbn [sort_descending fold_right]. fold (sort_descending l).
  rewrite insert_descending_in, IH. cbn [In]. intuition.
Qed.

Lemma sort_descending_head (l : list string) (p : string) (rest : list string) :
  sort_descending l = p :: rest -> greatest p l.
Proof.
  revert p rest. induction l as [| x l IH]; intros p rest H; [discriminate |].
  cbn [sort_descending fold_right] in H. fold (sort_descending l) in H.
  destruct (sort_descending l) as [| y s] eqn:Es.
  - cbn in H. injection H as <- <-.
    assert (Hl : l = []).
    { destruct l as [| z l]; [reflexivity |].
      assert (Hz : In z (sort_descending (z :: l)))
        by (apply sort_descending_in; left; reflexivity).
      rewrite Es in Hz. contradiction. }
    subst l. split; [left; reflexivity |].
    intros q [<- | []]. apply string_leb_refl.
  - destruct (IH y s eq_refl) as [Hin Hmax].
    cbn [insert_descending] in H. destruct (String.ltb x y) eqn:Exy.
    + injection H as <- _. split; [right; exact Hin |].
      intros q [<- | Hq]; [apply string_ltb_leb, Exy | apply Hmax, Hq].
    + injection H as <- _. split; [left; reflexivity |].
      apply string_not_ltb_leb in Exy.
      intros q [<- | Hq]; [apply string_leb_refl |].
      apply (string_leb_trans _ y); [apply Hmax, Hq | exact Exy].
Qed.


(** *** File names order as time does *)

Lemma string_compare_app_prefix (p a b : string) :
  String.compare (p ++ a) (p ++ b) = String.compare a b.
Proof.
  induction p as [| c p IH]; [reflexivity |].
  cbn [String.append String.compare]. rewrite ascii_compare_refl. exact IH.
Qed.

Lemma string_app_assoc (a b c : string) :
  ((a ++ b) ++ c)%string = (a ++ b ++ c)%string.
Proof.
  induction a as [| x a IH]; [reflexivity |].
  cbn [String.append]. rewrite IH. reflexivity.
Qed.

Lemma digit_char_compare (d1 d2 : Z) :
  (0 <= d1 < 10)%Z -> (0 <= d2 < 10)%Z ->
  Ascii.compare (digit_char d1) (digit_char d2) = Z.compare d1 d2.
Proof.
  intros H1 H2. unfold Ascii.compare, digit_char.
  rewrite !N_ascii_embedding by lia.
  rewrite Z2N.inj_compare by lia.
  apply Z.add_compare_mono_l.
Qed.

(** The number a list of decimal digits writes. *)
Fixpoint digits_value (ds : list Z) : Z :=
  match ds with
  | [] => 0
  | d :: rest => d * 10 ^ Z.of_nat (List.length rest) + digits_value rest
  end%Z.

Definition decimal_digits (ds : list Z) : Prop :=
  Forall (fun d => (0 <= d < 10)%Z) ds.

Lemma digits_value_bound (ds : list Z) :
  decimal_digits ds -> (0 <= digits_value ds < 10 ^ Z.of_nat (List.length ds))%Z.
Proof.
  induction 1 as [| d ds Hd _ IH]; cbn [digits_value List.length]; [lia |].
  rewrite Nat2Z.inj_succ, Z.pow_succ_r by lia.
  assert (Hp : (0 < 10 ^ Z.of_nat (List.length ds))%Z)
    by (apply Z.pow_pos_nonneg; lia).
  nia.
Qed.

(** Two digit strings of one length compare as the numbers they write. *)
Lemma digits_string_compare (ds1 ds2 : list Z) (r1 r2 : string) :
  decimal_digits ds1 -> decimal_digits ds2 ->
  List.length ds1 = List.length ds2 ->
  String.compare (digits_string ds1 ++ r1) (digits_string ds2 ++ r2)
  = match Z.compare (digits_value ds1) (digits_value ds2) with
    | Eq => String.compare r1 r2
    | c => c
    end.
Proof.
  intros H1. revert ds2. induction H1 as [| d1 ds1 Hd1 H1 IH];
    intros [| d2 ds2] H2 Hlen; try discriminate.
  - cbn. reflexivity.
  - pose proof (Forall_inv H2) as Hd2. pose proof (Forall_inv_tail H2) as H2'.
    injection Hlen as Hlen.
    cbn [digits_string String.append String.compare digits_value].
    rewrite digit_char_compare by assumption.
    rewrite (IH ds2 H2' Hlen), <- Hlen.
    pose proof (digits_value_bound ds1 H1) as B1.
    pose proof (digits_value_bound ds2 H2') as B2.
    rewrite <- Hlen in B2.
    set (p := (10 ^ Z.of_nat (List.length ds1))%Z) in *.
    destruct (Z.compare_spec d1 d2) as [-> | Hlt | Hgt].
    + destruct (Z.compare_spec (digits_value ds1) (digits_value ds2))
        as [E | Hl | Hg].
      * rewrite E, Z.compare_refl. reflexivity.
      * assert (C : (d2 * p + digits_value ds1 ?= d2 * p + digits_value ds2)%Z = Lt)
          by (apply Z.compare_lt_iff; lia).
        rewrite C. reflexivity.
      * assert (C : (d2 * p + digits_value ds1 ?= d2 * p + digits_value ds2)%Z = Gt)
          by (apply Z.compare_gt_iff; lia).
        rewrite C. reflexivity.
    + assert (C : (d1 * p + digits_value ds1 ?= d2 * p + digits_value ds2)%Z = Lt)
        by (apply Z.compare_lt_iff; nia).
      rewrite C. reflexivity.
    + assert (C : (d1 * p + digits_value ds1 ?= d2 * p + digits_value ds2)%Z = Gt)
        by (apply Z.compare_gt_iff; nia).
      rewrite C. reflexivity.
Qed.

Ltac div_lia := Z.to_euclidean_division_equations; lia.

Lemma two_digits_decimal (n : Z) : (0 <= n < 100)%Z -> decimal_digits (two_digits n).
Proof.
  intros H. unfold decimal_digits, two_digits.
  repeat (apply Forall_cons; [cbv beta; div_lia |]). apply Forall_nil.
Qed.

Lemma four_digits_decimal (n : Z) :
  (0 <= n < 10000)%Z -> decimal_digits (four_digits n).
Proof.
  intros H. unfold decimal_digits, four_digits.
  repeat (apply Forall_cons; [cbv beta; div_lia |]). apply Forall_nil.
Qed.

Lemma date_digits_value (d : datetime) :
  datetime_ok d ->
  decimal_digits (four_digits (dt_year d) ++ two_digits (dt_month d)
                  ++ two_digits (dt_day d)) /\
  digits_value (four_digits (dt_year d) ++ two_digits (dt_month d)
                ++ two_digits (dt_day d))
  = ((dt_year d * 100 + dt_month d) * 100 + dt_day d)%Z.
Proof.
  intros (Hy & Hm & Hd & _). split.
  - apply Forall_app. split; [apply four_digits_decimal; lia |].
    apply Forall_app. split; apply two_digits_decimal; assumption.
  - unfold four_digits, two_digits. cbn [app digits_value List.length].
    change (10 ^ Z.of_nat 7)%Z with 10000000%Z.
    change (10 ^ Z.of_nat 6)%Z with 1000000%Z.
    change (10 ^ Z.of_nat 5)%Z with 100000%Z.
    change (10 ^ Z.of_nat 4)%Z with 10000%Z.
    change (10 ^ Z.of_nat 3)%Z with 1000%Z.
    change (10 ^ Z.of_nat 2)%Z with 100%Z.
    change (10 ^ Z.of_nat 1)%Z with 10%Z.
    change (10 ^ Z.of_nat 0)%Z with 1%Z.
    div_lia.
Qed.

Lemma time_digits_value (d : datetime) :
  datetime_ok d ->
  decimal_digits (two_digits (dt_hour d) ++ two_digits (dt_minute d)
                  ++ two_digits (dt_second d)) /\
  digits_value (two_digits (dt_hour d) ++ two_digits (dt_minute d)
                ++ two_digits (dt_second d))
  = ((dt_hour d * 100 + dt_minute d) * 100 + dt_second d)%Z.
Proof.
  intros (_ & _ & _ & Hh & Hm & Hs). split.
  - apply Forall_app. split; [apply two_digits_decimal; assumption |].
    apply Forall_app. split; apply two_digits_decimal; assumption.
  - unfold two_digits. cbn [app digits_value List.length].
    change (10 ^ Z.of_nat 5)%Z with 100000%Z.
    change (10 ^ Z.of_nat 4)%Z with 10000%Z.
    change (10 ^ Z.of_nat 3)%Z with 1000%Z.
    change (10 ^ Z.of_nat 2)%Z with 100%Z.
    change (10 ^ Z.of_nat 1)%Z with 10%Z.
    change (10 ^ Z.of_nat 0)%Z with 1%Z.
    div_lia.
Qed.

Lemma lexicographic_compare (M a1 a2 b1 b2 : Z) :
  (0 <= b1 < M)%Z -> (0 <= b2 < M)%Z ->
  match (a1 ?= a2)%Z with
  | Eq => match (b1 ?= b2)%Z with Eq => Eq | c => c end
  | c => c
  end = (a1 * M + b1 ?= a2 * M + b2)%Z.
Proof.
  intros H1 H2. symmetry.
  destruct (Z.compare_spec a1 a2) as [-> | Hlt | Hgt].
  - destruct (Z.compare_spec b1 b2) as [-> | Hl | Hg].
    + apply Z.compare_refl.
    + apply Z.compare_lt_iff. lia.
    + apply Z.compare_gt_iff. lia.
  - apply Z.compare_lt_iff. nia.
  - apply Z.compare_gt_iff. nia.
Qed.

(** The names of two scorecard files compare as their times do. *)
Lemma file_name_compare (d1 d2 : datetime) :
  datetime_ok d1 -> datetime_ok d2 ->
  String.compare (scorecards_file_name d1) (scorecards_file_name d2)
  = Z.compare (datetime_key d1) (datetime_key d2).
Proof.
  intros H1 H2. unfold scorecards_file_name, strftime_compact.
  rewrite string_compare_app_prefix.
  destruct (date_digits_value d1 H1) as [Dd1 Dv1].
  destruct (date_digits_value d2 H2) as [Dd2 Dv2].
  destruct (time_digits_value d1 H1) as [Td1 Tv1].
  destruct (time_digits_value d2 H2) as [Td2 Tv2].
  set (date1 := (four_digits (dt_year d1) ++ _)) in *.
  set (date2 := (four_digits (dt_year d2) ++ _)) in *.
  set (time1 := (two_digits (dt_hour d1) ++ _)) in *.
  set (time2 := (two_digits (dt_hour d2) ++ _)) in *.
  replace ((digits_string date1 ++ "T" ++ digits_string time1 ++ "Z") ++ ".json")%string
    with (digits_string date1 ++ String "T" (digits_string time1 ++ "Z.json"))%string.
  2:{ rewrite <- !(string_app_assoc). reflexivity. }
  replace ((digits_string date2 ++ "T" ++ digits_string time2 ++ "Z") ++ ".json")%string
    with (digits_string date2 ++ String "T" (digits_string time2 ++ "Z.json"))%string.
  2:{ rewrite <- !(string_app_assoc). reflexivity. }
  rewrite digits_string_compare by (try assumption; reflexivity).
  cbn [String.compare]. rewrite ascii_compare_refl.
  rewrite digits_string_compare by (try assumption; reflexivity).
  rewrite string_compare_refl, Dv1, Dv2, Tv1, Tv2.
  destruct H1 as (_ & _ & _ & Hh1 & Hm1 & Hs1).
  destruct H2 as (_ & _ & _ & Hh2 & Hm2 & Hs2).
  rewrite (lexicographic_compare 1000000) by lia.
  unfold datetime_key. f_equal; lia.
Qed.

Lemma file_name_is_relative (d : datetime) :
  String.prefix "/" (scorecards_file_name d) = false.
Proof. reflexivity. Qed.

Lemma file_name_matches (d : datetime) :
  matches_scorecards_pattern (scorecards_file_name d) = true.
Proof. reflexivity. Qed.

(** Two paths in one directory compare as their file names. *)
Lemma save_outputs_path_compare (out_dir : string) (d1 d2 : datetime) :
  String.compare (save_outputs_path out_dir d1) (save_outputs_path out_dir d2)
  = String.compare (scorecards_file_name d1) (scorecards_file_name d2).
Proof.
  unfold save_outputs_path, os_path_join. rewrite !file_name_is_relative.
  destruct (String.eqb out_dir "" || ends_with_slash out_dir).
  - apply string_compare_app_prefix.
  - rewrite string_compare_app_prefix. apply (string_compare_app_prefix "/").
Qed.

(** X25: the files [save_outputs] writes are ordered by name as they are
    by time: for two times from year 1000 on, the paths in one directory
    compare, as strings, the way the times compare; two saves within the
    same second write the same path, so that the later one replaces the
    earlier one. *)
Theorem scorecard_files_order_by_time (out_dir : string) (d1 d2 : datetime) :
  datetime_ok d1 -> datetime_ok d2 ->
  String.compare (save_outputs_path out_dir d1) (save_outputs_path out_dir d2)
  = Z.compare (datetime_key d1) (datetime_key d2) /\
  (save_outputs_path out_dir d1 = save_outputs_path out_dir d2 <->
   datetime_key d1 = datetime_key d2).
Proof.
  intros H1 H2.
  assert (Hc : String.compare (save_outputs_path out_dir d1)
                              (save_outputs_path out_dir d2)
               = Z.compare (datetime_key d1) (datetime_key d2)).
  { rewrite save_outputs_path_compare. apply file_name_compare; assumption. }
  split; [exact Hc |]. split.
  - intros E. rewrite E, string_compare_refl in Hc.
    symmetry in Hc. apply Z.compare_eq in Hc. exact Hc.
  - intros E. rewrite E, Z.compare_refl in Hc.
    apply String.compare_eq_iff in Hc. exact Hc.
Qed.


(** Two saves, one minute apart. *)
Definition morning : datetime := mkDatetime 2025 3 9 8 59 7.
Definition minute_later : datetime := mkDatetime 2025 3 9 9 0 7.

Lemma scorecard_files_order_by_time_witness :
  String.compare (save_outputs_path "outputs/cds" morning)
                 (save_outputs_path "outputs/cds" minute_later)
  = Z.compare (datetime_key morning) (datetime_key minute_later) /\
  (save_outputs_path "outputs/cds" morning
   = save_outputs_path "outputs/cds" minute_later <->
   datetime_key morning = datetime_key minute_later).
Proof.
  apply (scorecard_files_order_by_time "outputs/cds" morning minute_later);
    unfold datetime_ok; cbn; lia.
Defined.


(* ------------------------------------------------------------------ *)
(** ** The mock feed: [make_mock_dataframe] and [run_cds]
       ([server/mock_live_feed.py]) *)

(** [data[key] = value] on a dict: a present key keeps its place. *)
Fixpoint dict_set {A} (d : list (string * A)) (key : string) (v : A)
    : list (string * A) :=
  match d with
  | [] => [(key, v)]
  | (k, x) :: rest =>
      if String.eqb k key then (k, v) :: rest else (k, x) :: dict_set rest key v
  end.

(** [f'{n:03d}'] for a natural number. *)
Definition format_03d (n : nat) : string :=
  let digits := DecimalString.NilZero.string_of_uint (Nat.to_uint n) in
  (String.concat "" (repeat "0" (3 - String.length digits)) ++ digits)%string.

Definition live_patient_id (i : nat) : string :=
  ("LIVE-" ++ format_03d (i + 1))%string.

(** [df.iterrows()]: the rows as labelled series. *)
Definition iterrows (df : DataFrame) : list Series :=
  map (fun r => map (fun kv => (fst kv, nth r (snd kv) CNaN)) df)
      (seq 0 (nrows df)).

Section MockFeed.
Context {R : RandomSource}.

Variables (temp_model : predictor) (temp_features : list string).
Variables (seizure_model sepsis_model cardiac_model renal_model : option predictor).
Variables (prognosis_model : predictor) (prognosis_features : list string).
Variable utcnow_isoformat : string.

(** [str(x)] of a cell that is not a string. *)
Variable str_of_number : cell -> string.

Definition py_str (c : cell) : string :=
  match c with
  | CStr s => s
  | _ => str_of_number c
  end.

(** [np.random.normal(0, 1, size=n)] *)
Definition normal_array (n : Z) : M (list Q) :=
  if (n <? 0)%Z then raise (ValueError "negative dimensions are not allowed")
  else for_each (fun _ : nat => draw (normal 0 1)) (seq 0 (Z.to_nat n)).

(** [{c: np.random.normal(0, 1, size=n) for c in cols}] *)
Fixpoint draw_columns (n : Z) (cols : list string) (data : list (string * entry))
    : M (list (string * entry)) :=
  match cols with
  | [] => ret data
  | c :: rest =>
      arr <- normal_array n ;;
      draw_columns n rest (dict_set data c (Values (map CNum arr)))
  end.

(** [for col in cols: if col not in data: data[col] = np.random.normal(...)] *)
Fixpoint draw_missing_columns (n : Z) (cols : list string)
    (data : list (string * entry)) : M (list (string * entry)) :=
  match cols with
  | [] => ret data
  | c :: rest =>
      if mem_string c (map fst data) then draw_missing_columns n rest data
      else
        arr <- normal_array n ;;
        draw_missing_columns n rest (dict_set data c (Values (map CNum arr)))
  end.

(** [make_mock_dataframe] *)
Definition make_mock_dataframe (n_patients : Z) : M DataFrame :=
  now <- datetime_now ;;
  np_random_seed (now mod 1000000) ;;;
  data <- draw_columns n_patients prognosis_features [] ;;
  let ids := map (fun i => CStr (live_patient_id i))
                 (seq 0 (Z.to_nat n_patients)) in
  let data := dict_set data "patient_id" (Values ids) in
  data <- draw_missing_columns n_patients temp_features data ;;
  lift_result (pd_DataFrame data).

(** [run_cds] *)
Definition run_cds (df : DataFrame) (id_col : string) : result (list Scorecard) :=
  result_map
    (fun row =>
       rbind (dict_get row id_col) (fun id =>
       Ok (build_scorecard temp_model temp_features seizure_model sepsis_model
             cardiac_model renal_model prognosis_model prognosis_features
             utcnow_isoformat (py_str id) row)))
    (iterrows df).

End MockFeed.

Lemma dict_set_keys {A} (d : list (string * A)) key v k :
  In k (map fst (dict_set d key v)) <-> k = key \/ In k (map fst d).
Proof.
  induction d as [| [k0 x] d IH]; cbn [dict_set map fst In].
  - intuition.
  - destruct (String.eqb_spec k0 key) as [-> | Hne]; cbn [map fst In].
    + intuition.
    + rewrite IH. intuition.
Qed.

Lemma dict_get_set_same {A} (d : list (string * A)) key v :
  dict_get (dict_set d key v) key = Ok v.
Proof.
  induction d as [| [k0 x] d IH]; cbn [dict_set dict_get].
  - rewrite String.eqb_refl. reflexivity.
  - destruct (String.eqb_spec k0 key) as [-> | Hne]; cbn [dict_get].
    + rewrite String.eqb_refl. reflexivity.
    + destruct (String.eqb_spec k0 key); [contradiction | exact IH].
Qed.

Lemma dict_get_set_other {A} (d : list (string * A)) key v other :
  other <> key -> dict_get (dict_set d key v) other = dict_get d other.
Proof.
  intros Hne. induction d as [| [k0 x] d IH]; cbn [dict_set dict_get].
  - destruct (String.eqb_spec key other); [congruence | reflexivity].
  - destruct (String.eqb_spec k0 key) as [-> | Hk]; cbn [dict_get].
    + destruct (String.eqb_spec key other); [congruence | reflexivity].
    + rewrite IH. reflexivity.
Qed.

Lemma dict_get_in_keys {A} (d : list (string * A)) key :
  In key (map fst d) -> exists v, dict_get d key = Ok v /\ In (key, v) d.
Proof.
  induction d as [| [k0 x] d IH]; cbn [map fst In dict_get]; [contradiction |].
  intros Hin. destruct (String.eqb_spec k0 key) as [-> | Hne].
  - exists x. split; [reflexivity | left; reflexivity].
  - destruct Hin as [E | Hin]; [contradiction |].
    destruct (IH Hin) as (v & Hv & Hv'). exists v. split; [exact Hv | right; exact Hv'].
Qed.

(** Every value of the dict is an array of [n] cells. *)
Definition arrays_of (n : nat) (data : list (string * entry)) : Prop :=
  Forall (fun kv => exists l, snd kv = Values l /\ List.length l = n) data.

Lemma arrays_of_set n data key l :
  arrays_of n data -> List.length l = n ->
  arrays_of n (dict_set data key (Values l)).
Proof.
  intros Hd Hl. induction Hd as [| [k0 x] d Hx Hd IH]; cbn [dict_set].
  - repeat constructor. cbn. eauto.
  - destruct (String.eqb k0 key); constructor; try assumption.
    cbn. eauto.
Qed.

Lemma pd_DataFrame_arrays n (data : list (string * entry)) :
  arrays_of n data -> data <> [] ->
  exists df,
    pd_DataFrame data = Ok df /\
    columns df = map fst data /\
    rows_of n df /\ nrows df = n /\
    forall key l, dict_get data key = Ok (Values l) -> get_column df key = Ok l.
Proof.
  intros Hd Hne.
  assert (Hlens : array_lengths data = repeat n (List.length data)).
  { clear Hne. induction Hd as [| [k x] d (l & Hx & Hl) Hd IH]; [reflexivity |].
    cbn [snd] in Hx. subst x. cbn [array_lengths List.length repeat].
    rewrite Hl, IH. reflexivity. }
  assert (Hb : map (fun kv => (fst kv, broadcast n (snd kv))) data
               = map (fun kv => (fst kv, match snd kv with
                                         | Values l => l
                                         | Scalar c => repeat c n
                                         end)) data) by reflexivity.
  exists (map (fun kv => (fst kv, broadcast n (snd kv))) data).
  split.
  { unfold pd_DataFrame. destruct data as [| kv data]; [contradiction |].
    rewrite Hlens. cbn [List.length repeat].
    assert (Hall : forallb (Nat.eqb n) (repeat n (List.length data)) = true).
    { induction (List.length data) as [| m IHm]; [reflexivity |].
      cbn [repeat forallb]. rewrite Nat.eqb_refl. exact IHm. }
    rewrite Hall. reflexivity. }
  split; [unfold columns; rewrite map_map; reflexivity |].
  split.
  { unfold rows_of. apply Forall_map.
    eapply Forall_impl; [| exact Hd]. intros [k x] (l & Hx & Hl).
    cbn [snd fst] in *. subst x. exact Hl. }
  split.
  { destruct data as [| [k x] data]; [contradiction |].
    pose proof (Forall_inv Hd) as (l & Hx & Hl). cbn [snd] in Hx. subst x.
    exact Hl. }
  intros key l. unfold get_column. clear Hne Hlens Hb.
  induction Hd as [| [k x] d _ _ IH]; cbn [map dict_get fst snd]; [discriminate |].
  destruct (String.eqb k key); [| exact IH].
  intros H. injection H as ->. reflexivity.
Qed.

Lemma result_map_all_ok {A B} (f : A -> result B) (g : A -> B) (l : list A) :
  (forall x, In x l -> f x = Ok (g x)) -> result_map f l = Ok (map g l).
Proof.
  induction l as [| x l IH]; intros H; [reflexivity |].
  cbn [result_map map]. rewrite (H x (or_introl eq_refl)). cbn [rbind].
  rewrite IH by (intros y Hy; apply H; right; exact Hy). reflexivity.
Qed.

Lemma result_map_map {A B C} (f : B -> result C) (g : A -> B) (l : list A) :
  result_map f (map g l) = result_map (fun x => f (g x)) l.
Proof.
  induction l as [| x l IH]; [reflexivity |].
  cbn [map result_map]. rewrite IH. reflexivity.
Qed.

Lemma result_map_some_ok {A B} (f : A -> result B) (l : list A) :
  (forall x, In x l -> exists y, f x = Ok y) -> exists ys, result_map f l = Ok ys.
Proof.
  induction l as [| x l IH]; intros H; [eexists; reflexivity |].
  cbn [result_map]. destruct (H x (or_introl eq_refl)) as (y & ->). cbn [rbind].
  destruct (IH ltac:(intros z Hz; apply H; right; exact Hz)) as (ys & ->).
  eexists. reflexivity.
Qed.

(** Row [r] of a frame reads the cell of row [r] in every column the
    frame has. *)
Lemma row_lookup (df : DataFrame) (r : nat) (key : string) (c : column) :
  get_column df key = Ok c ->
  dict_get (map (fun kv => (fst kv, nth r (snd kv) CNaN)) df) key
  = Ok (nth r c CNaN).
Proof.
  unfold get_column. induction df as [| [k v] df IH]; cbn [map dict_get fst snd];
    [discriminate |].
  destruct (String.eqb k key); [| exact IH].
  intros H. injection H as ->. reflexivity.
Qed.

Section MockFeedFacts.
Context {R : RandomSource}.

Variables (temp_model : predictor) (temp_features : list string).
Variables (seizure_model sepsis_model cardiac_model renal_model : option predictor).
Variables (prognosis_model : predictor) (prognosis_features : list string).
Variable utcnow_isoformat : string.
Variable str_of_number : cell -> string.

Lemma normal_array_returns (n : Z) :
  (0 <= n)%Z ->
  returns (normal_array n) (fun l => List.length l = Z.to_nat n).
Proof.
  intros Hn. unfold normal_array.
  destruct (Z.ltb_spec n 0) as [H | _]; [lia |].
  eapply returns_weaken.
  - apply returns_for_each. intros i. apply total_draw.
  - intros l Hl. rewrite Hl. apply length_seq.
Qed.

Lemma draw_columns_returns (n : Z) (cols : list string) :
  (0 <= n)%Z ->
  forall data, arrays_of (Z.to_nat n) data ->
    returns (draw_columns n cols data)
      (fun data' => arrays_of (Z.to_nat n) data' /\
                    forall k, In k cols \/ In k (map fst data) ->
                              In k (map fst data')).
Proof.
  intros Hn. induction cols as [| c cols IH]; intros data Hd;
    cbn [draw_columns].
  - apply returns_ret. split; [exact Hd |]. intros k [[] | H]. exact H.
  - eapply returns_bind; [apply normal_array_returns, Hn |].
    intros arr Harr. eapply returns_weaken.
    + apply IH. apply arrays_of_set; [exact Hd |].
      rewrite length_map. exact Harr.
    + intros data' [Hd' Hk]. split; [exact Hd' |].
      intros k [[<- | Hin] | Hin]; apply Hk.
      * right. apply dict_set_keys. left. reflexivity.
      * left. exact Hin.
      * right. apply dict_set_keys. right. exact Hin.
Qed.

Lemma draw_missing_columns_returns (n : Z) (cols : list string) :
  (0 <= n)%Z ->
  forall data, arrays_of (Z.to_nat n) data ->
    returns (draw_missing_columns n cols data)
      (fun data' => arrays_of (Z.to_nat n) data' /\
                    (forall k, In k cols \/ In k (map fst data) ->
                               In k (map fst data')) /\
                    forall k, In k (map fst data) ->
                              dict_get data' k = dict_get data k).
Proof.
  intros Hn. induction cols as [| c cols IH]; intros data Hd;
    cbn [draw_missing_columns].
  - apply returns_ret. split; [exact Hd |]. split; [| reflexivity].
    intros k [[] | H]. exact H.
  - destruct (mem_string c (map fst data)) eqn:Hmem.
    + apply mem_string_in in Hmem. eapply returns_weaken; [apply IH, Hd |].
      intros data' (Hd' & Hk & Hkeep). split; [exact Hd' |].
      split; [| exact Hkeep].
      intros k [[<- | Hin] | Hin]; apply Hk; auto.
    + assert (Hnot : ~ In c (map fst data)).
      { intros H. apply mem_string_in in H. congruence. }
      eapply returns_bind; [apply normal_array_returns, Hn |].
      intros arr Harr. eapply returns_weaken.
      * apply IH. apply arrays_of_set; [exact Hd |].
        rewrite length_map. exact Harr.
      * intros data' (Hd' & Hk & Hkeep). split; [exact Hd' |]. split.
        { intros k [[<- | Hin] | Hin]; apply Hk.
          - right. apply dict_set_keys. left. reflexivity.
          - left. exact Hin.
          - right. apply dict_set_keys. right. exact Hin. }
        intros k Hin. rewrite Hkeep by (apply dict_set_keys; right; exact Hin).
        apply dict_get_set_other. intros ->. contradiction.
Qed.

(** X27: for a non-negative number of patients the mock feed frame has
    one row per patient and every column a scorecard reads: the patient
    id, every prognosis feature and every temperature feature.  [run_cds]
    on it returns one scorecard per row, in order, the scorecard of row
    [i] built for the patient id [LIVE-] followed by [i + 1] on three
    digits, from a row in which the selection of the prognosis features
    and of the temperature features both succeed. *)
Theorem mock_feed_scorecards (n_patients : Z) :
  (0 <= n_patients)%Z ->
  returns (make_mock_dataframe temp_features prognosis_features n_patients)
    (fun df =>
       nrows df = Z.to_nat n_patients /\
       (forall c, In c prognosis_features \/ In c temp_features \/
                  c = "patient_id"%string -> In c (columns df)) /\
       exists scorecards,
         run_cds temp_model temp_features seizure_model sepsis_model
           cardiac_model renal_model prognosis_model prognosis_features
           utcnow_isoformat str_of_number df "patient_id" = Ok scorecards /\
         List.length scorecards = Z.to_nat n_patients /\
         forall i, (i < Z.to_nat n_patients)%nat ->
           exists row,
             nth_error scorecards i
             = Some (build_scorecard temp_model temp_features seizure_model
                       sepsis_model cardiac_model renal_model prognosis_model
                       prognosis_features utcnow_isoformat
                       (live_patient_id i) row) /\
             (exists xs, series_select row prognosis_features = Ok xs) /\
             (exists ys, series_select row temp_features = Ok ys)).
Proof.
  intros Hn. unfold make_mock_dataframe.
  eapply returns_bind; [apply returns_now | intros now _].
  eapply returns_bind;
    [apply returns_total; intros w; eexists _, _; reflexivity | intros _ _].
  eapply returns_bind; [apply draw_columns_returns; [exact Hn | constructor] |].
  intros data1 [Hd1 Hk1]. cbv zeta.
  set (n := Z.to_nat n_patients) in *.
  set (ids := map (fun i => CStr (live_patient_id i)) (seq 0 n)).
  assert (Hids : List.length ids = n)
    by (unfold ids; rewrite length_map; apply length_seq).
  eapply returns_bind.
  { apply draw_missing_columns_returns; [exact Hn |].
    apply arrays_of_set; [exact Hd1 | exact Hids]. }
  intros data (Hd & Hk & Hkeep).
  assert (Hpid_in : In "patient_id"%string
                       (map fst (dict_set data1 "patient_id" (Values ids))))
    by (apply dict_set_keys; left; reflexivity).
  assert (Hpid : dict_get data "patient_id" = Ok (Values ids)).
  { rewrite Hkeep by exact Hpid_in. apply dict_get_set_same. }
  assert (Hne : data <> []) by (intros ->; discriminate).
  destruct (pd_DataFrame_arrays n data Hd Hne)
    as (df & Hdf & Hcols & Hrows & Hnrows & Hget).
  eapply returns_lift; [exact Hdf |].
  assert (Hin : forall c, In c prognosis_features \/ In c temp_features \/
                          c = "patient_id"%string -> In c (columns df)).
  { intros c Hc. rewrite Hcols. apply Hk.
    destruct Hc as [Hc | [Hc | ->]].
    - right. apply dict_set_keys. right. apply Hk1. left. exact Hc.
    - left. exact Hc.
    - right. exact Hpid_in. }
  split; [exact Hnrows |]. split; [exact Hin |].
  set (row_of := fun r : nat => map (fun kv : string * column =>
                                       (fst kv, nth r (snd kv) CNaN)) df).
  assert (Hselect : forall r cols,
            (forall c, In c cols -> In c (columns df)) ->
            exists xs, series_select (row_of r) cols = Ok xs).
  { intros r cols Hc. unfold series_select. apply result_map_some_ok.
    intros c Hcin. destruct (get_column_in df c (Hc c Hcin)) as (col & Hcol).
    exists (nth r col CNaN). exact (row_lookup df r c col Hcol). }
  set (card := fun r : nat =>
                 build_scorecard temp_model temp_features seizure_model
                   sepsis_model cardiac_model renal_model prognosis_model
                   prognosis_features utcnow_isoformat
                   (live_patient_id r) (row_of r)).
  assert (Hrow_id : forall r, (r < n)%nat ->
            dict_get (row_of r) "patient_id" = Ok (CStr (live_patient_id r))).
  { intros r Hr. unfold row_of.
    etransitivity; [exact (row_lookup df r "patient_id" ids (Hget _ _ Hpid)) |].
    f_equal.
    unfold ids. rewrite (nth_map_in _ _ _ _ 0%nat) by (rewrite length_seq; exact Hr).
    rewrite seq_nth by exact Hr. reflexivity. }
  exists (map card (seq 0 n)).
  split.
  { unfold run_cds, iterrows. rewrite Hnrows. fold row_of.
    rewrite result_map_map. apply result_map_all_ok.
    intros r Hr. apply in_seq in Hr. cbv beta.
    change (map (fun kv : string * list cell => (fst kv, nth r (snd kv) CNaN)) df)
      with (row_of r).
    rewrite Hrow_id by lia. reflexivity. }
  split; [rewrite length_map; apply length_seq |].
  intros i Hi. exists (row_of i). split.
  { rewrite nth_error_map, nth_error_nth' with (d := 0%nat)
      by (rewrite length_seq; exact Hi).
    rewrite seq_nth by exact Hi. reflexivity. }
  split; apply Hselect; intros c Hc; apply Hin; auto.
Qed.

End MockFeedFacts.

(** Three mock patients with two prognosis features, one of which is
    also the temperature feature. *)
Lemma mock_feed_scorecards_witness :
  returns (R := Oracle.source)
    (make_mock_dataframe ["heart_rate"]%string ["heart_rate"; "ph"]%string 3)
    (fun df =>
       nrows df = 3%nat /\
       (forall c, In c ["heart_rate"; "ph"]%string \/ In c ["heart_rate"]%string \/
                  c = "patient_id"%string -> In c (columns df)) /\
       exists scorecards,
         run_cds (fun _ => Ok 0) ["heart_rate"]%string None None None None
           (fun _ => Ok (1 # 2)) ["heart_rate"; "ph"]%string
           "2025-03-09T08:59:07" (fun _ => ""%string) df "patient_id"
         = Ok scorecards /\
         List.length scorecards = 3%nat /\
         forall i, (i < 3)%nat ->
           exists row,
             nth_error scorecards i
             = Some (build_scorecard (fun _ => Ok 0) ["heart_rate"]%string
                       None None None None (fun _ => Ok (1 # 2))
                       ["heart_rate"; "ph"]%string "2025-03-09T08:59:07"
                       (live_patient_id i) row) /\
             (exists xs, series_select row ["heart_rate"; "ph"]%string = Ok xs) /\
             (exists ys, series_select row ["heart_rate"]%string = Ok ys)).
Proof.
  apply (mock_feed_scorecards (R := Oracle.source) (fun _ => Ok 0)
           ["heart_rate"]%string None None None None (fun _ => Ok (1 # 2))
           ["heart_rate"; "ph"]%string "2025-03-09T08:59:07"
           (fun _ => ""%string) 3).
  discriminate.
Defined.

(* ------------------------------------------------------------------ *)
(** ** The temperature series never leaves the cooling phase *)

Section CoolingPhase.
Context {R : RandomSource}.

(** [simulate_rectal_temperature] for a positive time step when every
    sample takes the branch of the cooling phase. *)
Definition cooling_phase_series (baseline_temp target_temp cooling_rate : Q)
    (duration_minutes time_step : Z) : M (list Z * list Q) :=
  let time_points := np_arange duration_minutes time_step in
  if float_rounds_to_zero (cooling_rate / 60) then raise ZeroDivisionError else
  if float_rounds_to_inf
       (Qabs (baseline_temp - target_temp) / (cooling_rate / 60))
  then raise (OverflowError "cannot convert float infinity to integer") else
  temperatures <-
    for_each (fun it : nat * Z =>
      let (i, tp) := it in
      noise <- draw (normal 0 0.05) ;;
      ret (np_clip (baseline_temp - (cooling_rate / 60 * inject_Z tp) + noise)
                   (target_temp - 0.5) (baseline_temp + 0.5)))
    (enumerate time_points) ;;
  ret (time_points, temperatures).

Lemma for_each_ext_in {A B} (body1 body2 : A -> M B) (l : list A) :
  (forall x, In x l -> forall w, body1 x w = body2 x w) ->
  forall w, for_each body1 l w = for_each body2 l w.
Proof.
  induction l as [| x l IH]; intros H w; [reflexivity |].
  cbn [for_each]. unfold bind. rewrite (H x (or_introl eq_refl) w).
  destruct (body2 x w) as [[b w1] | e]; [| reflexivity].
  rewrite IH by (intros y Hy; apply H; right; exact Hy).
  reflexivity.
Qed.

Lemma bind_ext_first {A B} (c1 c2 : M A) (k : A -> M B) :
  (forall w, c1 w = c2 w) -> forall w, bind c1 k w = bind c2 k w.
Proof. intros H w. unfold bind. rewrite H. reflexivity. Qed.

Lemma enumerate_in_arange (stop step : Z) (i : nat) (tp : Z) :
  In (i, tp) (enumerate (np_arange stop step)) ->
  (i < arange_len stop step)%nat /\ tp = (Z.of_nat i * step)%Z.
Proof.
  unfold enumerate. rewrite np_arange_length. intros Hin.
  pose proof (in_combine_l _ _ _ _ Hin) as Hi. apply in_seq in Hi.
  split; [lia |].
  apply (In_nth _ _ (0%nat, 0%Z)) in Hin as (k & Hk & Ek).
  rewrite length_combine, length_seq, np_arange_length, Nat.min_id in Hk.
  rewrite combine_nth in Ek by (rewrite length_seq, np_arange_length; reflexivity).
  rewrite seq_nth in Ek by exact Hk. injection Ek as <- <-.
  apply np_arange_nth. exact Hk.
Qed.

Lemma py_int_at_least (x : Q) (n : Z) : inject_Z n <= x -> (0 <= n)%Z -> (n <= py_int x)%Z.
Proof.
  intros Hx Hn. unfold py_int.
  assert (H0 : 0 <= x).
  { apply Qle_trans with (inject_Z n); [| exact Hx].
    change 0 with (inject_Z 0). rewrite <- Zle_Qle. exact Hn. }
  assert (Hnum : (0 <= Qnum x)%Z).
  { unfold Qle in H0. cbn in H0. lia. }
  rewrite Z.quot_div_nonneg by lia.
  rewrite <- (Qfloor_Z n). apply Qfloor_resp_le in Hx.
  destruct x as [num den]. exact Hx.
Qed.

(** A recording that ends before the cooling phase does. *)
Lemma cooling_phase_run (baseline target rate rewarm : Q) (dur step : Z) :
  (0 < step)%Z -> 0 < rate ->
  inject_Z (dur + step) * (rate / 60) <= Qabs (baseline - target) ->
  forall w,
    simulate_rectal_temperature baseline target rate rewarm dur step w
    = cooling_phase_series baseline target rate dur step w.
Proof.
  intros Hstep Hrate Hlong w.
  unfold simulate_rectal_temperature, cooling_phase_series.
  destruct (Z.eqb_spec step 0) as [E | _]; [lia |].
  assert (Hr60 : 0 < rate / 60) by (apply Qlt_shift_div_l; lra).
  cbv zeta.
  destruct (float_rounds_to_zero (rate / 60)); [reflexivity |].
  destruct (float_rounds_to_inf _); [reflexivity |].
  apply bind_ext_first. clear w.
  apply for_each_ext_in. intros [i tp] Hin w1.
  apply enumerate_in_arange in Hin as [Hi ->].
  apply (arange_len_lt dur step i Hstep) in Hi.
  assert (Hcps : (Z.of_nat i
                  <? py_int (Qabs (baseline - target) / (rate / 60)
                             / inject_Z step))%Z = true).
  { apply Z.ltb_lt.
    assert (Hs : 0 < inject_Z step).
    { change 0 with (inject_Z 0). rewrite <- Zlt_Qlt. exact Hstep. }
    assert (Hnext : (Z.of_nat i + 1 <= py_int (Qabs (baseline - target) / (rate / 60)
                                               / inject_Z step))%Z).
    { apply py_int_at_least; [| lia].
      apply Qle_shift_div_l; [exact Hs |].
      apply Qle_shift_div_l; [exact Hr60 |].
      apply Qle_trans with (inject_Z (dur + step) * (rate / 60)); [| exact Hlong].
      rewrite <- inject_Z_mult.
      apply Qmult_le_compat_r; [| apply Qlt_le_weak, Hr60].
      rewrite <- Zle_Qle. lia. }
    lia. }
  rewrite Hcps. unfold bind, draw, ret.
  destruct (normal 0 0.05 (np_random w1)) as [noise s]. reflexivity.
Qed.

(** X28: a recording that ends before the cooling phase does never takes
    the branch of the maintenance phase: when
    [(duration + step) * cooling_rate / 60] does not exceed the distance
    from the baseline to the target, [simulate_rectal_temperature] is the
    loop that draws every sample around [baseline - cooling_rate / 60 * t].
    The datasets of [generate_complete_patient_dataset] are such
    recordings up to 600 hours on the 5-minute grid: the protocol's rate
    is divided by 60 before the call and by 60 again inside, so that the
    cooling phase lasts at least 660 hours. *)
Theorem temperature_stays_in_cooling_phase (pid : string) :
  (forall baseline target rate rewarm dur step w,
     (0 < step)%Z -> 0 < rate ->
     inject_Z (dur + step) * (rate / 60) <= Qabs (baseline - target) ->
     simulate_rectal_temperature baseline target rate rewarm dur step w
     = cooling_phase_series baseline target rate dur step w) /\
  returns (b <- generate_baseline_parameters pid ;;
           p <- generate_cooling_protocol (hie_severity b)
                  (baseline_rectal_temp b) ;;
           ret p)
    (fun p => forall hours step w,
       (0 < step)%Z -> (hours * 60 + step <= 39600)%Z ->
       simulate_rectal_temperature (protocol_baseline_temp p) (target_temp p)
         (cooling_rate p / 60) (rewarming_rate p / 60) (hours * 60) step w
       = cooling_phase_series (protocol_baseline_temp p) (target_temp p)
           (cooling_rate p / 60) (hours * 60) step w).
Proof.
  split.
  { intros. apply cooling_phase_run; assumption. }
  eapply returns_bind; [apply generate_baseline_parameters_returns |].
  intros b (_ & Hsev & _ & Hb).
  eapply returns_bind.
  { apply (protocol_draws (hie_severity b) (baseline_rectal_temp b)
             (fun p => target_temp p <= 33.5 /\ 0 < cooling_rate p /\
                       cooling_rate p <= 0.3 /\
                       protocol_baseline_temp p = baseline_rectal_temp b)).
    intros mt mc mr ot oc ow st sc sr now
           [? ?] [? ?] [? ?] [? ?] [? ?] [? ?] [? ?] [? ?] [? ?].
    apply in_severities in Hsev. destruct Hsev as [-> | [-> | ->]];
      eexists; (split; [reflexivity |]);
      cbn [target_temp cooling_rate protocol_baseline_temp];
      repeat split; lra. }
  intros p (Ht & Hr0 & Hr & Hbase). apply returns_ret.
  intros hours step w Hstep Hlen.
  apply cooling_phase_run; [exact Hstep | apply Qlt_shift_div_l; lra |].
  rewrite Hbase.
  assert (Habs : 3.3 <= Qabs (baseline_rectal_temp b - target_temp p)).
  { apply Qle_trans with (baseline_rectal_temp b - target_temp p);
      [lra | apply Qle_Qabs]. }
  apply Qle_trans with 3.3; [| exact Habs].
  assert (Hn : inject_Z (hours * 60 + step) <= 39600).
  { change 39600 with (inject_Z 39600). rewrite <- Zle_Qle. exact Hlen. }
  assert (Hpos : 0 < inject_Z (hours * 60 + step) \/ inject_Z (hours * 60 + step) <= 0)
    by (destruct (Qlt_le_dec 0 (inject_Z (hours * 60 + step))); auto).
  assert (E : cooling_rate p / 60 / 60 == cooling_rate p * (1 # 3600)) by field.
  rewrite E. destruct Hpos as [Hpos | Hneg]; nra.
Qed.

End CoolingPhase.
(* ------------------------------------------------------------------ *)
(** ** The scorecard of one patient: [get_patient_scorecard]
       ([server/cds_api.py]) *)

From Stdlib Require Import DecimalNat.

(** What [json.load] returns. *)
#[warnings="-register-all"] Inductive json : Type :=
| JNull
| JBool (b : bool)
| JInt (n : Z)
| JFloat (x : Q)
| JStr (s : string)
| JList (items : list json)
| JDict (members : list (string * json)).

Definition json_of_probability (p : option Q) : json :=
  match p with
  | Some q => JFloat q
  | None => JNull
  end.

(** The dict [build_scorecard] returns, as [json.dump] writes it and
    [json.load] reads it back. *)
Definition json_of_scorecard (sc : Scorecard) : json :=
  JDict
    [ ("patient_id", JStr (sc_patient_id sc));
      ("timestamp", JStr (sc_timestamp sc));
      ("probabilities",
       JDict [ ("seizure", json_of_probability (prob_seizure sc));
               ("sepsis", json_of_probability (prob_sepsis sc));
               ("cardiac", json_of_probability (prob_cardiac sc));
               ("renal", json_of_probability (prob_renal sc));
               ("prognosis_poor_outcome",
                json_of_probability (prob_prognosis_poor_outcome sc)) ]);
      ("risk_levels",
       JDict [ ("seizure", JStr (risk_seizure sc));
               ("sepsis", JStr (risk_sepsis sc));
               ("cardiac", JStr (risk_cardiac sc));
               ("renal", JStr (risk_renal sc));
               ("prognosis", JStr (risk_prognosis sc)) ]);
      ("temperature_adjustment_degC", JFloat (temperature_adjustment_degC sc));
      ("recommendations", JList (map JStr (recommendations sc))) ]%string.

(** The document [save_outputs] dumps. *)
Definition save_outputs_document (ts : string) (scorecards : list Scorecard)
    : json :=
  JDict [ ("generated_at", JStr ts);
          ("items", JList (map json_of_scorecard scorecards)) ]%string.

(** What the endpoint raises: the [HTTPException]s of the code, and what
    escapes it. *)
Inductive api_error : Type :=
| HTTPException (status_code : Z) (detail : string)
| AttributeError (msg : string)
| Uncaught (e : py_error)
| LoadError.

Inductive endpoint (A : Type) : Type :=
| JSONResponse (content : A)
| Raised (e : api_error).
Arguments JSONResponse {A} content.
Arguments Raised {A} e.

Definition endpoint_bind {A B} (r : endpoint A) (k : A -> endpoint B)
    : endpoint B :=
  match r with
  | JSONResponse a => k a
  | Raised e => Raised e
  end.

(** [type(v).__name__] *)
Definition python_type_name (v : json) : string :=
  match v with
  | JNull => "NoneType"
  | JBool _ => "bool"
  | JInt _ => "int"
  | JFloat _ => "float"
  | JStr _ => "str"
  | JList _ => "list"
  | JDict _ => "dict"
  end.

(** [v.get(key, default)]: only a dict has the method. *)
Definition json_get (v : json) (key : string) (default : json) : endpoint json :=
  match v with
  | JDict members =>
      JSONResponse (match dict_get members key with
                    | Ok x => x
                    | Raise _ => default
                    end)
  | _ => Raised (AttributeError
                   ("'" ++ python_type_name v ++ "' object has no attribute 'get'"))
  end.

(** [for sc in v]: the items of a list, the keys of a dict, the
    characters of a string. *)
Definition json_iter (v : json) : endpoint (list json) :=
  match v with
  | JList items => JSONResponse items
  | JDict members => JSONResponse (map (fun kv => JStr (fst kv)) members)
  | JStr s =>
      JSONResponse (map (fun c => JStr (String c "")) (list_ascii_of_string s))
  | _ => Raised (Uncaught (TypeError
                   ("'" ++ python_type_name v ++ "' object is not iterable")))
  end.

Section Endpoint.

(** [OUTPUT_DIR] and the names it lists; [open] followed by [json.load],
    [None] when either raises; [str] of a number, a list or a dict. *)
Variables (output_dir : string) (listing : list string).
Variable load : string -> option json.
Variable repr : json -> string.

(** [str(v)] *)
Definition json_str (v : json) : string :=
  match v with
  | JStr s => s
  | JNull => "None"
  | JBool true => "True"
  | JBool false => "False"
  | _ => repr v
  end.

(** [[sc for sc in items if str(sc.get("patient_id")) == str(patient_id)]]:
    every item is visited. *)
Fixpoint select_matches (patient_id : string) (items : list json)
    : endpoint (list json) :=
  match items with
  | [] => JSONResponse []
  | sc :: rest =>
      endpoint_bind (json_get sc "patient_id" JNull) (fun id =>
      endpoint_bind (select_matches patient_id rest) (fun found =>
      JSONResponse (if String.eqb (json_str id) patient_id
                    then sc :: found else found)))
  end.

(** [get_patient_scorecard] *)
Definition get_patient_scorecard (patient_id : string) : endpoint json :=
  match latest_scorecards_path output_dir listing with
  | None => Raised (HTTPException 404 "No CDS scorecards found")
  | Some p =>
      endpoint_bind (match load p with
                     | Some data => JSONResponse data
                     | None => Raised LoadError
                     end) (fun data =>
      endpoint_bind (json_get data "items" (JList [])) (fun items =>
      endpoint_bind (json_iter items) (fun items =>
      endpoint_bind (select_matches patient_id items) (fun matches =>
      match matches with
      | [] => Raised (HTTPException 404 "Patient not found in latest scorecards")
      | sc :: _ => JSONResponse sc
      end))))
  end.

End Endpoint.

(** *** The patient ids of the mock feed are distinct *)

Definition parse_decimal (s : string) : option nat :=
  option_map Nat.of_uint (DecimalString.NilEmpty.uint_of_string s).

Lemma parse_decimal_zero (s : string) :
  parse_decimal (String "0" s) = parse_decimal s.
Proof.
  unfold parse_decimal. cbn [DecimalString.NilEmpty.uint_of_string].
  destruct (DecimalString.NilEmpty.uint_of_string s) as [d |]; reflexivity.
Qed.

Lemma parse_decimal_digits (n : nat) :
  parse_decimal (DecimalString.NilZero.string_of_uint (Nat.to_uint n)) = Some n.
Proof.
  unfold parse_decimal.
  rewrite <- (DecimalNat.Unsigned.of_to n) at 2.
  destruct (Nat.to_uint n) as [| d | d | d | d | d | d | d | d | d | d ];
    [reflexivity | ..];
    unfold DecimalString.NilZero.string_of_uint;
    rewrite DecimalString.NilEmpty.usu; reflexivity.
Qed.

Lemma parse_format_03d (n : nat) : parse_decimal (format_03d n) = Some n.
Proof.
  unfold format_03d. cbv zeta.
  pose proof (parse_decimal_digits n) as H.
  set (digits := DecimalString.NilZero.string_of_uint (Nat.to_uint n)) in *.
  assert (Hk : (3 - String.length digits <= 3)%nat) by lia.
  destruct (3 - String.length digits)%nat as [| [| [| [| k]]]]; [| | | | lia];
    cbn [repeat String.concat String.append];
    rewrite ?parse_decimal_zero; exact H.
Qed.

Lemma live_patient_id_inj (i j : nat) :
  live_patient_id i = live_patient_id j -> i = j.
Proof.
  unfold live_patient_id. cbn [String.append]. intros E.
  injection E as E.
  assert (H : Some (i + 1)%nat = Some (j + 1)%nat)
    by (rewrite <- !parse_format_03d, E; reflexivity).
  injection H as H. lia.
Qed.

(** *** Looking a patient up in the file of the latest save *)

Lemma select_matches_scorecards (repr : json -> string) (patient_id : string)
    (scorecards : list Scorecard) :
  select_matches repr patient_id (map json_of_scorecard scorecards)
  = JSONResponse
      (map json_of_scorecard
         (filter (fun sc => String.eqb (sc_patient_id sc) patient_id) scorecards)).
Proof.
  induction scorecards as [| sc rest IH]; [reflexivity |].
  cbn [map select_matches filter]. rewrite IH.
  cbn [json_of_scorecard json_get dict_get endpoint_bind json_str].
  rewrite String.eqb_refl. cbn [json_str].
  destruct (String.eqb (sc_patient_id sc) patient_id); reflexivity.
Qed.

Lemma filter_head_find {A} (f : A -> bool) (l : list A) :
  hd_error (filter f l) = find f l.
Proof.
  induction l as [| x l IH]; [reflexivity |].
  cbn [filter find]. destruct (f x); [reflexivity | exact IH].
Qed.

(** The ids [LIVE-001], [LIVE-002], ... in order: the id of position [k]
    finds the scorecard of position [k]. *)
Lemma find_live_patient (scorecards : list Scorecard) :
  forall start n k,
    map sc_patient_id scorecards = map live_patient_id (seq start n) ->
    find (fun sc => String.eqb (sc_patient_id sc) (live_patient_id (start + k)))
         scorecards
    = nth_error scorecards k.
Proof.
  induction scorecards as [| sc rest IH]; intros start n k Hids.
  - destruct k; reflexivity.
  - destruct n as [| n]; [discriminate |].
    cbn [map seq] in Hids. injection Hids as Hid Hrest.
    cbn [find]. rewrite Hid. destruct k as [| k].
    + rewrite Nat.add_0_r, String.eqb_refl. reflexivity.
    + destruct (String.eqb_spec (live_patient_id start)
                                (live_patient_id (start + S k))) as [E | _].
      { apply live_patient_id_inj in E. lia. }
      cbn [nth_error]. rewrite <- (IH (S start) n k Hrest).
      replace (S start + k)%nat with (start + S k)%nat by lia. reflexivity.
Qed.

Lemma glob_of_saves (out_dir : string) (saves : list datetime) :
  out_dir <> ""%string -> ends_with_slash out_dir = false ->
  glob_scorecards out_dir (map scorecards_file_name saves)
  = map (save_outputs_path out_dir) saves.
Proof.
  intros Hdir Hslash. unfold glob_scorecards.
  assert (Hf : filter matches_scorecards_pattern (map scorecards_file_name saves)
               = map scorecards_file_name saves).
  { induction saves as [| d l IH]; [reflexivity |].
    cbn [map filter]. rewrite file_name_matches, IH. reflexivity. }
  rewrite Hf, map_map. apply map_ext. intros d.
  unfold save_outputs_path, os_path_join.
  rewrite file_name_is_relative, Hslash.
  destruct (String.eqb_spec out_dir ""); [contradiction | reflexivity].
Qed.

(** The file of a save that no other save is later than is the one
    [latest_scorecards_path] returns. *)
Lemma latest_path_of_last_save (out_dir : string) (saves : list datetime)
    (now : datetime) :
  out_dir <> ""%string -> ends_with_slash out_dir = false ->
  Forall datetime_ok saves -> In now saves ->
  (forall d, In d saves -> (datetime_key d <= datetime_key now)%Z) ->
  latest_scorecards_path out_dir (map scorecards_file_name saves)
  = Some (save_outputs_path out_dir now).
Proof.
  intros Hdir Hslash Hok Hnow Hlast.
  rewrite Forall_forall in Hok.
  unfold latest_scorecards_path. rewrite (glob_of_saves out_dir saves Hdir Hslash).
  assert (Hin0 : In (save_outputs_path out_dir now)
                    (map (save_outputs_path out_dir) saves))
    by (apply in_map; exact Hnow).
  destruct (map (save_outputs_path out_dir) saves) as [| f files] eqn:Ef;
    [contradiction |].
  destruct (sort_descending (f :: files)) as [| p s] eqn:Es.
  { exfalso.
    assert (Hin : In f (sort_descending (f :: files)))
      by (apply sort_descending_in; left; reflexivity).
    rewrite Es in Hin. contradiction. }
  destruct (sort_descending_head _ _ _ Es) as [Hin Hmax].
  rewrite <- Ef in Hin. apply in_map_iff in Hin as (d & <- & Hd).
  cbn [hd_error]. f_equal.
  pose proof (Hmax _ Hin0) as Hleb. unfold String.leb in Hleb.
  assert (Hc : String.compare (save_outputs_path out_dir now)
                              (save_outputs_path out_dir d)
               = Z.compare (datetime_key now) (datetime_key d)).
  { rewrite save_outputs_path_compare. apply file_name_compare; auto. }
  rewrite Hc in Hleb. pose proof (Hlast d Hd) as Hle.
  assert (E : datetime_key now = datetime_key d).
  { destruct (Z.compare_spec (datetime_key now) (datetime_key d));
      [assumption | lia | discriminate]. }
  rewrite E, Z.compare_refl in Hc.
  apply String.compare_eq_iff in Hc. symmetry. exact Hc.
Qed.

Lemma lookup_in_document (out_dir : string) (listing : list string)
    (load : string -> option json) (repr : json -> string)
    (p ts : string) (scorecards : list Scorecard) (patient_id : string) :
  latest_scorecards_path out_dir listing = Some p ->
  load p = Some (save_outputs_document ts scorecards) ->
  get_patient_scorecard out_dir listing load repr patient_id
  = match find (fun sc => String.eqb (sc_patient_id sc) patient_id) scorecards with
    | Some sc => JSONResponse (json_of_scorecard sc)
    | None => Raised (HTTPException 404 "Patient not found in latest scorecards")
    end.
Proof.
  intros Hp Hload. unfold get_patient_scorecard. rewrite Hp, Hload.
  cbn [endpoint_bind save_outputs_document json_get dict_get String.eqb
       Ascii.eqb Bool.eqb json_iter].
  rewrite select_matches_scorecards. cbn [endpoint_bind].
  rewrite <- filter_head_find.
  destruct (filter _ scorecards) as [| sc rest]; reflexivity.
Qed.


(** Two saves one minute apart; the later one holds two patients of the
    mock feed, the earlier file cannot be read. *)
Definition sample_scorecard (i : nat) (risk : string) : Scorecard :=
  mkScorecard (live_patient_id i) "2025-03-09T09:00:07Z"
    None None None None (Some (1 # 2))
    "LOW" "LOW" "LOW" "LOW" risk 0
    ["Maintain current temperature; continue monitoring."]%string.

Definition sample_scorecards : list Scorecard :=
  [sample_scorecard 0 "MED"; sample_scorecard 1 "LOW"]%string.

Definition sample_load (p : string) : option json :=
  if String.eqb p (save_outputs_path "outputs/cds" minute_later)
  then Some (save_outputs_document (strftime_compact minute_later)
               sample_scorecards)
  else None.

